(** * mongodb-log-tools: the [info] pass over a structured log file

    A shallow embedding of package [info] of SpencerBrown/mongodb-log-tools,
    in its two variants:

    - [Baseline]: [info/info.go] (component [CONTROL] only);
    - [Extended]: the second copy of the package, which also reads [REPL]
      records, log rotations ([Process Details]) and replica set
      configurations.

    The Go code prints with [fmt.Printf], mutates one [startupInfoT] through a
    pointer, and crashes (panics) on a failed type assertion.  The embedding
    is a small monad [go] that collects the [Printf] calls in order and ends
    either with a returned value or with a panic; the [startupInfoT] is passed
    in and out explicitly.

    What the code calls in other packages ([encoding/json], [time.Parse],
    [Time.Format], [yaml.Marshal], [os.Open] with [bufio.Scanner]) is the
    class [Env]: every theorem holds whatever these functions answer.  The
    small, fixed behaviour of [time.Time] comparisons, [strconv.Atoi] and the
    [float64] to [int] conversion is written out.  [int] is 64 bits wide
    (GOARCH=amd64). *)

From stdpp Require Import base option list strings pretty gmap.
From Stdlib Require Import ZArith Lia Floats.SpecFloat.
From Stdlib Require Import Strings.Byte Strings.Ascii.
From Stdlib Require Import Sorting.Permutation.

#[local] Set Warnings "-register-all".
#[local] Open Scope Z_scope.

(** ** Go values *)

(** [[]byte].  The code never tests a byte slice for [nil], so [nil] is the
    empty list. *)
Abbreviation bytes := (list Byte.byte).

(** A Go [string] is a sequence of bytes, as is a Rocq [string]. *)
Definition string_of_bytes (b : bytes) : string := String.string_of_list_byte b.
Definition bytes_of_string (s : string) : bytes := String.list_byte_of_string s.

(** An [error] is modelled by its message, [err.Error()], which is all that
    [%v] prints of it. *)
Abbreviation error := string (only parsing).

(** [(T, error)] results of library calls whose [T] is not read on error. *)
Inductive result (A : Type) : Type :=
| Ok (a : A)
| Err (err : error).
Arguments Ok {A} a.
Arguments Err {A} err.

(** [float64]: an IEEE 754 binary64 value. *)
Abbreviation float64 := spec_float (only parsing).

Definition minInt64 : Z := - 2 ^ 63.
Definition maxInt64 : Z := 2 ^ 63 - 1.

(** A 64-bit [int] after an arithmetic operation: two's complement
    wrap-around. *)
Definition wrap64 (z : Z) : Z := (z + 2 ^ 63) mod 2 ^ 64 - 2 ^ 63.

(** [int(f)] for [f float64]: the fraction is discarded (truncation towards
    zero).  Where the value does not fit, Go leaves the result to the
    implementation; amd64's CVTTSD2SQ gives the smallest [int64]. *)
Definition int_of_float64 (f : float64) : Z :=
  match f with
  | S754_zero _ => 0
  | S754_finite s m e =>
      let mag := if 0 <=? e then Z.pos m * 2 ^ e else Z.pos m / 2 ^ (- e) in
      let v := if s then - mag else mag in
      if (minInt64 <=? v) && (v <=? maxInt64) then v else minInt64
  | S754_infinity _ | S754_nan => minInt64
  end.

(** The [float64] of a small integer, for examples. *)
Definition float64_of_Z (z : Z) : float64 :=
  match z with
  | 0 => S754_zero false
  | Z.pos p => S754_finite false p 0
  | Z.neg p => S754_finite true p 0
  end.

(** [any]: what [encoding/json] stores in an [interface{}]: [nil] for a JSON
    null, and so what indexing a map with an absent key gives as well. *)
Inductive any : Type :=
| any_nil
| any_bool (b : bool)
| any_float64 (f : float64)
| any_string (s : string)
| any_slice (l : list any)
| any_map (m : gmap string any).

(** [m[key]] on a [map[string]any]: the zero value [nil] when absent. *)
Definition index (m : gmap string any) (key : string) : any :=
  default any_nil (m !! key).

(** [v != nil] for an interface value. *)
Definition not_nil (v : any) : bool :=
  match v with any_nil => false | _ => true end.

(** ** Panics, output and the [go] monad *)

(** The value of a run-time panic.  The code panics only on failed type
    assertions [v.(T)]: "interface conversion: interface {} is ..., not T". *)
Inductive panic_value : Type :=
| interface_conversion (v : any) (want : string).

(** One operand of a [fmt.Printf] call. *)
Inductive arg : Type :=
| arg_string (s : string)       (* a string under %s *)
| arg_bytes (b : bytes)         (* a []byte under %s *)
| arg_int (n : Z)               (* an int under %d *)
| arg_Duration (d : Z).         (* a time.Duration under %s, in nanoseconds *)

(** One [fmt.Printf] call: the format and its operands. *)
Record print : Type := Printf_call { format : string; operands : list arg }.

Inductive outcome (A : Type) : Type :=
| Return (a : A)
| Panic (p : panic_value).
Arguments Return {A} a.
Arguments Panic {A} p.

(** What running a piece of Go code gives: the lines printed, in order, and
    how it ended. *)
Definition go (A : Type) : Type := list print * outcome A.

#[global] Instance go_ret : MRet go := λ A a, ([], Return a).

#[global] Instance go_bind : MBind go := λ A B f m,
  match m with
  | (out, Return a) => let '(out', r) := f a in (out ++ out', r)
  | (out, Panic p) => (out, Panic p)
  end.

Definition Printf (fmt : string) (ops : list arg) : go unit :=
  ([Printf_call fmt ops], Return tt).

Definition panic {A} (p : panic_value) : go A := ([], Panic p).

(** Type assertions [v.(T)]; each panics unless [v] holds a [T]. *)
Definition assert_map (v : any) : go (gmap string any) :=
  match v with
  | any_map m => mret m
  | _ => panic (interface_conversion v "map[string]interface {}")
  end.

Definition assert_float64 (v : any) : go float64 :=
  match v with
  | any_float64 f => mret f
  | _ => panic (interface_conversion v "float64")
  end.

Definition assert_string (v : any) : go string :=
  match v with
  | any_string s => mret s
  | _ => panic (interface_conversion v "string")
  end.

(** ** [time.Time] *)

(** An instant and the zone it is shown in: [sec] whole seconds since
    January 1 of year 1, 00:00:00 UTC (what Go's [t.sec()] gives), [nsec]
    nanoseconds within the second, and the offset of the zone in seconds east
    of UTC.  Parsed times carry no monotonic clock reading. *)
Record Time : Type := { sec : Z; nsec : Z; zoneOffset : Z }.

(** The zero [time.Time], the value of [var earliest, latest time.Time]. *)
Definition Time_zero : Time := {| sec := 0; nsec := 0; zoneOffset := 0 |}.

Definition Time_Before (t u : Time) : bool :=
  (sec t <? sec u) || ((sec t =? sec u) && (nsec t <? nsec u)).

Definition Time_After (t u : Time) : bool :=
  (sec u <? sec t) || ((sec t =? sec u) && (nsec u <? nsec t)).

Definition Time_UTC (t : Time) : Time :=
  {| sec := sec t; nsec := nsec t; zoneOffset := 0 |}.

(** The offset [Zone()] returns beside the zone's name. *)
Definition Time_Zone (t : Time) : Z := zoneOffset t.

(** [t.Sub(u)]: the difference in nanoseconds, or the largest (smallest)
    [Duration] when it does not fit an [int64]. *)
Definition Time_Sub (t u : Time) : Z :=
  let d := (sec t - sec u) * 1000000000 + (nsec t - nsec u) in
  if d <? minInt64 then minInt64 else if maxInt64 <? d then maxInt64 else d.

Definition time_ANSIC : string := "Mon Jan _2 15:04:05 2006".

(** ** [strconv.Atoi] *)

Inductive NumError : Type := ErrSyntax | ErrRange.

Definition maxUint64 : Z := 2 ^ 64 - 1.

(** [lower(c)], the lower-case version of a letter: [c | ('x' - 'X')]. *)
Definition strconv_lower (c : Z) : Z := Z.lor c 32.

(** The loop of [ParseUint(s, 10, 64)] over the bytes of [s], from the value
    [n] read so far.  A byte that is no digit of the base ends it with a
    syntax error and 0; a value that leaves [uint64] ends it with a range
    error and the largest [uint64], before the bytes that follow are read. *)
Fixpoint ParseUint_loop (s : string) (n : Z) : Z * option NumError :=
  match s with
  | EmptyString => (n, None)
  | String ch s' =>
      let c := Z.of_N (Ascii.N_of_ascii ch) in
      let d :=
        if (48 <=? c) && (c <=? 57) then Some (c - 48)
        else if (97 <=? strconv_lower c) && (strconv_lower c <=? 122)
        then Some (strconv_lower c - 97 + 10)
        else None in
      match d with
      | None => (0, Some ErrSyntax)
      | Some d =>
          if 10 <=? d then (0, Some ErrSyntax)
          else if maxUint64 / 10 + 1 <=? n then
            (* n*base overflows *)
            (maxUint64, Some ErrRange)
          else
            let n := n * 10 in
            let n1 := (n + d) mod 2 ^ 64 in
            if (n1 <? n) || (maxUint64 <? n1) then
              (* n+d overflows *)
              (maxUint64, Some ErrRange)
            else ParseUint_loop s' n1
      end
  end.

(** [strconv.ParseUint(s, 10, 64)]. *)
Definition strconv_ParseUint (s : string) : Z * option NumError :=
  match s with
  | EmptyString => (0, Some ErrSyntax)
  | _ => ParseUint_loop s 0
  end.

(** [strconv.ParseInt(s, 10, 0)], where [int] has 64 bits. *)
Definition strconv_ParseInt (s : string) : Z * option NumError :=
  match s with
  | EmptyString => (0, Some ErrSyntax)
  | String c s' =>
      (* Pick off leading sign. *)
      let '(neg, body) :=
        if Ascii.eqb c "+" then (false, s')
        else if Ascii.eqb c "-" then (true, s')
        else (false, s) in
      (* Convert unsigned and check range. *)
      match strconv_ParseUint body with
      | (_, Some ErrSyntax) => (0, Some ErrSyntax)
      | (un, _) =>
          let cutoff := 2 ^ 63 in
          if negb neg && (cutoff <=? un) then (cutoff - 1, Some ErrRange)
          else if neg && (cutoff <? un) then (- cutoff, Some ErrRange)
          else
            let n := wrap64 un in
            (if neg then wrap64 (- n) else n, None)
      end
  end.

(** The loop of [Atoi]'s fast path: [ch -= '0'] on a byte. *)
Fixpoint Atoi_loop (s : string) (n : Z) : option Z :=
  match s with
  | EmptyString => Some n
  | String ch s' =>
      let ch := (Z.of_N (Ascii.N_of_ascii ch) - 48) mod 256 in
      if 9 <? ch then None else Atoi_loop s' (n * 10 + ch)
  end.

(** [strconv.Atoi(s)]: the fast path for strings of fewer than 19 bytes,
    whose value fits [int], and [ParseInt] for the others.  The pair is the
    value and the kind of the [*NumError], [None] for a [nil] error. *)
Definition strconv_Atoi (s : string) : Z * option NumError :=
  let sLen := String.length s in
  if bool_decide (0 < sLen < 19)%nat then
    match s with
    | EmptyString => (0, Some ErrSyntax)
    | String c s' =>
        let sign := Ascii.eqb c "-" || Ascii.eqb c "+" in
        let body := if sign then s' else s in
        if sign && bool_decide (String.length body < 1)%nat then
          (0, Some ErrSyntax)
        else
          match Atoi_loop body 0 with
          | None => (0, Some ErrSyntax)
          | Some n => (if Ascii.eqb c "-" then - n else n, None)
          end
    end
  else
    (* Slow path for invalid, big, or underscored integers. *)
    strconv_ParseInt s.

(** ** The decoded line and the environment *)

(** [logJSONT], the struct a log line is unmarshalled into.  Its fields live
    in a module of their own, as [S] and [T] are short names. *)
Module logJSONT.
Record T_struct : Type := { Date : string }.
Record t : Type := {
  T : T_struct;          (* Timestamp *)
  S : string;            (* Severity *)
  C : string;            (* Component *)
  CTX : string;          (* Context *)
  ID : Z;                (* Unique ID *)
  MSG : string;          (* Message body *)
  Attr : any;            (* Optional: Additional attributes *)
  Tags : list string;    (* Optional: array of tags *)
  Truncated : any;       (* If truncated: truncation information *)
  Size : Z               (* If truncated: original size of log line *)
}.
End logJSONT.

Definition timeLayout : string := "2006-01-02T15:04:05.999-07:00".

(** [logT], the decoded fields of a log line. *)
Module logT.
Record t : Type := { timeStamp : Time }.
End logT.

Definition skippingLines : string := "HEADER INCLUDED, NOW SKIPPING".

(** What a [bufio.Scanner] over an opened file delivers: the tokens of the
    successful [Scan] calls, and what [Err] returns once [Scan] is false. *)
Record Scanner : Type := { tokens : list bytes; scan_err : option error }.

(** The functions of other packages the pass calls. *)
Class Env : Type := {
  (** [os.Open(name)] followed by [bufio.NewScanner] *)
  os_Open : string → result Scanner;
  (** [json.Unmarshal(line, &lineObj)] into a zero [logJSONT] *)
  json_Unmarshal : bytes → result logJSONT.t;
  (** [time.Parse(layout, value)] *)
  time_Parse : string → string → result Time;
  (** [t.Format(layout)] *)
  Time_Format : Time → string → string;
  (** [yaml.Marshal(config)] *)
  yaml_Marshal : gmap string any → result bytes
}.

(** [getConfig], the same in both variants. *)
Definition getConfig `{Env} (config : gmap string any) : result bytes :=
  yaml_Marshal config.

(** The line feed that [fmt.Errorf] writes for [\n].  The formats of
    [fmt.Printf] calls are kept as the source spells them. *)
Definition newline : string := String (Ascii.ascii_of_nat 10) "".

(** ** The baseline variant: [info/info.go] *)

Module Baseline.

(** [startupInfoT], all the startup information from a log file. *)
Record startupInfoT : Type := {
  (* flag that this is an actual startup, not just a log rotation *)
  isStartup : bool;
  (* flag that we've filled in all the info *)
  complete : bool;
  timeStamp : Time;
  processID : Z;
  port : Z;
  dbPath : string;
  hostName : string;
  version : string;
  distro : string;
  os : string;
  osVersion : string;
  configFile : string;
  options : option (gmap string any);
  configYAML : bytes
}.

(** The assignments [info.f = v], one function per field. *)
Definition set_isStartup (v : bool) (info : startupInfoT) : startupInfoT :=
  {| isStartup := v; complete := complete info;
     timeStamp := timeStamp info; processID := processID info;
     port := port info; dbPath := dbPath info; hostName := hostName info;
     version := version info; distro := distro info; os := os info;
     osVersion := osVersion info; configFile := configFile info;
     options := options info; configYAML := configYAML info |}.
Definition set_complete (v : bool) (info : startupInfoT) : startupInfoT :=
  {| isStartup := isStartup info; complete := v;
     timeStamp := timeStamp info; processID := processID info;
     port := port info; dbPath := dbPath info; hostName := hostName info;
     version := version info; distro := distro info; os := os info;
     osVersion := osVersion info; configFile := configFile info;
     options := options info; configYAML := configYAML info |}.
Definition set_timeStamp (v : Time) (info : startupInfoT) : startupInfoT :=
  {| isStartup := isStartup info; complete := complete info;
     timeStamp := v; processID := processID info; port := port info;
     dbPath := dbPath info; hostName := hostName info;
     version := version info; distro := distro info; os := os info;
     osVersion := osVersion info; configFile := configFile info;
     options := options info; configYAML := configYAML info |}.
Definition set_processID (v : Z) (info : startupInfoT) : startupInfoT :=
  {| isStartup := isStartup info; complete := complete info;
     timeStamp := timeStamp info; processID := v; port := port info;
     dbPath := dbPath info; hostName := hostName info;
     version := version info; distro := distro info; os := os info;
     osVersion := osVersion info; configFile := configFile info;
     options := options info; configYAML := configYAML info |}.
Definition set_port (v : Z) (info : startupInfoT) : startupInfoT :=
  {| isStartup := isStartup info; complete := complete info;
     timeStamp := timeStamp info; processID := processID info; port := v;
     dbPath := dbPath info; hostName := hostName info;
     version := version info; distro := distro info; os := os info;
     osVersion := osVersion info; configFile := configFile info;
     options := options info; configYAML := configYAML info |}.
Definition set_dbPath (v : string) (info : startupInfoT) : startupInfoT :=
  {| isStartup := isStartup info; complete := complete info;
     timeStamp := timeStamp info; processID := processID info;
     port := port info; dbPath := v; hostName := hostName info;
     version := version info; distro := distro info; os := os info;
     osVersion := osVersion info; configFile := configFile info;
     options := options info; configYAML := configYAML info |}.
Definition set_hostName (v : string) (info : startupInfoT) : startupInfoT :=
  {| isStartup := isStartup info; complete := complete info;
     timeStamp := timeStamp info; processID := processID info;
     port := port info; dbPath := dbPath info; hostName := v;
     version := version info; distro := distro info; os := os info;
     osVersion := osVersion info; configFile := configFile info;
     options := options info; configYAML := configYAML info |}.
Definition set_version (v : string) (info : startupInfoT) : startupInfoT :=
  {| isStartup := isStartup info; complete := complete info;
     timeStamp := timeStamp info; processID := processID info;
     port := port info; dbPath := dbPath info; hostName := hostName info;
     version := v; distro := distro info; os := os info;
     osVersion := osVersion info; configFile := configFile info;
     options := options info; configYAML := configYAML info |}.
Definition set_distro (v : string) (info : startupInfoT) : startupInfoT :=
  {| isStartup := isStartup info; complete := complete info;
     timeStamp := timeStamp info; processID := processID info;
     port := port info; dbPath := dbPath info; hostName := hostName info;
     version := version info; distro := v; os := os info;
     osVersion := osVersion info; configFile := configFile info;
     options := options info; configYAML := configYAML info |}.
Definition set_os (v : string) (info : startupInfoT) : startupInfoT :=
  {| isStartup := isStartup info; complete := complete info;
     timeStamp := timeStamp info; processID := processID info;
     port := port info; dbPath := dbPath info; hostName := hostName info;
     version := version info; distro := distro info; os := v;
     osVersion := osVersion info; configFile := configFile info;
     options := options info; configYAML := configYAML info |}.
Definition set_osVersion (v : string) (info : startupInfoT) : startupInfoT :=
  {| isStartup := isStartup info; complete := complete info;
     timeStamp := timeStamp info; processID := processID info;
     port := port info; dbPath := dbPath info; hostName := hostName info;
     version := version info; distro := distro info; os := os info;
     osVersion := v; configFile := configFile info;
     options := options info; configYAML := configYAML info |}.
Definition set_configFile (v : string) (info : startupInfoT) : startupInfoT :=
  {| isStartup := isStartup info; complete := complete info;
     timeStamp := timeStamp info; processID := processID info;
     port := port info; dbPath := dbPath info; hostName := hostName info;
     version := version info; distro := distro info; os := os info;
     osVersion := osVersion info; configFile := v; options := options info;
     configYAML := configYAML info |}.
Definition set_options (v : option (gmap string any)) (info : startupInfoT)
  : startupInfoT :=
  {| isStartup := isStartup info; complete := complete info;
     timeStamp := timeStamp info; processID := processID info;
     port := port info; dbPath := dbPath info; hostName := hostName info;
     version := version info; distro := distro info; os := os info;
     osVersion := osVersion info; configFile := configFile info;
     options := v; configYAML := configYAML info |}.
Definition set_configYAML (v : bytes) (info : startupInfoT) : startupInfoT :=
  {| isStartup := isStartup info; complete := complete info;
     timeStamp := timeStamp info; processID := processID info;
     port := port info; dbPath := dbPath info; hostName := hostName info;
     version := version info; distro := distro info; os := os info;
     osVersion := osVersion info; configFile := configFile info;
     options := options info; configYAML := v |}.


(** [var startupInfo startupInfoT]: the zero value. *)
Definition startupInfo_zero : startupInfoT :=
  {| isStartup := false; complete := false; timeStamp := Time_zero;
     processID := 0; port := 0; dbPath := ""; hostName := "";
     version := ""; distro := ""; os := "";
     osVersion := ""; configFile := ""; options := None; configYAML := []
      |}.

Section WithEnv.
Context `{Env}.

Definition printStartup (info : startupInfoT) : go startupInfoT :=
  if negb (complete info) then
    mret info (* nothing here *)
  else
    Printf
      "Startup | host: %s | port: %d | dbPath: %s | pid: %d | when: %s UTC\n"
      [arg_string (hostName info); arg_int (port info);
       arg_string (dbPath info); arg_int (processID info);
       arg_string (Time_Format (Time_UTC (timeStamp info)) time_ANSIC)];;
    Printf "Version: %s | Platform: %s | OS: %s | OS Version: %s\n"
      [arg_string (version info); arg_string (distro info);
       arg_string (os info); arg_string (osVersion info)];;
    Printf "%s\n" [arg_bytes (configYAML info)];;
    let info := set_complete false info in
    let info := set_isStartup false info in
    mret info.

(** [logLine]: the pair returned, and the [startupInfoT] behind the pointer
    as the call leaves it. *)
Definition logLine (line : bytes) (startupInfo : startupInfoT)
  : go (startupInfoT * (option logT.t * option error)) :=
  match json_Unmarshal line with
  | Err err =>
      if String.prefix skippingLines (string_of_bytes line) then
        Printf "Warning: lines skipped in log file! %s\n"
          [arg_string (string_of_bytes line)];;
        mret (startupInfo, (None, None))
      else
        mret (startupInfo,
              (None, Some ("error parsing log line for JSON: " +:+ err)))
  | Ok lineObj =>
      match time_Parse timeLayout (logJSONT.Date (logJSONT.T lineObj)) with
      | Err err =>
          mret (startupInfo, (None, Some ("invalid timestamp: " +:+ err)))
      | Ok timeStamp' =>
          let logMsg := {| logT.timeStamp := timeStamp' |} in
          let attr := logJSONT.Attr lineObj in
          startupInfo ←
            (if not_nil attr
                && String.eqb (logJSONT.C lineObj) "CONTROL"
             then
               attr ← assert_map attr;
               if String.eqb (logJSONT.MSG lineObj) "MongoDB starting" then
                 let startupInfo := set_isStartup true startupInfo in
                 let startupInfo :=
                   set_timeStamp (logT.timeStamp logMsg) startupInfo in
                 pid ← assert_float64 (index attr "pid");
                 let startupInfo :=
                   set_processID (int_of_float64 pid) startupInfo in
                 port' ← assert_float64 (index attr "port");
                 let startupInfo :=
                   set_port (int_of_float64 port') startupInfo in
                 host ← assert_string (index attr "host");
                 let startupInfo := set_hostName host startupInfo in
                 dbPath' ← assert_string (index attr "dbPath");
                 let startupInfo := set_dbPath dbPath' startupInfo in
                 mret startupInfo
               else if String.eqb (logJSONT.MSG lineObj) "Build Info" then
                 biattrb ← assert_map (index attr "buildInfo");
                 version' ← assert_string (index biattrb "version");
                 let startupInfo := set_version version' startupInfo in
                 biattrenv ← assert_map (index biattrb "environment");
                 distmod ← assert_string (index biattrenv "distmod");
                 let startupInfo := set_distro distmod startupInfo in
                 mret startupInfo
               else if String.eqb (logJSONT.MSG lineObj) "Operating System"
               then
                 osattros ← assert_map (index attr "os");
                 name ← assert_string (index osattros "name");
                 let startupInfo := set_os name startupInfo in
                 osversion ← assert_string (index osattros "version");
                 let startupInfo := set_osVersion osversion startupInfo in
                 mret startupInfo
               else if String.eqb (logJSONT.MSG lineObj)
                         "Options set by command line" then
                 opattropts ← assert_map (index attr "options");
                 config ← assert_string (index opattropts "config");
                 let startupInfo := set_configFile config startupInfo in
                 let startupInfo :=
                   set_options (Some opattropts) startupInfo in
                 let startupInfo :=
                   match getConfig opattropts with
                   | Ok configYAML' => set_configYAML configYAML' startupInfo
                   | Err _ => set_configYAML [] startupInfo
                   end in
                 let startupInfo := set_complete true startupInfo in
                 mret startupInfo
               else mret startupInfo
             else mret startupInfo);
          mret (startupInfo, (Some logMsg, None))
      end
  end.

(** The local variables of [List] that its loop updates. *)
Record locals : Type := {
  earliest : Time;
  latest : Time;
  firstTime : bool;
  startupInfo : startupInfoT;
  lineCount : Z
}.

(** The loop [for perLine.Scan() { ... }] of [List] over the tokens still to
    come.  It ends with [Some err] when the body returns [err] from [List],
    with [None] when [Scan] becomes false. *)
Fixpoint scan (fileName : string) (toks : list bytes) (l : locals)
  : go (locals * option error) :=
  match toks with
  | [] => mret (l, None)
  | line :: toks =>
      '(startupInfo', (logLine', err)) ← logLine line (startupInfo l);
      let lineCount' := wrap64 (lineCount l + 1) in
      match logLine' with
      | None =>
          (* skippable line *)
          scan fileName toks
            {| earliest := earliest l; latest := latest l;
               firstTime := firstTime l; startupInfo := startupInfo';
               lineCount := lineCount' |}
      | Some logLine' =>
          match err with
          | Some err =>
              mret ({| earliest := earliest l; latest := latest l;
                       firstTime := firstTime l; startupInfo := startupInfo';
                       lineCount := lineCount' |},
                    Some ("error in line from log file '" +:+ fileName
                          +:+ "': " +:+ err +:+ newline +:+ "Line is: "
                          +:+ string_of_bytes line))
          | None =>
              let '(firstTime', earliest', latest') :=
                if firstTime l then
                  (false, logT.timeStamp logLine', logT.timeStamp logLine')
                else
                  let earliest' :=
                    if Time_Before (logT.timeStamp logLine') (earliest l)
                    then logT.timeStamp logLine' else earliest l in
                  let latest' :=
                    if Time_After (logT.timeStamp logLine') (latest l)
                    then logT.timeStamp logLine' else latest l in
                  (firstTime l, earliest', latest') in
              startupInfo' ←
                (if complete startupInfo' then printStartup startupInfo'
                 else mret startupInfo');
              scan fileName toks
                {| earliest := earliest'; latest := latest';
                   firstTime := firstTime'; startupInfo := startupInfo';
                   lineCount := lineCount' |}
          end
      end
  end.

(** [List]: the error returned, [None] for [nil]. *)
Definition List (fileName : string) : go (option error) :=
  match os_Open fileName with
  | Err err =>
      mret (Some ("error opening log file '" +:+ fileName +:+ "': " +:+ err))
  | Ok perLine =>
      '(l, returned) ←
        scan fileName (tokens perLine)
          {| earliest := Time_zero; latest := Time_zero; firstTime := true;
             startupInfo := startupInfo_zero; lineCount := 0 |};
      match returned with
      | Some err => mret (Some err)
      | None =>
          match scan_err perLine with
          | Some err =>
              mret (Some ("error reading log file '" +:+ fileName +:+ "': "
                          +:+ err))
          | None =>
              Printf "%d lines in log file %s\n"
                [arg_int (lineCount l); arg_string fileName];;
              let tzo := Time_Zone (earliest l) in
              Printf "Log file timezone is UTC %d hours %d minutes)\n"
                [arg_int (tzo `quot` 3600); arg_int (tzo `rem` 60)];;
              Printf "UTC time range in log file: %s -to- %s (%s)\n"
                [arg_string (Time_Format (Time_UTC (earliest l)) time_ANSIC);
                 arg_string (Time_Format (Time_UTC (latest l)) time_ANSIC);
                 arg_Duration (Time_Sub (latest l) (earliest l))];;
              mret None
          end
      end
  end.

End WithEnv.

End Baseline.

(** ** The extended variant: the second copy of the package *)

Module Extended.

(** [startupInfoT], all the startup information from a log file. *)
Record startupInfoT : Type := {
  (* flag that this is an actual startup, not just a log rotation *)
  isStartup : bool;
  (* flag that we've filled in all the info *)
  complete : bool;
  timeStamp : Time;
  processID : Z;
  port : Z;
  dbPath : string;
  hostName : string;
  version : string;
  distro : string;
  os : string;
  osVersion : string;
  configFile : string;
  options : option (gmap string any);
  configYAML : bytes;
  memberState : string;
  replsetConfig : option (gmap string any);
  replsetConfigYAML : bytes
}.

(** The assignments [info.f = v], one function per field. *)
Definition set_isStartup (v : bool) (info : startupInfoT) : startupInfoT :=
  {| isStartup := v; complete := complete info;
     timeStamp := timeStamp info; processID := processID info;
     port := port info; dbPath := dbPath info; hostName := hostName info;
     version := version info; distro := distro info; os := os info;
     osVersion := osVersion info; configFile := configFile info;
     options := options info; configYAML := configYAML info;
     memberState := memberState info; replsetConfig := replsetConfig info;
     replsetConfigYAML := replsetConfigYAML info |}.
Definition set_complete (v : bool) (info : startupInfoT) : startupInfoT :=
  {| isStartup := isStartup info; complete := v;
     timeStamp := timeStamp info; processID := processID info;
     port := port info; dbPath := dbPath info; hostName := hostName info;
     version := version info; distro := distro info; os := os info;
     osVersion := osVersion info; configFile := configFile info;
     options := options info; configYAML := configYAML info;
     memberState := memberState info; replsetConfig := replsetConfig info;
     replsetConfigYAML := replsetConfigYAML info |}.
Definition set_timeStamp (v : Time) (info : startupInfoT) : startupInfoT :=
  {| isStartup := isStartup info; complete := complete info;
     timeStamp := v; processID := processID info; port := port info;
     dbPath := dbPath info; hostName := hostName info;
     version := version info; distro := distro info; os := os info;
     osVersion := osVersion info; configFile := configFile info;
     options := options info; configYAML := configYAML info;
     memberState := memberState info; replsetConfig := replsetConfig info;
     replsetConfigYAML := replsetConfigYAML info |}.
Definition set_processID (v : Z) (info : startupInfoT) : startupInfoT :=
  {| isStartup := isStartup info; complete := complete info;
     timeStamp := timeStamp info; processID := v; port := port info;
     dbPath := dbPath info; hostName := hostName info;
     version := version info; distro := distro info; os := os info;
     osVersion := osVersion info; configFile := configFile info;
     options := options info; configYAML := configYAML info;
     memberState := memberState info; replsetConfig := replsetConfig info;
     replsetConfigYAML := replsetConfigYAML info |}.
Definition set_port (v : Z) (info : startupInfoT) : startupInfoT :=
  {| isStartup := isStartup info; complete := complete info;
     timeStamp := timeStamp info; processID := processID info; port := v;
     dbPath := dbPath info; hostName := hostName info;
     version := version info; distro := distro info; os := os info;
     osVersion := osVersion info; configFile := configFile info;
     options := options info; configYAML := configYAML info;
     memberState := memberState info; replsetConfig := replsetConfig info;
     replsetConfigYAML := replsetConfigYAML info |}.
Definition set_dbPath (v : string) (info : startupInfoT) : startupInfoT :=
  {| isStartup := isStartup info; complete := complete info;
     timeStamp := timeStamp info; processID := processID info;
     port := port info; dbPath := v; hostName := hostName info;
     version := version info; distro := distro info; os := os info;
     osVersion := osVersion info; configFile := configFile info;
     options := options info; configYAML := configYAML info;
     memberState := memberState info; replsetConfig := replsetConfig info;
     replsetConfigYAML := replsetConfigYAML info |}.
Definition set_hostName (v : string) (info : startupInfoT) : startupInfoT :=
  {| isStartup := isStartup info; complete := complete info;
     timeStamp := timeStamp info; processID := processID info;
     port := port info; dbPath := dbPath info; hostName := v;
     version := version info; distro := distro info; os := os info;
     osVersion := osVersion info; configFile := configFile info;
     options := options info; configYAML := configYAML info;
     memberState := memberState info; replsetConfig := replsetConfig info;
     replsetConfigYAML := replsetConfigYAML info |}.
Definition set_version (v : string) (info : startupInfoT) : startupInfoT :=
  {| isStartup := isStartup info; complete := complete info;
     timeStamp := timeStamp info; processID := processID info;
     port := port info; dbPath := dbPath info; hostName := hostName info;
     version := v; distro := distro info; os := os info;
     osVersion := osVersion info; configFile := configFile info;
     options := options info; configYAML := configYAML info;
     memberState := memberState info; replsetConfig := replsetConfig info;
     replsetConfigYAML := replsetConfigYAML info |}.
Definition set_distro (v : string) (info : startupInfoT) : startupInfoT :=
  {| isStartup := isStartup info; complete := complete info;
     timeStamp := timeStamp info; processID := processID info;
     port := port info; dbPath := dbPath info; hostName := hostName info;
     version := version info; distro := v; os := os info;
     osVersion := osVersion info; configFile := configFile info;
     options := options info; configYAML := configYAML info;
     memberState := memberState info; replsetConfig := replsetConfig info;
     replsetConfigYAML := replsetConfigYAML info |}.
Definition set_os (v : string) (info : startupInfoT) : startupInfoT :=
  {| isStartup := isStartup info; complete := complete info;
     timeStamp := timeStamp info; processID := processID info;
     port := port info; dbPath := dbPath info; hostName := hostName info;
     version := version info; distro := distro info; os := v;
     osVersion := osVersion info; configFile := configFile info;
     options := options info; configYAML := configYAML info;
     memberState := memberState info; replsetConfig := replsetConfig info;
     replsetConfigYAML := replsetConfigYAML info |}.
Definition set_osVersion (v : string) (info : startupInfoT) : startupInfoT :=
  {| isStartup := isStartup info; complete := complete info;
     timeStamp := timeStamp info; processID := processID info;
     port := port info; dbPath := dbPath info; hostName := hostName info;
     version := version info; distro := distro info; os := os info;
     osVersion := v; configFile := configFile info;
     options := options info; configYAML := configYAML info;
     memberState := memberState info; replsetConfig := replsetConfig info;
     replsetConfigYAML := replsetConfigYAML info |}.
Definition set_configFile (v : string) (info : startupInfoT) : startupInfoT :=
  {| isStartup := isStartup info; complete := complete info;
     timeStamp := timeStamp info; processID := processID info;
     port := port info; dbPath := dbPath info; hostName := hostName info;
     version := version info; distro := distro info; os := os info;
     osVersion := osVersion info; configFile := v; options := options info;
     configYAML := configYAML info; memberState := memberState info;
     replsetConfig := replsetConfig info;
     replsetConfigYAML := replsetConfigYAML info |}.
Definition set_options (v : option (gmap string any)) (info : startupInfoT)
  : startupInfoT :=
  {| isStartup := isStartup info; complete := complete info;
     timeStamp := timeStamp info; processID := processID info;
     port := port info; dbPath := dbPath info; hostName := hostName info;
     version := version info; distro := distro info; os := os info;
     osVersion := osVersion info; configFile := configFile info;
     options := v; configYAML := configYAML info;
     memberState := memberState info; replsetConfig := replsetConfig info;
     replsetConfigYAML := replsetConfigYAML info |}.
Definition set_configYAML (v : bytes) (info : startupInfoT) : startupInfoT :=
  {| isStartup := isStartup info; complete := complete info;
     timeStamp := timeStamp info; processID := processID info;
     port := port info; dbPath := dbPath info; hostName := hostName info;
     version := version info; distro := distro info; os := os info;
     osVersion := osVersion info; configFile := configFile info;
     options := options info; configYAML := v;
     memberState := memberState info; replsetConfig := replsetConfig info;
     replsetConfigYAML := replsetConfigYAML info |}.
Definition set_memberState (v : string) (info : startupInfoT)
  : startupInfoT :=
  {| isStartup := isStartup info; complete := complete info;
     timeStamp := timeStamp info; processID := processID info;
     port := port info; dbPath := dbPath info; hostName := hostName info;
     version := version info; distro := distro info; os := os info;
     osVersion := osVersion info; configFile := configFile info;
     options := options info; configYAML := configYAML info;
     memberState := v; replsetConfig := replsetConfig info;
     replsetConfigYAML := replsetConfigYAML info |}.
Definition set_replsetConfig (v : option (gmap string any)) (info : startupInfoT)
  : startupInfoT :=
  {| isStartup := isStartup info; complete := complete info;
     timeStamp := timeStamp info; processID := processID info;
     port := port info; dbPath := dbPath info; hostName := hostName info;
     version := version info; distro := distro info; os := os info;
     osVersion := osVersion info; configFile := configFile info;
     options := options info; configYAML := configYAML info;
     memberState := memberState info; replsetConfig := v;
     replsetConfigYAML := replsetConfigYAML info |}.
Definition set_replsetConfigYAML (v : bytes) (info : startupInfoT)
  : startupInfoT :=
  {| isStartup := isStartup info; complete := complete info;
     timeStamp := timeStamp info; processID := processID info;
     port := port info; dbPath := dbPath info; hostName := hostName info;
     version := version info; distro := distro info; os := os info;
     osVersion := osVersion info; configFile := configFile info;
     options := options info; configYAML := configYAML info;
     memberState := memberState info; replsetConfig := replsetConfig info;
     replsetConfigYAML := v |}.


(** [var startupInfo startupInfoT]: the zero value. *)
Definition startupInfo_zero : startupInfoT :=
  {| isStartup := false; complete := false; timeStamp := Time_zero;
     processID := 0; port := 0; dbPath := ""; hostName := "";
     version := ""; distro := ""; os := "";
     osVersion := ""; configFile := ""; options := None; configYAML := [];
     memberState := ""; replsetConfig := None; replsetConfigYAML := [] |}.

Section WithEnv.
Context `{Env}.

Definition printStartup (info : startupInfoT) : go startupInfoT :=
  if negb (complete info) then
    mret info (* nothing here *)
  else
    let startMsg := "Log rotation" in
    let startMsg := if isStartup info then "Start up" else startMsg in
    Printf "%s | host: %s | port: %d | dbPath: %s | pid: %d | when: %s UTC\n"
      [arg_string startMsg; arg_string (hostName info); arg_int (port info);
       arg_string (dbPath info); arg_int (processID info);
       arg_string (Time_Format (Time_UTC (timeStamp info)) time_ANSIC)];;
    Printf "Version: %s | Platform: %s | OS: %s | OS Version: %s\n"
      [arg_string (version info); arg_string (distro info);
       arg_string (os info); arg_string (osVersion info)];;
    Printf "%s\n" [arg_bytes (configYAML info)];;
    (if bool_decide (replsetConfig info ≠ None) then
       Printf "Member state: %s\n" [arg_string (memberState info)];;
       Printf "%s\n" [arg_bytes (replsetConfigYAML info)]
     else mret ());;
    let info := set_complete false info in
    let info := set_isStartup false info in
    mret info.

(** [logLine]: the pair returned, and the [startupInfoT] behind the pointer
    as the call leaves it. *)
Definition logLine (line : bytes) (startupInfo : startupInfoT)
  : go (startupInfoT * (option logT.t * option error)) :=
  match json_Unmarshal line with
  | Err err =>
      if String.prefix skippingLines (string_of_bytes line) then
        Printf "Warning: lines skipped in log file! %s\n"
          [arg_string (string_of_bytes line)];;
        mret (startupInfo, (None, None))
      else
        mret (startupInfo,
              (None, Some ("error parsing log line for JSON: " +:+ err)))
  | Ok lineObj =>
      match time_Parse timeLayout (logJSONT.Date (logJSONT.T lineObj)) with
      | Err err =>
          mret (startupInfo, (None, Some ("invalid timestamp: " +:+ err)))
      | Ok timeStamp' =>
          let logMsg := {| logT.timeStamp := timeStamp' |} in
          let attr := logJSONT.Attr lineObj in
          startupInfo ←
            (if not_nil attr
                && (String.eqb (logJSONT.C lineObj) "CONTROL"
                || String.eqb (logJSONT.C lineObj) "REPL")
             then
               attr ← assert_map attr;
               if String.eqb (logJSONT.MSG lineObj) "MongoDB starting" then
                 let startupInfo := set_isStartup true startupInfo in
                 let startupInfo :=
                   set_timeStamp (logT.timeStamp logMsg) startupInfo in
                 pid ← assert_float64 (index attr "pid");
                 let startupInfo :=
                   set_processID (int_of_float64 pid) startupInfo in
                 port' ← assert_float64 (index attr "port");
                 let startupInfo :=
                   set_port (int_of_float64 port') startupInfo in
                 host ← assert_string (index attr "host");
                 let startupInfo := set_hostName host startupInfo in
                 dbPath' ← assert_string (index attr "dbPath");
                 let startupInfo := set_dbPath dbPath' startupInfo in
                 mret startupInfo
               else if String.eqb (logJSONT.MSG lineObj) "Process Details"
               then
                 (* just a log rotation *)
                 let startupInfo := set_isStartup false startupInfo in
                 let startupInfo :=
                   set_timeStamp (logT.timeStamp logMsg) startupInfo in
                 pid ← assert_string (index attr "pid");
                 let startupInfo :=
                   set_processID (fst (strconv_Atoi pid)) startupInfo in
                 port' ← assert_float64 (index attr "port");
                 let startupInfo :=
                   set_port (int_of_float64 port') startupInfo in
                 host ← assert_string (index attr "host");
                 let startupInfo := set_hostName host startupInfo in
                 mret startupInfo
               else if String.eqb (logJSONT.MSG lineObj) "Build Info" then
                 biattrb ← assert_map (index attr "buildInfo");
                 version' ← assert_string (index biattrb "version");
                 let startupInfo := set_version version' startupInfo in
                 biattrenv ← assert_map (index biattrb "environment");
                 distmod ← assert_string (index biattrenv "distmod");
                 let startupInfo := set_distro distmod startupInfo in
                 mret startupInfo
               else if String.eqb (logJSONT.MSG lineObj) "Operating System"
               then
                 osattros ← assert_map (index attr "os");
                 name ← assert_string (index osattros "name");
                 let startupInfo := set_os name startupInfo in
                 osversion ← assert_string (index osattros "version");
                 let startupInfo := set_osVersion osversion startupInfo in
                 mret startupInfo
               else if String.eqb (logJSONT.MSG lineObj)
                         "Node is a member of a replica set" then
                 memberState' ← assert_string (index attr "memberState");
                 let startupInfo :=
                   set_memberState memberState' startupInfo in
                 config ← assert_map (index attr "config");
                 let startupInfo :=
                   set_replsetConfig (Some config) startupInfo in
                 match getConfig config with
                 | Ok rsconfigYAML =>
                     mret (set_replsetConfigYAML rsconfigYAML startupInfo)
                 | Err _ => mret (set_replsetConfigYAML [] startupInfo)
                 end
               else if String.eqb (logJSONT.MSG lineObj)
                         "New replica set config in use" then
                 rsConfig ← assert_map (index attr "config");
                 let '(rsConfigYAML, startupInfo) :=
                   match getConfig rsConfig with
                   | Ok rsConfigYAML => (rsConfigYAML, startupInfo)
                   | Err _ => ([], set_replsetConfigYAML [] startupInfo)
                   end in
                 Printf "New replica set config: %s\n%s\n"
                   [arg_string (Time_Format (Time_UTC timeStamp') time_ANSIC);
                    arg_bytes rsConfigYAML];;
                 mret startupInfo
               else if String.eqb (logJSONT.MSG lineObj)
                         "Options set by command line" then
                 opattropts ← assert_map (index attr "options");
                 config ← assert_string (index opattropts "config");
                 let startupInfo := set_configFile config startupInfo in
                 let startupInfo :=
                   set_options (Some opattropts) startupInfo in
                 let startupInfo :=
                   match getConfig opattropts with
                   | Ok configYAML' => set_configYAML configYAML' startupInfo
                   | Err _ => set_configYAML [] startupInfo
                   end in
                 let startupInfo := set_complete true startupInfo in
                 mret startupInfo
               else mret startupInfo
             else mret startupInfo);
          mret (startupInfo, (Some logMsg, None))
      end
  end.

(** The local variables of [List] that its loop updates. *)
Record locals : Type := {
  earliest : Time;
  latest : Time;
  firstTime : bool;
  startupInfo : startupInfoT;
  lineCount : Z
}.

(** The loop [for perLine.Scan() { ... }] of [List] over the tokens still to
    come.  It ends with [Some err] when the body returns [err] from [List],
    with [None] when [Scan] becomes false. *)
Fixpoint scan (fileName : string) (toks : list bytes) (l : locals)
  : go (locals * option error) :=
  match toks with
  | [] => mret (l, None)
  | line :: toks =>
      '(startupInfo', (logLine', err)) ← logLine line (startupInfo l);
      let lineCount' := wrap64 (lineCount l + 1) in
      match logLine' with
      | None =>
          (* skippable line *)
          scan fileName toks
            {| earliest := earliest l; latest := latest l;
               firstTime := firstTime l; startupInfo := startupInfo';
               lineCount := lineCount' |}
      | Some logLine' =>
          match err with
          | Some err =>
              mret ({| earliest := earliest l; latest := latest l;
                       firstTime := firstTime l; startupInfo := startupInfo';
                       lineCount := lineCount' |},
                    Some ("error in line from log file '" +:+ fileName
                          +:+ "': " +:+ err +:+ newline +:+ "Line is: "
                          +:+ string_of_bytes line))
          | None =>
              let '(firstTime', earliest', latest') :=
                if firstTime l then
                  (false, logT.timeStamp logLine', logT.timeStamp logLine')
                else
                  let earliest' :=
                    if Time_Before (logT.timeStamp logLine') (earliest l)
                    then logT.timeStamp logLine' else earliest l in
                  let latest' :=
                    if Time_After (logT.timeStamp logLine') (latest l)
                    then logT.timeStamp logLine' else latest l in
                  (firstTime l, earliest', latest') in
              startupInfo' ←
                (if complete startupInfo' then printStartup startupInfo'
                 else mret startupInfo');
              scan fileName toks
                {| earliest := earliest'; latest := latest';
                   firstTime := firstTime'; startupInfo := startupInfo';
                   lineCount := lineCount' |}
          end
      end
  end.

(** [List]: the error returned, [None] for [nil]. *)
Definition List (fileName : string) : go (option error) :=
  match os_Open fileName with
  | Err err =>
      mret (Some ("error opening log file '" +:+ fileName +:+ "': " +:+ err))
  | Ok perLine =>
      '(l, returned) ←
        scan fileName (tokens perLine)
          {| earliest := Time_zero; latest := Time_zero; firstTime := true;
             startupInfo := startupInfo_zero; lineCount := 0 |};
      match returned with
      | Some err => mret (Some err)
      | None =>
          match scan_err perLine with
          | Some err =>
              mret (Some ("error reading log file '" +:+ fileName +:+ "': "
                          +:+ err))
          | None =>
              Printf "%d lines in log file %s\n"
                [arg_int (lineCount l); arg_string fileName];;
              let tzo := Time_Zone (earliest l) in
              Printf "Log file timezone is UTC %d hours %d minutes)\n"
                [arg_int (tzo `quot` 3600); arg_int (tzo `rem` 60)];;
              Printf "UTC time range in log file: %s -to- %s (%s)\n"
                [arg_string (Time_Format (Time_UTC (earliest l)) time_ANSIC);
                 arg_string (Time_Format (Time_UTC (latest l)) time_ANSIC);
                 arg_Duration (Time_Sub (latest l) (earliest l))];;
              mret None
          end
      end
  end.

End WithEnv.

End Extended.

(** ** Package [main]: the command line

    The two copies of [main.go].  What [flag.Parse] leaves (the [-version]
    flag, the arguments after the flags), what [infoCmd.Parse] does with the
    arguments after the subcommand, the [version] function of the package
    (in another file of it) and the imported [info.List] are the class
    [CommandLine]. *)

(** How [main] ends: by returning, or in [os.Exit]. *)
Inductive status : Type :=
| returns
| os_Exit (code : Z).

(** What [main] leaves beside its standard output: whether [flag.Usage] was
    called (it writes to the standard error stream), and how [main] ended. *)
Record ending : Type := { usage : bool; ended : status }.

(** [fmt.Println(s)]: the operand in its default format and a line feed. *)
Definition Println (s : string) : go unit := Printf "%v\n" [arg_string s].

Class CommandLine : Type := {
  (** [version()] *)
  version : string;
  (** [*genericVersion] after [flag.Parse()] *)
  genericVersion : bool;
  (** [flag.Args()] *)
  flag_Args : list string;
  (** [infoCmd.Parse(subflags)] of a [flag.ExitOnError] flag set without
      flags: the exit code when it exits, or the arguments it leaves *)
  infoCmd_Parse : list string → Z + list string;
  (** [info.List] *)
  info_List : string → go (option error)
}.

(** The copy of [main.go] that takes several log files. *)
Module Files.
Section WithCommandLine.
Context `{CommandLine}.

(** The loop [for iFile := 0; iFile < nFiles; iFile++] over the arguments
    still to come. *)
Fixpoint files (args : list string) : go unit :=
  match args with
  | [] => mret ()
  | logFile :: args =>
      Printf "\n--------START LOG FILE: %s-----------\n" [arg_string logFile];;
      err ← info_List logFile;
      match err with
      | Some err => Printf "mlog info error: %v\n" [arg_string err]
      | None => mret ()
      end;;
      Printf "\n--------END LOG FILE: %s-----------\n" [arg_string logFile];;
      files args
  end.

Definition main : go ending :=
  if genericVersion then
    Println version;;
    mret {| usage := false; ended := returns |}
  else
    match flag_Args with
    | [] =>
        (* len(flag.Args()) < 1 *)
        mret {| usage := true; ended := os_Exit 3 |}
    | subcommand :: subflags =>
        if String.eqb subcommand "info" then
          match infoCmd_Parse subflags with
          | inl code => mret {| usage := false; ended := os_Exit code |}
          | inr args =>
              let nFiles := length args in
              if bool_decide (nFiles <= 0)%nat then
                Printf "Log file name required: 'mlog info <filename>'\n" [];;
                mret {| usage := false; ended := os_Exit 3 |}
              else
                files args;;
                mret {| usage := false; ended := returns |}
          end
        else mret {| usage := false; ended := returns |}
    end.

End WithCommandLine.
End Files.

(** The copy of [main.go] that takes one log file. *)
Module OneFile.
Section WithCommandLine.
Context `{CommandLine}.

Definition main : go ending :=
  if genericVersion then
    Println version;;
    mret {| usage := false; ended := returns |}
  else
    match flag_Args with
    | [] =>
        (* len(flag.Args()) < 1 *)
        mret {| usage := true; ended := os_Exit 3 |}
    | subcommand :: subflags =>
        if String.eqb subcommand "info" then
          match infoCmd_Parse subflags with
          | inl code => mret {| usage := false; ended := os_Exit code |}
          | inr args =>
              (* infoCmd.Arg(0): the empty string when there is none *)
              let logFile := default "" (args !! 0%nat) in
              if String.eqb logFile "" then
                Printf "Log file name required: 'mlog info <filename>'\n" [];;
                mret {| usage := false; ended := os_Exit 3 |}
              else
                err ← info_List logFile;
                match err with
                | Some err =>
                    Printf "mlog info error: %v\n" [arg_string err];;
                    mret {| usage := false; ended := os_Exit 2 |}
                | None => mret {| usage := false; ended := returns |}
                end
          end
        else mret {| usage := false; ended := returns |}
    end.

End WithCommandLine.
End OneFile.

(** ** Notions the statements use *)

(** The component tags each variant reads. *)
Definition Baseline_component (c : string) : Prop := c = "CONTROL".
Definition Extended_component (c : string) : Prop :=
  c = "CONTROL" ∨ c = "REPL".

(** The messages each variant recognizes. *)
Definition Baseline_messages : list string :=
  ["MongoDB starting"; "Build Info"; "Operating System";
   "Options set by command line"].
Definition Extended_messages : list string :=
  ["MongoDB starting"; "Process Details"; "Build Info"; "Operating System";
   "Node is a member of a replica set"; "New replica set config in use";
   "Options set by command line"].

Definition holds_string (m : gmap string any) (key : string) : bool :=
  match index m key with any_string _ => true | _ => false end.

Definition holds_float64 (m : gmap string any) (key : string) : bool :=
  match index m key with any_float64 _ => true | _ => false end.

(** [m[key]] is an object that satisfies [inner]. *)
Definition holds_map (m : gmap string any) (key : string)
    (inner : gmap string any → bool) : bool :=
  match index m key with any_map m' => inner m' | _ => false end.

(** The keys a message's attribute bag is required to hold, each with the
    type required of it: [pid] and [port] numbers ([pid] a string in
    [Process Details]), [host] and [dbPath] strings, [buildInfo.version],
    [buildInfo.environment.distmod], [os.name], [os.version] and
    [memberState] strings, [config] an object, [options] an object with a
    string [config]. *)
Definition required_fields (msg : string) (m : gmap string any) : bool :=
  if String.eqb msg "MongoDB starting" then
    holds_float64 m "pid" && holds_float64 m "port" && holds_string m "host"
    && holds_string m "dbPath"
  else if String.eqb msg "Process Details" then
    holds_string m "pid" && holds_float64 m "port" && holds_string m "host"
  else if String.eqb msg "Build Info" then
    holds_map m "buildInfo" (λ b,
      holds_string b "version"
      && holds_map b "environment" (λ e, holds_string e "distmod"))
  else if String.eqb msg "Operating System" then
    holds_map m "os" (λ o, holds_string o "name" && holds_string o "version")
  else if String.eqb msg "Node is a member of a replica set" then
    holds_string m "memberState" && holds_map m "config" (λ _, true)
  else if String.eqb msg "New replica set config in use" then
    holds_map m "config" (λ _, true)
  else if String.eqb msg "Options set by command line" then
    holds_map m "options" (λ o, holds_string o "config")
  else true.

(** The attribute bag is a JSON object with the fields [msg] requires. *)
Definition well_shaped (msg : string) (attr : any) : bool :=
  match attr with any_map m => required_fields msg m | _ => false end.

(** The update of [firstTime], [earliest] and [latest] in the loop of [List]
    on the timestamp of one decoded record. *)
Definition range_step (acc : bool * Time * Time) (t : Time)
  : bool * Time * Time :=
  let '(first, e, l) := acc in
  if first then (false, t, t)
  else (first, if Time_Before t e then t else e,
               if Time_After t l then t else l).

(** The range that loop leaves, from its initial state. *)
Definition range_of (ts : list Time) : bool * Time * Time :=
  fold_left range_step ts (true, Time_zero, Time_zero).

(** [t] is an earliest (a latest) instant among [ts]. *)
Definition earliest_of (ts : list Time) (t : Time) : Prop :=
  t ∈ ts ∧ ∀ u, u ∈ ts → Time_Before u t = false.
Definition latest_of (ts : list Time) (t : Time) : Prop :=
  t ∈ ts ∧ ∀ u, u ∈ ts → Time_After u t = false.

(** The line of the summary that reports the zone offset as [h] hours and
    [m] minutes. *)
Definition timezone_line (h m : Z) : print :=
  Printf_call "Log file timezone is UTC %d hours %d minutes)\n"
    [arg_int h; arg_int m].

(** What a call gives beside the [startupInfoT] it leaves: the output, and
    the returned pair or the panic. *)
Definition answer {S A} (m : go (S * A)) : go A :=
  '(_, a) ← m; mret a.

Section Notions.
Context `{Env}.

(** The line is a structured record: it unmarshals to [lineObj], whose
    [t.$date] parses to [ts]. *)
Definition decodes (line : bytes) (lineObj : logJSONT.t) (ts : Time) : Prop :=
  json_Unmarshal line = Ok lineObj
  ∧ time_Parse timeLayout (logJSONT.Date (logJSONT.T lineObj)) = Ok ts.

(** The timestamp of a decodable line. *)
Definition timestamp_of (line : bytes) : option Time :=
  match json_Unmarshal line with
  | Ok lineObj =>
      match time_Parse timeLayout (logJSONT.Date (logJSONT.T lineObj)) with
      | Ok ts => Some ts
      | Err _ => None
      end
  | Err _ => None
  end.

(** The timestamps of the decodable lines of a file, in file order. *)
Definition timestamps (toks : list bytes) : list Time := omap timestamp_of toks.

(** The line is neither a structured record with a timestamp that parses nor
    a line that starts with the banner prefix. *)
Definition malformed (line : bytes) : Prop :=
  timestamp_of line = None
  ∧ String.prefix skippingLines (string_of_bytes line) = false.

(** The line is an [Options set by command line] record of a component the
    variant reads, whose attribute bag holds an [options] object with a string
    [config]. *)
Definition completes (component : string → Prop) (line : bytes) : Prop :=
  ∃ lineObj ts,
    decodes line lineObj ts
    ∧ logJSONT.MSG lineObj = "Options set by command line"
    ∧ component (logJSONT.C lineObj)
    ∧ well_shaped "Options set by command line" (logJSONT.Attr lineObj) = true.

(** The accumulator alone, fed a sequence of lines: [logLine] on each in
    turn, without the Reporter. *)
Fixpoint Baseline_feed (lines : list bytes) (info : Baseline.startupInfoT)
  : go Baseline.startupInfoT :=
  match lines with
  | [] => mret info
  | line :: lines =>
      '(info, _) ← Baseline.logLine line info; Baseline_feed lines info
  end.

Fixpoint Extended_feed (lines : list bytes) (info : Extended.startupInfoT)
  : go Extended.startupInfoT :=
  match lines with
  | [] => mret info
  | line :: lines =>
      '(info, _) ← Extended.logLine line info; Extended_feed lines info
  end.

(** The last line of the summary, reporting the range from [e] to [l]. *)
Definition range_line (e l : Time) : print :=
  Printf_call "UTC time range in log file: %s -to- %s (%s)\n"
    [arg_string (Time_Format (Time_UTC e) time_ANSIC);
     arg_string (Time_Format (Time_UTC l) time_ANSIC);
     arg_Duration (Time_Sub l e)].

End Notions.

(** ** Decimal numerals *)

(** The reading of a string as an optionally signed decimal numeral, written
    independently of the code of [strconv]. *)

Definition digit_of (c : Ascii.ascii) : option Z :=
  let n := Z.of_N (Ascii.N_of_ascii c) in
  if (48 <=? n) && (n <=? 57) then Some (n - 48) else None.

(** The value of a string of decimal digits, [None] when a character is not
    a digit. *)
Fixpoint digits_value (s : string) (acc : Z) : option Z :=
  match s with
  | EmptyString => Some acc
  | String c s' =>
      match digit_of c with
      | Some d => digits_value s' (acc * 10 + d)
      | None => None
      end
  end.

(** The value of the decimal digits [s] starts with, up to its first
    character that is not a digit. *)
Fixpoint leading_digits_value (s : string) (acc : Z) : Z :=
  match s with
  | EmptyString => acc
  | String c s' =>
      match digit_of c with
      | Some d => leading_digits_value s' (acc * 10 + d)
      | None => acc
      end
  end.

(** The optional sign of [s] ([true] for a minus) and what follows it. *)
Definition sign_of (s : string) : bool * string :=
  match s with
  | String "-"%char s' => (true, s')
  | String "+"%char s' => (false, s')
  | _ => (false, s)
  end.

(** The integer [s] denotes when it is an optional sign followed by one or
    more decimal digits; [None] when it is not. *)
Definition numeral (s : string) : option Z :=
  let '(neg, body) := sign_of s in
  match body with
  | EmptyString => None
  | _ => (λ n, if neg then - n else n) <$> digits_value body 0
  end.

(** The [int64] nearest to [z]. *)
Definition nearest_int64 (z : Z) : Z := Z.max minInt64 (Z.min maxInt64 z).

(** The digits [s] starts with after its sign already leave [uint64]. *)
Definition leading_digits_overflow (s : string) : bool :=
  maxUint64 <? leading_digits_value (sign_of s).2 0.

(** What [strconv.Atoi] is expected to answer, stated on the numeral: the
    value of a numeral that fits [int64]; the nearest [int64] and a range
    error for a numeral that does not, and for any string whose leading
    digits already leave [uint64]; 0 and a syntax error for every other
    string. *)
Definition Atoi_reading (s : string) : Z * option NumError :=
  match numeral s with
  | Some z =>
      if bool_decide (minInt64 <= z <= maxInt64) then (z, None)
      else (nearest_int64 z, Some ErrRange)
  | None =>
      if leading_digits_overflow s then
        (if (sign_of s).1 then minInt64 else maxInt64, Some ErrRange)
      else (0, Some ErrSyntax)
  end.


(** ** Further notions *)

(** The warning [logLine] prints for a banner line. *)
Definition warning_line (line : bytes) : print :=
  Printf_call "Warning: lines skipped in log file! %s\n"
    [arg_string (string_of_bytes line)].

(** The formats of the three lines of the summary of [List]. *)
Definition summary_formats : list string :=
  ["%d lines in log file %s\n";
   "Log file timezone is UTC %d hours %d minutes)\n";
   "UTC time range in log file: %s -to- %s (%s)\n"].

(** The number of reports in an output: every report of [printStartup], and
    nothing else the package prints, has one line with the version. *)
Definition reports (out : list print) : nat :=
  length (filter (λ p, format p
                       = "Version: %s | Platform: %s | OS: %s | OS Version: %s\n")
            out).

(** The number of lines of a report that show the replica set member state. *)
Definition member_lines (out : list print) : nat :=
  length (filter (λ p, format p = "Member state: %s\n") out).

Section FurtherNotions.
Context `{Env}.

(** [completes], decided: the line sets [complete] in the variant. *)
Definition Baseline_sets_complete (line : bytes) : bool :=
  match json_Unmarshal line with
  | Ok lineObj =>
      match time_Parse timeLayout (logJSONT.Date (logJSONT.T lineObj)) with
      | Ok _ =>
          String.eqb (logJSONT.MSG lineObj) "Options set by command line"
          && String.eqb (logJSONT.C lineObj) "CONTROL"
          && well_shaped "Options set by command line" (logJSONT.Attr lineObj)
      | Err _ => false
      end
  | Err _ => false
  end.

Definition Extended_sets_complete (line : bytes) : bool :=
  match json_Unmarshal line with
  | Ok lineObj =>
      match time_Parse timeLayout (logJSONT.Date (logJSONT.T lineObj)) with
      | Ok _ =>
          String.eqb (logJSONT.MSG lineObj) "Options set by command line"
          && (String.eqb (logJSONT.C lineObj) "CONTROL"
              || String.eqb (logJSONT.C lineObj) "REPL")
          && well_shaped "Options set by command line" (logJSONT.Attr lineObj)
      | Err _ => false
      end
  | Err _ => false
  end.

(** The notice [logLine] prints for a new replica set configuration. *)
Definition notice_line (ts : Time) (yaml : bytes) : print :=
  Printf_call "New replica set config: %s\n%s\n"
    [arg_string (Time_Format (Time_UTC ts) time_ANSIC); arg_bytes yaml].

End FurtherNotions.

(** An outcome with its returned value mapped. *)
Definition outcome_map {A B} (f : A → B) (o : outcome A) : outcome B :=
  match o with
  | Return a => Return (f a)
  | Panic p => Panic p
  end.

Section Records.
Context `{Env}.

(** The well-shaped records of the startup and rotation sequences, with the
    values they carry. *)
Definition starting_record (component : string → Prop) (line : bytes)
    (ts : Time) (pid port' : float64) (host dbPath' : string) : Prop :=
  ∃ lineObj m,
    decodes line lineObj ts
    ∧ logJSONT.MSG lineObj = "MongoDB starting"
    ∧ component (logJSONT.C lineObj)
    ∧ logJSONT.Attr lineObj = any_map m
    ∧ index m "pid" = any_float64 pid
    ∧ index m "port" = any_float64 port'
    ∧ index m "host" = any_string host
    ∧ index m "dbPath" = any_string dbPath'.

Definition process_record (component : string → Prop) (line : bytes)
    (ts : Time) (pid : string) (port' : float64) (host : string) : Prop :=
  ∃ lineObj m,
    decodes line lineObj ts
    ∧ logJSONT.MSG lineObj = "Process Details"
    ∧ component (logJSONT.C lineObj)
    ∧ logJSONT.Attr lineObj = any_map m
    ∧ index m "pid" = any_string pid
    ∧ index m "port" = any_float64 port'
    ∧ index m "host" = any_string host.

Definition build_record (component : string → Prop) (line : bytes)
    (ts : Time) (version' distmod : string) : Prop :=
  ∃ lineObj m b e,
    decodes line lineObj ts
    ∧ logJSONT.MSG lineObj = "Build Info"
    ∧ component (logJSONT.C lineObj)
    ∧ logJSONT.Attr lineObj = any_map m
    ∧ index m "buildInfo" = any_map b
    ∧ index b "version" = any_string version'
    ∧ index b "environment" = any_map e
    ∧ index e "distmod" = any_string distmod.

Definition os_record (component : string → Prop) (line : bytes)
    (ts : Time) (name osversion : string) : Prop :=
  ∃ lineObj m o,
    decodes line lineObj ts
    ∧ logJSONT.MSG lineObj = "Operating System"
    ∧ component (logJSONT.C lineObj)
    ∧ logJSONT.Attr lineObj = any_map m
    ∧ index m "os" = any_map o
    ∧ index o "name" = any_string name
    ∧ index o "version" = any_string osversion.

Definition options_record (component : string → Prop) (line : bytes)
    (ts : Time) (config : string) (opts : gmap string any) : Prop :=
  ∃ lineObj m,
    decodes line lineObj ts
    ∧ logJSONT.MSG lineObj = "Options set by command line"
    ∧ component (logJSONT.C lineObj)
    ∧ logJSONT.Attr lineObj = any_map m
    ∧ index m "options" = any_map opts
    ∧ index opts "config" = any_string config.

Definition member_record (component : string → Prop) (line : bytes)
    (ts : Time) (memberState' : string) (config : gmap string any) : Prop :=
  ∃ lineObj m,
    decodes line lineObj ts
    ∧ logJSONT.MSG lineObj = "Node is a member of a replica set"
    ∧ component (logJSONT.C lineObj)
    ∧ logJSONT.Attr lineObj = any_map m
    ∧ index m "memberState" = any_string memberState'
    ∧ index m "config" = any_map config.

(** The document [logLine] keeps for a configuration: the rendering, or the
    empty document when it fails. *)
Definition rendered (config : gmap string any) : bytes :=
  match getConfig config with
  | Ok yaml => yaml
  | Err _ => []
  end.

End Records.

Section Blocks.
Context `{CommandLine}.

(** What the loop over the files prints for one file whose pass returns:
    the start marker, the output of [info.List], the error when there is
    one, and the end marker. *)
Definition file_block (logFile : string) : list print :=
  [Printf_call "\n--------START LOG FILE: %s-----------\n"
     [arg_string logFile]]
  ++ (info_List logFile).1
  ++ match (info_List logFile).2 with
     | Return (Some err) =>
         [Printf_call "mlog info error: %v\n" [arg_string err]]
     | _ => []
     end
  ++ [Printf_call "\n--------END LOG FILE: %s-----------\n"
        [arg_string logFile]].

End Blocks.


(** ** A sample environment

    The answers of the library functions on the lines of a small sample log,
    for closed examples: [json.Unmarshal], [time.Parse], [Time.Format] and
    [yaml.Marshal] are tabulated on the values below, and refuse every other
    value.  JSON text is written with apostrophes in the place of its double
    quotes. *)

Module Sample.

Fixpoint json (s : string) : string :=
  match s with
  | EmptyString => EmptyString
  | String c s' =>
      String (if Ascii.eqb c "'" then ascii_of_nat 34 else c) (json s')
  end.

(** A log line, and the [logJSONT] it is unmarshalled into. *)
Definition line (date c : string) (id : Z) (msg attr : string) : bytes :=
  bytes_of_string
    (json ("{'t':{'$date':'" +:+ date +:+ "'},'s':'I','c':'" +:+ c
           +:+ "','id':" +:+ pretty id +:+ ",'ctx':'initandlisten','msg':'"
           +:+ msg +:+ "','attr':" +:+ attr +:+ "}")).

Definition record (date c : string) (id : Z) (msg : string) (attr : any)
  : logJSONT.t :=
  {| logJSONT.T := {| logJSONT.Date := date |};
     logJSONT.S := "I"; logJSONT.C := c; logJSONT.CTX := "initandlisten";
     logJSONT.ID := id; logJSONT.MSG := msg; logJSONT.Attr := attr;
     logJSONT.Tags := []; logJSONT.Truncated := any_nil;
     logJSONT.Size := 0 |}.

Definition obj (fields : list (string * any)) : any :=
  any_map (list_to_map fields).

Definition num (z : Z) : any := any_float64 (float64_of_Z z).

Definition date0 : string := "2022-07-20T12:29:51.886-07:00".
Definition date1 : string := "2022-07-20T12:29:52.010-07:00".
Definition date2 : string := "2022-07-20T12:29:52.011-07:00".
Definition date3 : string := "2022-07-20T12:29:52.500-07:00".
Definition date4 : string := "2022-07-20T12:29:53.250-07:00".
Definition date_india : string := "2022-07-20T12:29:51.886+05:30".

Definition time0 : Time :=
  {| sec := 63793942191; nsec := 886000000; zoneOffset := -25200 |}.
Definition time1 : Time :=
  {| sec := 63793942192; nsec := 10000000; zoneOffset := -25200 |}.
Definition time2 : Time :=
  {| sec := 63793942192; nsec := 11000000; zoneOffset := -25200 |}.
Definition time3 : Time :=
  {| sec := 63793942192; nsec := 500000000; zoneOffset := -25200 |}.
Definition time4 : Time :=
  {| sec := 63793942193; nsec := 250000000; zoneOffset := -25200 |}.
Definition time_india : Time :=
  {| sec := 63793897191; nsec := 886000000; zoneOffset := 19800 |}.

Definition dates : list (string * Time) :=
  [(date0, time0); (date1, time1); (date2, time2); (date3, time3);
   (date4, time4); (date_india, time_india)].

(** The attribute bags of the sample's lines, as JSON text and decoded. *)
Definition starting_json : string :=
  "{'pid':100,'port':27017,'dbPath':'/data/db','architecture':'64-bit','host':'h1'}".
Definition starting_attr : any :=
  obj [("pid", num 100); ("port", num 27017);
       ("dbPath", any_string "/data/db");
       ("architecture", any_string "64-bit"); ("host", any_string "h1")].

Definition build_json : string :=
  "{'buildInfo':{'version':'6.0.1','environment':{'distmod':'ubuntu2004','distarch':'x86_64'}}}".
Definition build_attr : any :=
  obj [("buildInfo",
        obj [("version", any_string "6.0.1");
             ("environment",
              obj [("distmod", any_string "ubuntu2004");
                   ("distarch", any_string "x86_64")])])].

Definition os_json : string := "{'os':{'name':'Linux','version':'5.4'}}".
Definition os_attr : any :=
  obj [("os", obj [("name", any_string "Linux");
                   ("version", any_string "5.4")])].

Definition rs0 : gmap string any := list_to_map [("_id", any_string "rs0")].

Definition member_json : string :=
  "{'config':{'_id':'rs0'},'memberState':'PRIMARY'}".
Definition member_attr : any :=
  obj [("config", any_map rs0); ("memberState", any_string "PRIMARY")].

Definition opts : gmap string any :=
  list_to_map [("config", any_string "/etc/mongod.conf");
               ("net", obj [("port", num 27017)])].

Definition options_json : string :=
  "{'options':{'config':'/etc/mongod.conf','net':{'port':27017}}}".
Definition options_attr : any := obj [("options", any_map opts)].

(** Started without a configuration file: [options] has no [config]. *)
Definition options_noconfig_json : string :=
  "{'options':{'net':{'port':27017}}}".
Definition options_noconfig_attr : any :=
  obj [("options", obj [("net", obj [("port", num 27017)])])].

(** [pid] as a string where a number is expected. *)
Definition starting_badpid_json : string :=
  "{'pid':'100','port':27017,'dbPath':'/data/db','architecture':'64-bit','host':'h1'}".
Definition starting_badpid_attr : any :=
  obj [("pid", any_string "100"); ("port", num 27017);
       ("dbPath", any_string "/data/db");
       ("architecture", any_string "64-bit"); ("host", any_string "h1")].

Definition newconfig_json : string := "{'config':{'_id':'rs0'}}".
Definition newconfig_attr : any := obj [("config", any_map rs0)].

Definition newconfig_bare_json : string := "{'configVersion':2}".
Definition newconfig_bare_attr : any := obj [("configVersion", num 2)].

(** The line of the comment in the source, and two with other [pid]s. *)
Definition process_json (pid : string) : string :=
  "{'pid':'" +:+ pid
  +:+ "','port':27017,'architecture':'64-bit','host':'pd3lon-mdb-07'}".
Definition process_attr (pid : string) : any :=
  obj [("pid", any_string pid); ("port", num 27017);
       ("architecture", any_string "64-bit");
       ("host", any_string "pd3lon-mdb-07")].

(** A [Process Details] record without a [port]. *)
Definition process_noport_json : string :=
  "{'pid':'n/a','architecture':'64-bit','host':'pd3lon-mdb-07'}".
Definition process_noport_attr : any :=
  obj [("pid", any_string "n/a"); ("architecture", any_string "64-bit");
       ("host", any_string "pd3lon-mdb-07")].

Definition accepted_json : string := "{'connectionId':7}".
Definition accepted_attr : any := obj [("connectionId", num 7)].

(** The lines of the sample: date, component, id, message, and the
    attribute bag as text and decoded. *)
Abbreviation entry := (string * string * Z * string * string * any)%type.

Definition starting : entry :=
  (date0, "CONTROL", 4615611, "MongoDB starting", starting_json,
   starting_attr).
Definition build : entry :=
  (date1, "CONTROL", 23403, "Build Info", build_json, build_attr).
Definition opsys : entry :=
  (date2, "CONTROL", 51765, "Operating System", os_json, os_attr).
Definition member : entry :=
  (date3, "REPL", 21393, "Node is a member of a replica set", member_json,
   member_attr).
Definition options : entry :=
  (date4, "CONTROL", 21951, "Options set by command line", options_json,
   options_attr).
Definition options_noconfig : entry :=
  (date4, "CONTROL", 21951, "Options set by command line",
   options_noconfig_json, options_noconfig_attr).
Definition starting_badpid : entry :=
  (date0, "CONTROL", 4615611, "MongoDB starting", starting_badpid_json,
   starting_badpid_attr).
Definition newconfig : entry :=
  (date3, "REPL", 21392, "New replica set config in use", newconfig_json,
   newconfig_attr).
Definition newconfig_bare : entry :=
  (date3, "REPL", 21392, "New replica set config in use",
   newconfig_bare_json, newconfig_bare_attr).
Definition process (pid : string) : entry :=
  (date0, "CONTROL", 20721, "Process Details", process_json pid,
   process_attr pid).
Definition process_noport : entry :=
  (date0, "CONTROL", 20721, "Process Details", process_noport_json,
   process_noport_attr).
Definition accepted (date : string) : entry :=
  (date, "NETWORK", 22943, "Connection accepted", accepted_json,
   accepted_attr).

(** The table of [json.Unmarshal]. *)
Definition entries : list entry :=
  [starting; build; opsys; member; options; options_noconfig;
   starting_badpid; newconfig; newconfig_bare; process "16875";
   process "n/a"; process "9223372036854775808"; process_noport;
   accepted date_india;
   accepted date1; accepted date0; accepted date4].

Definition line_of (e : entry) : bytes :=
  let '(date, c, id, msg, attr_json, _) := e in line date c id msg attr_json.

Definition record_of (e : entry) : logJSONT.t :=
  let '(date, c, id, msg, _, attr) := e in record date c id msg attr.

Definition banner : bytes :=
  bytes_of_string "HEADER INCLUDED, NOW SKIPPING 1200 LINES".

Definition garbage : bytes := bytes_of_string "garbage line".

(** Lines that are not in the table are refused; the message is Go's for a
    line that starts with a letter. *)
Definition Unmarshal (data : bytes) : result logJSONT.t :=
  match
    list_find (λ e, string_of_bytes (line_of e) = string_of_bytes data) entries
  with
  | Some (_, e) => Ok (record_of e)
  | None =>
      Err ("invalid character '" +:+ String.substring 0 1 (string_of_bytes data)
           +:+ "' looking for beginning of value")
  end.

Definition Parse (layout value : string) : result Time :=
  if String.eqb layout timeLayout then
    match list_find (λ d, d.1 = value) dates with
    | Some (_, d) => Ok d.2
    | None => Err "cannot parse value as layout"
    end
  else Err "cannot parse value as layout".

(** [Format] under [time.ANSIC] for the seconds of the sample, in UTC. *)
Definition Format (t : Time) (layout : string) : string :=
  if bool_decide (zoneOffset t = 0) && String.eqb layout time_ANSIC then
    if sec t =? 63793942191 then "Wed Jul 20 19:29:51 2022"
    else if sec t =? 63793942192 then "Wed Jul 20 19:29:52 2022"
    else if sec t =? 63793942193 then "Wed Jul 20 19:29:53 2022"
    else if sec t =? 63793897191 then "Wed Jul 20 06:59:51 2022"
    else if sec t =? 0 then "Mon Jan  1 00:00:00 0001"
    else ""
  else "".

Definition opts_yaml : bytes :=
  bytes_of_string
    ("config: /etc/mongod.conf" +:+ newline +:+ "net:" +:+ newline
     +:+ "    port: 27017" +:+ newline).

Definition rs0_yaml : bytes := bytes_of_string ("_id: rs0" +:+ newline).

(** The two documents of the sample, told apart by a key. *)
Definition Marshal (config : gmap string any) : result bytes :=
  if bool_decide (is_Some (config !! "_id")) then Ok rs0_yaml
  else if bool_decide (is_Some (config !! "config")) then Ok opts_yaml
  else Err "cannot marshal".

(** The files of the sample, by name. *)
Definition startup_log : list bytes :=
  map line_of [starting; build; opsys; member; options] ++ [banner].

Definition Open (name : string) : result Scanner :=
  if String.eqb name "mongod.log" then
    Ok {| tokens := startup_log; scan_err := None |}
  else if String.eqb name "garbage.log" then
    Ok {| tokens := [garbage; line_of starting]; scan_err := None |}
  else if String.eqb name "india.log" then
    Ok {| tokens := [line_of (accepted date_india)]; scan_err := None |}
  else if String.eqb name "shuffled.log" then
    Ok {| tokens := map line_of [accepted date4; accepted date0;
                                 accepted date1];
          scan_err := None |}
  else Err ("open " +:+ name +:+ ": no such file or directory").

#[export] Instance env : Env :=
  {| os_Open := Open; json_Unmarshal := Unmarshal; time_Parse := Parse;
     Time_Format := Format; yaml_Marshal := Marshal |}.

(** The accumulator after the first five lines of the sample log. *)
Definition baseline_info : Baseline.startupInfoT :=
  {| Baseline.isStartup := true; Baseline.complete := true;
     Baseline.timeStamp := time0; Baseline.processID := 100;
     Baseline.port := 27017; Baseline.dbPath := "/data/db";
     Baseline.hostName := "h1"; Baseline.version := "6.0.1";
     Baseline.distro := "ubuntu2004"; Baseline.os := "Linux";
     Baseline.osVersion := "5.4"; Baseline.configFile := "/etc/mongod.conf";
     Baseline.options := Some opts; Baseline.configYAML := opts_yaml |}.

Definition extended_info : Extended.startupInfoT :=
  {| Extended.isStartup := true; Extended.complete := true;
     Extended.timeStamp := time0; Extended.processID := 100;
     Extended.port := 27017; Extended.dbPath := "/data/db";
     Extended.hostName := "h1"; Extended.version := "6.0.1";
     Extended.distro := "ubuntu2004"; Extended.os := "Linux";
     Extended.osVersion := "5.4"; Extended.configFile := "/etc/mongod.conf";
     Extended.options := Some opts; Extended.configYAML := opts_yaml;
     Extended.memberState := "PRIMARY"; Extended.replsetConfig := Some rs0;
     Extended.replsetConfigYAML := rs0_yaml |}.

End Sample.
(** ** Further sample inputs *)

(** The sample environment with a log whose reading stops after the startup
    sequence, on a line longer than the Scanner's buffer. *)
Definition torn_env : Env :=
  {| os_Open := λ _,
       Ok {| tokens := take 5 Sample.startup_log;
             scan_err := Some "bufio.Scanner: token too long" |};
     json_Unmarshal := Sample.Unmarshal; time_Parse := Sample.Parse;
     Time_Format := Sample.Format; yaml_Marshal := Sample.Marshal |}.

(** The state and the lines of a log rotation after the sample's startup:
    the accumulator as the report of the startup left it. *)
Definition rotation_start : Extended.locals :=
  {| Extended.earliest := Sample.time0; Extended.latest := Sample.time4;
     Extended.firstTime := false;
     Extended.startupInfo :=
       Extended.set_isStartup false
         (Extended.set_complete false Sample.extended_info);
     Extended.lineCount := 6 |}.

Definition rotation_lines : list bytes :=
  map Sample.line_of [Sample.process "16875"; Sample.options].

(** The sample environment with a [yaml.Marshal] that fails. *)
Definition unrendered_env : Env :=
  {| os_Open := Sample.Open; json_Unmarshal := Sample.Unmarshal;
     time_Parse := Sample.Parse; Time_Format := Sample.Format;
     yaml_Marshal := λ _, Err "cannot marshal" |}.

(** A record whose attribute bag is a string, and the sample environment
    with it. *)
Definition text_attr_line : bytes :=
  Sample.line Sample.date0 "CONTROL" 20698 "***** SERVER RESTARTED *****"
    "'text'".

Definition text_attr_env : Env :=
  {| os_Open := Sample.Open;
     json_Unmarshal := λ data,
       if String.eqb (string_of_bytes data) (string_of_bytes text_attr_line)
       then Ok (Sample.record Sample.date0 "CONTROL" 20698
                  "***** SERVER RESTARTED *****" (any_string "text"))
       else Sample.Unmarshal data;
     time_Parse := Sample.Parse; Time_Format := Sample.Format;
     yaml_Marshal := Sample.Marshal |}.

(** A command line for the sample environment: [mlog info] and the files
    named. *)
Definition sample_command (args : list string) : CommandLine :=
  {| version := "mlog 0.1"; genericVersion := false;
     flag_Args := "info" :: args; infoCmd_Parse := inr;
     info_List := Extended.List (H:=Sample.env) |}.

(** The sample environment with a [Process Details] record whose [pid]
    starts with twenty digits and ends in a letter. *)
Definition long_pid : string := "99999999999999999999x".

Definition long_pid_env : Env :=
  {| os_Open := Sample.Open;
     json_Unmarshal := λ data,
       if String.eqb (string_of_bytes data)
            (string_of_bytes (Sample.line_of (Sample.process long_pid)))
       then Ok (Sample.record_of (Sample.process long_pid))
       else Sample.Unmarshal data;
     time_Parse := Sample.Parse; Time_Format := Sample.Format;
     yaml_Marshal := Sample.Marshal |}.

(** The sample environment with a file whose second line is an
    [Options set by command line] record without a [config], and a command
    line over it. *)
Definition noconfig_env : Env :=
  {| os_Open := λ name,
       if String.eqb name "noconfig.log" then
         Ok {| tokens := map Sample.line_of
                           [Sample.starting; Sample.options_noconfig];
               scan_err := None |}
       else Sample.Open name;
     json_Unmarshal := Sample.Unmarshal; time_Parse := Sample.Parse;
     Time_Format := Sample.Format; yaml_Marshal := Sample.Marshal |}.

Definition noconfig_command (args : list string) : CommandLine :=
  {| version := "mlog 0.1"; genericVersion := false;
     flag_Args := "info" :: args; infoCmd_Parse := inr;
     info_List := Extended.List (H:=noconfig_env) |}.


(** * Properties *)

(** Unfolds the monad of [go] in the goal and in the hypotheses. *)
Ltac go_unfold :=
  unfold assert_map, assert_float64, assert_string, getConfig, Printf, panic
    in *;
  unfold mbind, mret, go_bind, go_ret in *.

(** ** The Reporter *)

Section Reporter.
Context `{Env}.

Lemma Baseline_printStartup_incomplete (info : Baseline.startupInfoT) :
  Baseline.complete info = false →
  Baseline.printStartup info = ([], Return info).
Proof. intros Hc. unfold Baseline.printStartup. rewrite Hc. reflexivity. Qed.

Lemma Extended_printStartup_incomplete (info : Extended.startupInfoT) :
  Extended.complete info = false →
  Extended.printStartup info = ([], Return info).
Proof. intros Hc. unfold Extended.printStartup. rewrite Hc. reflexivity. Qed.

End Reporter.

(** ** The decoder and the accumulator *)

(** The cases of a [logLine] call whose line decodes. *)
Ltac logLine_cases :=
  go_unfold; repeat (case_match; simplify_eq/=; try done).

Lemma component_Baseline (c : string) :
  String.eqb c "CONTROL" = true ↔ Baseline_component c.
Proof. apply String.eqb_eq. Qed.

Lemma component_Extended (c : string) :
  String.eqb c "CONTROL" || String.eqb c "REPL" = true ↔ Extended_component c.
Proof.
  unfold Extended_component. rewrite orb_true_iff, !String.eqb_eq. done.
Qed.

Section Decoder.
Context `{Env}.

Lemma Baseline_logLine_answer (line : bytes) (s1 s2 : Baseline.startupInfoT) :
  answer (Baseline.logLine line s1) = answer (Baseline.logLine line s2).
Proof.
  unfold answer, Baseline.logLine.
  destruct (json_Unmarshal line) as [lineObj|err]; [|by case_match].
  destruct (time_Parse _ _) as [ts|err]; [|done].
  destruct (_ && _); [|done].
  destruct (logJSONT.Attr lineObj); try done.
  logLine_cases.
Qed.

Lemma Extended_logLine_answer (line : bytes) (s1 s2 : Extended.startupInfoT) :
  answer (Extended.logLine line s1) = answer (Extended.logLine line s2).
Proof.
  unfold answer, Extended.logLine.
  destruct (json_Unmarshal line) as [lineObj|err]; [|by case_match].
  destruct (time_Parse _ _) as [ts|err]; [|done].
  destruct (_ && _); [|done].
  destruct (logJSONT.Attr lineObj); try done.
  logLine_cases.
Qed.

(** [logLine] sets [complete] exactly on a line that [completes]. *)
Ltac prove_completes component_iff :=
  let Hc := fresh "Hc" in
  intros Hc; unfold completes, decodes; split;
  [ intros (out & info' & r & Hrun & Hc');
    destruct (json_Unmarshal _) as [lineObj|err] eqn:Hj in Hrun;
      [|case_match; go_unfold; simplify_eq/=; congruence];
    destruct (time_Parse _ _) as [ts|err] eqn:Ht in Hrun;
      [|go_unfold; simplify_eq/=; congruence];
    exists lineObj, ts;
    destruct (not_nil _ && _) eqn:Hcond in Hrun;
      [|go_unfold; simplify_eq/=; congruence];
    apply andb_true_iff in Hcond as [Hattr Hcomp];
    apply component_iff in Hcomp;
    destruct (logJSONT.Attr lineObj) as [| | | | |m] eqn:Hm; try done;
    unfold well_shaped, required_fields, holds_map, holds_string;
    logLine_cases; try congruence;
    match goal with H : String.eqb _ _ = true |- _ =>
      apply String.eqb_eq in H end; done
  | intros (lineObj & ts & [Hj Ht] & Hmsg & Hcomp & Hshape);
    rewrite Hj, Ht, Hmsg;
    apply component_iff in Hcomp; rewrite Hcomp;
    destruct (logJSONT.Attr lineObj) as [| | | | |m]; try done;
    unfold well_shaped, required_fields, holds_map, holds_string in Hshape;
    simpl in Hshape; simpl;
    logLine_cases; eauto ].

Lemma Baseline_logLine_completes (line : bytes) (info : Baseline.startupInfoT) :
  Baseline.complete info = false →
  (∃ out info' r,
      Baseline.logLine line info = (out, Return (info', r))
      ∧ Baseline.complete info' = true)
  ↔ completes Baseline_component line.
Proof. unfold Baseline.logLine. prove_completes component_Baseline. Qed.

Lemma Extended_logLine_completes (line : bytes) (info : Extended.startupInfoT) :
  Extended.complete info = false →
  (∃ out info' r,
      Extended.logLine line info = (out, Return (info', r))
      ∧ Extended.complete info' = true)
  ↔ completes Extended_component line.
Proof. unfold Extended.logLine. prove_completes component_Extended. Qed.

(** [logLine] never clears [complete]. *)
Ltac prove_keeps :=
  intros Hrun Hc;
  destruct (json_Unmarshal _) as [lineObj|err] in Hrun;
    [|case_match; go_unfold; simplify_eq/=; congruence];
  destruct (time_Parse _ _) as [ts|err] in Hrun;
    [|go_unfold; simplify_eq/=; congruence];
  destruct (not_nil _ && _) in Hrun;
    [|go_unfold; simplify_eq/=; congruence];
  destruct (logJSONT.Attr lineObj); try done;
  logLine_cases.

Lemma Baseline_logLine_keeps_complete line info out info' r :
  Baseline.logLine line info = (out, Return (info', r)) →
  Baseline.complete info = true → Baseline.complete info' = true.
Proof. unfold Baseline.logLine. prove_keeps. Qed.

Lemma Extended_logLine_keeps_complete line info out info' r :
  Extended.logLine line info = (out, Return (info', r)) →
  Extended.complete info = true → Extended.complete info' = true.
Proof. unfold Extended.logLine. prove_keeps. Qed.

End Decoder.

(** ** Sequences of lines *)

Section Accumulator.
Context `{Env}.

(** One step of a feed that returns. *)
Lemma Baseline_feed_cons line lines info out info' :
  Baseline_feed (line :: lines) info = (out, Return info') →
  ∃ out1 info1 r out2,
    Baseline.logLine line info = (out1, Return (info1, r))
    ∧ Baseline_feed lines info1 = (out2, Return info').
Proof.
  simpl. go_unfold.
  destruct (Baseline.logLine line info) as [out1 [[info1 r]|p]]; [|done].
  destruct (Baseline_feed lines info1) as [out2 [info2|p]] eqn:Hrest; [|done].
  intros [= <- <-]. eauto 10.
Qed.

Lemma Extended_feed_cons line lines info out info' :
  Extended_feed (line :: lines) info = (out, Return info') →
  ∃ out1 info1 r out2,
    Extended.logLine line info = (out1, Return (info1, r))
    ∧ Extended_feed lines info1 = (out2, Return info').
Proof.
  simpl. go_unfold.
  destruct (Extended.logLine line info) as [out1 [[info1 r]|p]]; [|done].
  destruct (Extended_feed lines info1) as [out2 [info2|p]] eqn:Hrest; [|done].
  intros [= <- <-]. eauto 10.
Qed.

Lemma Baseline_feed_keeps_complete lines info out info' :
  Baseline_feed lines info = (out, Return info') →
  Baseline.complete info = true → Baseline.complete info' = true.
Proof.
  revert info out. induction lines as [|line lines IH]; intros info out.
  - by intros [= _ <-].
  - intros (out1 & info1 & r & out2 & Hstep & Hrest)%Baseline_feed_cons Hc.
    eauto using Baseline_logLine_keeps_complete.
Qed.

Lemma Extended_feed_keeps_complete lines info out info' :
  Extended_feed lines info = (out, Return info') →
  Extended.complete info = true → Extended.complete info' = true.
Proof.
  revert info out. induction lines as [|line lines IH]; intros info out.
  - by intros [= _ <-].
  - intros (out1 & info1 & r & out2 & Hstep & Hrest)%Extended_feed_cons Hc.
    eauto using Extended_logLine_keeps_complete.
Qed.

Lemma Baseline_feed_completes lines info out info' :
  Baseline.complete info = false →
  Baseline_feed lines info = (out, Return info') →
  Baseline.complete info' = true ↔ Exists (completes Baseline_component) lines.
Proof.
  revert info out. induction lines as [|line lines IH]; intros info out Hc.
  - intros [= _ <-]. rewrite Exists_nil. split; [congruence|done].
  - intros (out1 & info1 & r & out2 & Hstep & Hrest)%Baseline_feed_cons.
    rewrite Exists_cons, <- (Baseline_logLine_completes line info Hc).
    destruct (Baseline.complete info1) eqn:Hc1.
    + split; [eauto 10|]. eauto using Baseline_feed_keeps_complete.
    + rewrite (IH _ _ Hc1 Hrest). split; [eauto|].
      intros [(? & ? & ? & ? & ?)|?]; [|done]. congruence.
Qed.

Lemma Extended_feed_completes lines info out info' :
  Extended.complete info = false →
  Extended_feed lines info = (out, Return info') →
  Extended.complete info' = true ↔ Exists (completes Extended_component) lines.
Proof.
  revert info out. induction lines as [|line lines IH]; intros info out Hc.
  - intros [= _ <-]. rewrite Exists_nil. split; [congruence|done].
  - intros (out1 & info1 & r & out2 & Hstep & Hrest)%Extended_feed_cons.
    rewrite Exists_cons, <- (Extended_logLine_completes line info Hc).
    destruct (Extended.complete info1) eqn:Hc1.
    + split; [eauto 10|]. eauto using Extended_feed_keeps_complete.
    + rewrite (IH _ _ Hc1 Hrest). split; [eauto|].
      intros [(? & ? & ? & ? & ?)|?]; [|done]. congruence.
Qed.

End Accumulator.

(** ** Failed type assertions *)

Section TypeAssertions.
Context `{Env}.

(** On a recognized record, [logLine] panics exactly when the attribute bag
    is not well shaped, and prints nothing before it does. *)
Ltac prove_panics component_iff :=
  intros [Hj Ht] Hmsg Hattr Hcomp;
  rewrite Hj, Ht, Hattr;
  apply component_iff in Hcomp; rewrite Hcomp;
  unfold well_shaped, required_fields, holds_float64, holds_string, holds_map;
  repeat (apply elem_of_cons in Hmsg as [->|Hmsg]; [|]);
  try (by apply elem_of_nil in Hmsg);
  (destruct (logJSONT.Attr _); [done| | | | |];
   simpl; logLine_cases; (split; [by eauto | by intros [??]])).

Lemma Baseline_logLine_panics line lineObj ts info :
  decodes line lineObj ts →
  logJSONT.MSG lineObj ∈ Baseline_messages →
  not_nil (logJSONT.Attr lineObj) = true →
  Baseline_component (logJSONT.C lineObj) →
  well_shaped (logJSONT.MSG lineObj) (logJSONT.Attr lineObj) = false
  ↔ ∃ p, Baseline.logLine line info = ([], Panic p).
Proof.
  unfold Baseline.logLine, Baseline_messages.
  prove_panics component_Baseline.
Qed.

Lemma Extended_logLine_panics line lineObj ts info :
  decodes line lineObj ts →
  logJSONT.MSG lineObj ∈ Extended_messages →
  not_nil (logJSONT.Attr lineObj) = true →
  Extended_component (logJSONT.C lineObj) →
  well_shaped (logJSONT.MSG lineObj) (logJSONT.Attr lineObj) = false
  ↔ ∃ p, Extended.logLine line info = ([], Panic p).
Proof.
  unfold Extended.logLine, Extended_messages.
  prove_panics component_Extended.
Qed.

(** A panic of [logLine] is a panic of the loop of [List]. *)
Lemma Baseline_scan_panics fileName line toks l out p :
  Baseline.logLine line (Baseline.startupInfo l) = (out, Panic p) →
  Baseline.scan fileName (line :: toks) l = (out, Panic p).
Proof. intros Hp. simpl. rewrite Hp. reflexivity. Qed.

Lemma Extended_scan_panics fileName line toks l out p :
  Extended.logLine line (Extended.startupInfo l) = (out, Panic p) →
  Extended.scan fileName (line :: toks) l = (out, Panic p).
Proof. intros Hp. simpl. rewrite Hp. reflexivity. Qed.

End TypeAssertions.

(** ** The timestamp range *)

Lemma Time_Before_false (t u : Time) :
  Time_Before t u = false ↔
  sec u < sec t ∨ (sec u = sec t ∧ nsec u <= nsec t).
Proof.
  unfold Time_Before.
  destruct (Z.ltb_spec (sec t) (sec u)), (Z.eqb_spec (sec t) (sec u)),
    (Z.ltb_spec (nsec t) (nsec u)); simpl; split; intros; try done; lia.
Qed.

Lemma Time_After_false (t u : Time) :
  Time_After t u = false ↔
  sec t < sec u ∨ (sec t = sec u ∧ nsec t <= nsec u).
Proof.
  unfold Time_After.
  destruct (Z.ltb_spec (sec u) (sec t)), (Z.eqb_spec (sec t) (sec u)),
    (Z.ltb_spec (nsec u) (nsec t)); simpl; split; intros; try done; lia.
Qed.

Lemma Time_Before_true (t u : Time) :
  Time_Before t u = true ↔
  sec t < sec u ∨ (sec t = sec u ∧ nsec t < nsec u).
Proof.
  rewrite <- not_false_iff_true, Time_Before_false. lia.
Qed.

Lemma Time_After_true (t u : Time) :
  Time_After t u = true ↔
  sec u < sec t ∨ (sec t = sec u ∧ nsec u < nsec t).
Proof.
  rewrite <- not_false_iff_true, Time_After_false. lia.
Qed.

(** Folding [range_step] from a range that is right for [pre] gives a range
    that is right for [pre ++ ts]. *)
Lemma range_step_fold (ts pre : list Time) (e l : Time) :
  earliest_of pre e → latest_of pre l →
  ∃ e' l',
    fold_left range_step ts (false, e, l) = (false, e', l')
    ∧ earliest_of (pre ++ ts) e' ∧ latest_of (pre ++ ts) l'.
Proof.
  revert pre e l. induction ts as [|t ts IH]; intros pre e l He Hl.
  - exists e, l. by rewrite app_nil_r.
  - simpl.
    destruct (IH (pre ++ [t])
                (if Time_Before t e then t else e)
                (if Time_After t l then t else l))
      as (e' & l' & Hfold & He' & Hl').
    + destruct He as [Hin Hmin]. split.
      * case_match; set_solver.
      * intros u [Hu| ->%list_elem_of_singleton]%elem_of_app.
        -- specialize (Hmin u Hu). case_match eqn:Hb; [|done].
           apply Time_Before_true in Hb.
           apply Time_Before_false in Hmin. apply Time_Before_false. lia.
        -- case_match eqn:Hb; [|done].
           apply Time_Before_false. lia.
    + destruct Hl as [Hin Hmax]. split.
      * case_match; set_solver.
      * intros u [Hu| ->%list_elem_of_singleton]%elem_of_app.
        -- specialize (Hmax u Hu). case_match eqn:Hb; [|done].
           apply Time_After_true in Hb.
           apply Time_After_false in Hmax. apply Time_After_false. lia.
        -- case_match eqn:Hb; [|done].
           apply Time_After_false. lia.
    + exists e', l'. by rewrite <- app_assoc in He', Hl'.
Qed.

(** From the initial state of [List]: the range of a file with a decodable
    record. *)
Lemma range_step_first (t : Time) (ts : list Time) (e0 l0 : Time) :
  ∃ e l,
    fold_left range_step (t :: ts) (true, e0, l0) = (false, e, l)
    ∧ earliest_of (t :: ts) e ∧ latest_of (t :: ts) l.
Proof.
  simpl. apply (range_step_fold ts [t] t t).
  - split; [set_solver|]. intros u ->%list_elem_of_singleton.
    apply Time_Before_false. lia.
  - split; [set_solver|]. intros u ->%list_elem_of_singleton.
    apply Time_After_false. lia.
Qed.

(** Two earliest (latest) instants of lists with the same elements are the
    same instant. *)
Lemma earliest_of_unique (ts ts' : list Time) (e e' : Time) :
  ts ≡ₚ ts' → earliest_of ts e → earliest_of ts' e' →
  Time_UTC e = Time_UTC e'.
Proof.
  intros Hp [Hin Hmin] [Hin' Hmin'].
  rewrite <- Hp in Hin'. rewrite Hp in Hin.
  specialize (Hmin e' Hin'). specialize (Hmin' e Hin).
  apply Time_Before_false in Hmin, Hmin'.
  unfold Time_UTC. f_equal; lia.
Qed.

Lemma latest_of_unique (ts ts' : list Time) (l l' : Time) :
  ts ≡ₚ ts' → latest_of ts l → latest_of ts' l' →
  Time_UTC l = Time_UTC l'.
Proof.
  intros Hp [Hin Hmax] [Hin' Hmax'].
  rewrite <- Hp in Hin'. rewrite Hp in Hin.
  specialize (Hmax l' Hin'). specialize (Hmax' l Hin).
  apply Time_After_false in Hmax, Hmax'.
  unfold Time_UTC. f_equal; lia.
Qed.

Lemma Time_Sub_UTC (t u : Time) :
  Time_Sub (Time_UTC t) (Time_UTC u) = Time_Sub t u.
Proof. reflexivity. Qed.

Lemma Time_Sub_diag (t : Time) : Time_Sub t t = 0.
Proof.
  unfold Time_Sub. replace ((sec t - sec t) * 1000000000 + (nsec t - nsec t))
    with 0 by lia.
  reflexivity.
Qed.

(** ** The loop of [List] *)

Section Pass.
Context `{Env}.

(** [printStartup] always returns. *)
Lemma Baseline_printStartup_returns (info : Baseline.startupInfoT) :
  ∃ out info', Baseline.printStartup info = (out, Return info').
Proof. unfold Baseline.printStartup. case_match; go_unfold; simpl; eauto. Qed.

Lemma Extended_printStartup_returns (info : Extended.startupInfoT) :
  ∃ out info', Extended.printStartup info = (out, Return info').
Proof.
  unfold Extended.printStartup.
  repeat case_match; go_unfold; simpl; eauto.
Qed.

(** The record [logLine] returns is the timestamp of the line when it
    decodes, and [nil] otherwise; an error never comes with a record. *)
Ltac prove_record :=
  unfold timestamp_of;
  destruct (json_Unmarshal _) as [lineObj|e];
    [|case_match; go_unfold; intros; by simplify_eq/=];
  destruct (time_Parse _ _) as [ts|e];
    [|go_unfold; intros; by simplify_eq/=];
  destruct (not_nil _ && _);
    [|go_unfold; intros; by simplify_eq/=];
  destruct (logJSONT.Attr lineObj); try done;
  intros; logLine_cases.

Lemma Baseline_logLine_record line info out info' lg err :
  Baseline.logLine line info = (out, Return (info', (lg, err))) →
  lg = (λ ts, {| logT.timeStamp := ts |}) <$> timestamp_of line
  ∧ (is_Some lg → err = None).
Proof. unfold Baseline.logLine. prove_record. Qed.

Lemma Extended_logLine_record line info out info' lg err :
  Extended.logLine line info = (out, Return (info', (lg, err))) →
  lg = (λ ts, {| logT.timeStamp := ts |}) <$> timestamp_of line
  ∧ (is_Some lg → err = None).
Proof. unfold Extended.logLine. prove_record. Qed.

(** The loop of [List] never returns an error, and leaves in [firstTime],
    [earliest] and [latest] the fold of [range_step] over the timestamps of
    the decodable lines. *)
Lemma Baseline_scan_range fileName toks l out l' r :
  Baseline.scan fileName toks l = (out, Return (l', r)) →
  r = None
  ∧ (Baseline.firstTime l', Baseline.earliest l', Baseline.latest l')
    = fold_left range_step (timestamps toks)
        (Baseline.firstTime l, Baseline.earliest l, Baseline.latest l).
Proof.
  revert l out. induction toks as [|line toks IH]; intros l out.
  - by intros [= _ <- <-].
  - simpl. go_unfold.
    destruct (Baseline.logLine line (Baseline.startupInfo l))
      as [out1 [[info1 [lg err]]|p]] eqn:Hstep; [|done].
    apply Baseline_logLine_record in Hstep as [-> Herr].
    destruct (timestamp_of line) as [ts|]; simpl in *.
    + rewrite Herr by eauto.
      destruct (Baseline_printStartup_returns info1) as (o & i & Hprint).
      destruct (Baseline.firstTime l) eqn:Hfirst;
        (destruct (Baseline.complete info1); [rewrite Hprint|]); simpl;
        (destruct (Baseline.scan _ _ _) as [out2 [[l2 r2]|p]] eqn:Hrest;
           [|done]);
        intros [= _ <- <-]; apply IH in Hrest as [-> ->]; done.
    + destruct (Baseline.scan _ _ _) as [out2 [[l2 r2]|p]] eqn:Hrest; [|done].
      intros [= _ <- <-]. apply IH in Hrest as [-> ->]. done.
Qed.

Lemma Extended_scan_range fileName toks l out l' r :
  Extended.scan fileName toks l = (out, Return (l', r)) →
  r = None
  ∧ (Extended.firstTime l', Extended.earliest l', Extended.latest l')
    = fold_left range_step (timestamps toks)
        (Extended.firstTime l, Extended.earliest l, Extended.latest l).
Proof.
  revert l out. induction toks as [|line toks IH]; intros l out.
  - by intros [= _ <- <-].
  - simpl. go_unfold.
    destruct (Extended.logLine line (Extended.startupInfo l))
      as [out1 [[info1 [lg err]]|p]] eqn:Hstep; [|done].
    apply Extended_logLine_record in Hstep as [-> Herr].
    destruct (timestamp_of line) as [ts|]; simpl in *.
    + rewrite Herr by eauto.
      destruct (Extended_printStartup_returns info1) as (o & i & Hprint).
      destruct (Extended.firstTime l) eqn:Hfirst;
        (destruct (Extended.complete info1); [rewrite Hprint|]); simpl;
        (destruct (Extended.scan _ _ _) as [out2 [[l2 r2]|p]] eqn:Hrest;
           [|done]);
        intros [= _ <- <-]; apply IH in Hrest as [-> ->]; done.
    + destruct (Extended.scan _ _ _) as [out2 [[l2 r2]|p]] eqn:Hrest; [|done].
      intros [= _ <- <-]. apply IH in Hrest as [-> ->]. done.
Qed.

End Pass.

(** ** The summary *)

Section Summary.
Context `{Env}.

Lemma range_line_UTC (e l : Time) :
  range_line e l = range_line (Time_UTC e) (Time_UTC l).
Proof. reflexivity. Qed.

(** A pass that succeeds ends with the three lines of the summary, computed
    from the range of the decodable lines. *)
Lemma Baseline_List_summary fileName perLine out :
  os_Open fileName = Ok perLine →
  Baseline.List fileName = (out, Return None) →
  ∃ pre n,
    out = pre ++ [Printf_call "%d lines in log file %s\n"
                    [arg_int n; arg_string fileName];
                  timezone_line
                    (Time_Zone (range_of (timestamps (tokens perLine))).1.2
                       `quot` 3600)
                    (Time_Zone (range_of (timestamps (tokens perLine))).1.2
                       `rem` 60);
                  range_line (range_of (timestamps (tokens perLine))).1.2
                    (range_of (timestamps (tokens perLine))).2].
Proof.
  intros Hopen. unfold Baseline.List, range_of. rewrite Hopen. go_unfold.
  destruct (Baseline.scan _ _ _) as [pre [[l r]|p]] eqn:Hscan; [|done].
  apply Baseline_scan_range in Hscan as [-> Hrange]. simpl in Hrange.
  rewrite <- Hrange.
  destruct (scan_err perLine); simpl; [done|].
  intros [= <-]. eauto.
Qed.

Lemma Extended_List_summary fileName perLine out :
  os_Open fileName = Ok perLine →
  Extended.List fileName = (out, Return None) →
  ∃ pre n,
    out = pre ++ [Printf_call "%d lines in log file %s\n"
                    [arg_int n; arg_string fileName];
                  timezone_line
                    (Time_Zone (range_of (timestamps (tokens perLine))).1.2
                       `quot` 3600)
                    (Time_Zone (range_of (timestamps (tokens perLine))).1.2
                       `rem` 60);
                  range_line (range_of (timestamps (tokens perLine))).1.2
                    (range_of (timestamps (tokens perLine))).2].
Proof.
  intros Hopen. unfold Extended.List, range_of. rewrite Hopen. go_unfold.
  destruct (Extended.scan _ _ _) as [pre [[l r]|p]] eqn:Hscan; [|done].
  apply Extended_scan_range in Hscan as [-> Hrange]. simpl in Hrange.
  rewrite <- Hrange.
  destruct (scan_err perLine); simpl; [done|].
  intros [= <-]. eauto.
Qed.

(** The range line of a summary, from the range of the timestamps. *)
Lemma summary_last (pre : list print) (a b c : print) :
  last (pre ++ [a; b; c]) = Some c.
Proof.
  replace (pre ++ [a; b; c]) with ((pre ++ [a; b]) ++ [c])
    by (by rewrite <- app_assoc).
  apply last_snoc.
Qed.

Lemma range_of_min_max (ts : list Time) :
  ts ≠ [] →
  earliest_of ts (range_of ts).1.2 ∧ latest_of ts (range_of ts).2.
Proof.
  destruct ts as [|t ts]; [done|]. intros _.
  destruct (range_step_first t ts Time_zero Time_zero)
    as (e & l & Hfold & He & Hl).
  unfold range_of. rewrite Hfold. done.
Qed.

Lemma range_of_Permutation (ts ts' : list Time) :
  ts ≡ₚ ts' →
  range_line (range_of ts).1.2 (range_of ts).2
  = range_line (range_of ts').1.2 (range_of ts').2.
Proof.
  intros Hp. destruct ts as [|t ts].
  - apply Permutation_nil in Hp as ->. done.
  - assert (ts' ≠ []) as Hne'
      by (intros ->; by apply Permutation_sym, Permutation_nil in Hp).
    destruct (range_of_min_max (t :: ts)) as [He Hl]; [done|].
    destruct (range_of_min_max ts' Hne') as [He' Hl'].
    rewrite range_line_UTC, (range_line_UTC (range_of ts').1.2).
    by rewrite (earliest_of_unique _ _ _ _ Hp He He'),
      (latest_of_unique _ _ _ _ Hp Hl Hl').
Qed.

End Summary.

(** ** The values of [strconv.Atoi] *)

Lemma digit_of_nonneg (c : ascii) (d : Z) : digit_of c = Some d → 0 <= d.
Proof.
  unfold digit_of. case_match eqn:Hc; [|done]. intros [= <-].
  apply andb_true_iff in Hc as [?%Z.leb_le _]. lia.
Qed.

Lemma digit_of_bounds (c : ascii) (d : Z) :
  digit_of c = Some d → 0 <= d <= 9 ∧ d = Z.of_N (N_of_ascii c) - 48.
Proof.
  unfold digit_of. case_match eqn:Hc; [|done]. intros [= <-].
  apply andb_true_iff in Hc as [?%Z.leb_le ?%Z.leb_le]. lia.
Qed.

Lemma digit_of_None (c : ascii) :
  digit_of c = None →
  Z.of_N (N_of_ascii c) < 48 ∨ 57 < Z.of_N (N_of_ascii c).
Proof.
  unfold digit_of. case_match eqn:Hc; [done|]. intros _.
  apply andb_false_iff in Hc as [?%Z.leb_gt|?%Z.leb_gt]; lia.
Qed.

Lemma digits_value_nonneg (s : string) (acc n : Z) :
  digits_value s acc = Some n → 0 <= acc → 0 <= n.
Proof.
  revert acc. induction s as [|c s IH]; intros acc; simpl.
  - by intros [= <-].
  - destruct (digit_of c) as [d|] eqn:Hd; [|done].
    intros Hs Hacc. apply (IH _ Hs).
    apply digit_of_nonneg in Hd. lia.
Qed.

Lemma leading_digits_value_ge (s : string) (acc : Z) :
  0 <= acc → acc <= leading_digits_value s acc.
Proof.
  revert acc. induction s as [|c s IH]; intros acc Hacc; simpl; [lia|].
  destruct (digit_of c) as [d|] eqn:Hd; [|lia].
  apply digit_of_nonneg in Hd.
  specialize (IH (acc * 10 + d)). lia.
Qed.

Lemma digits_value_leading (s : string) (acc n : Z) :
  digits_value s acc = Some n → leading_digits_value s acc = n.
Proof.
  revert acc. induction s as [|c s IH]; intros acc; simpl.
  - by intros [= <-].
  - destruct (digit_of c) as [d|]; [apply IH|done].
Qed.

(** The byte of the code as an integer. *)
Lemma byte_bounds (c : ascii) : 0 <= Z.of_N (N_of_ascii c) < 256.
Proof. pose proof (N_ascii_bounded c). lia. Qed.

(** The loop of [ParseUint] against the reading of the numeral: the range
    error comes with the first digit that leaves [uint64], before a later
    byte that is no digit is seen. *)
Lemma ParseUint_loop_value (s : string) (n : Z) :
  0 <= n <= maxUint64 →
  ParseUint_loop s n
  = if maxUint64 <? leading_digits_value s n then (maxUint64, Some ErrRange)
    else match digits_value s n with
         | Some v => (v, None)
         | None => (0, Some ErrSyntax)
         end.
Proof.
  revert n. induction s as [|c s IH]; intros n Hn.
  - simpl. destruct (Z.ltb_spec maxUint64 n); [lia|done].
  - cbn [ParseUint_loop digits_value leading_digits_value].
    pose proof (byte_bounds c) as Hc.
    destruct (digit_of c) as [d|] eqn:Hd.
    + apply digit_of_bounds in Hd as [Hd ->].
      assert ((48 <=? Z.of_N (N_of_ascii c))
              && (Z.of_N (N_of_ascii c) <=? 57) = true) as ->.
      { apply andb_true_iff. split; apply Z.leb_le; lia. }
      cbv zeta.
      destruct (Z.leb_spec 10 (Z.of_N (N_of_ascii c) - 48)); [lia|].
      set (d := Z.of_N (N_of_ascii c) - 48) in *.
      pose proof (leading_digits_value_ge s (n * 10 + d)) as Hge.
      unfold maxUint64 in *.
      destruct (Z.leb_spec ((2 ^ 64 - 1) / 10 + 1) n) as [Hcut|Hcut].
      { destruct (Z.ltb_spec (2 ^ 64 - 1) (leading_digits_value s (n * 10 + d)));
          [done|].
        change ((2 ^ 64 - 1) / 10 + 1) with 1844674407370955162 in Hcut.
        lia. }
      change ((2 ^ 64 - 1) / 10 + 1) with 1844674407370955162 in Hcut.
      destruct (Z.le_gt_cases (n * 10 + d) (2 ^ 64 - 1)) as [Hfit|Hover].
      * rewrite (Z.mod_small (n * 10 + d)) by lia.
        destruct (Z.ltb_spec (n * 10 + d) (n * 10)); [lia|].
        destruct (Z.ltb_spec (2 ^ 64 - 1) (n * 10 + d)); [lia|].
        simpl orb. cbv iota. apply IH. lia.
      * replace ((n * 10 + d) mod 2 ^ 64) with (n * 10 + d - 2 ^ 64).
        2:{ apply Z.mod_unique with 1; lia. }
        destruct (Z.ltb_spec (n * 10 + d - 2 ^ 64) (n * 10)); [|lia].
        simpl orb. cbv iota.
        destruct (Z.ltb_spec (2 ^ 64 - 1) (leading_digits_value s (n * 10 + d)));
          [done|lia].
    + apply digit_of_None in Hd.
      destruct (Z.ltb_spec maxUint64 n); [lia|].
      assert ((48 <=? Z.of_N (N_of_ascii c))
              && (Z.of_N (N_of_ascii c) <=? 57) = false) as ->.
      { apply andb_false_iff.
        destruct Hd; [left; apply Z.leb_gt|right; apply Z.leb_gt]; lia. }
      destruct ((97 <=? strconv_lower _) && _) eqn:Hl; [|done].
      apply andb_true_iff in Hl as [Hl%Z.leb_le _]. cbv zeta.
      destruct (Z.leb_spec 10 (strconv_lower (Z.of_N (N_of_ascii c)) - 97 + 10));
        [done|lia].
Qed.

Lemma wrap64_small (z : Z) : minInt64 <= z <= maxInt64 → wrap64 z = z.
Proof.
  unfold minInt64, maxInt64, wrap64. intros Hz.
  rewrite Z.mod_small by lia. lia.
Qed.

Lemma leading_digits_value_lt (s : string) (acc : Z) :
  0 <= acc →
  leading_digits_value s acc < (acc + 1) * 10 ^ Z.of_nat (String.length s).
Proof.
  revert acc. induction s as [|c s IH]; intros acc Hacc.
  - simpl. lia.
  - cbn [leading_digits_value String.length].
    rewrite Nat2Z.inj_succ, Z.pow_succ_r by lia.
    assert (0 < 10 ^ Z.of_nat (String.length s))
      by (apply Z.pow_pos_nonneg; lia).
    destruct (digit_of c) as [d|] eqn:Hd; [|nia].
    apply digit_of_bounds in Hd as [Hd _].
    specialize (IH (acc * 10 + d)). nia.
Qed.

(** The sign as [ParseInt] and [Atoi] test it. *)
Lemma sign_of_eqb (c : ascii) (s : string) :
  sign_of (String c s)
  = if Ascii.eqb c "+" then (false, s)
    else if Ascii.eqb c "-" then (true, s)
    else (false, String c s).
Proof. destruct c as [[] [] [] [] [] [] [] []]; reflexivity. Qed.

Lemma strconv_ParseUint_value (s : string) :
  strconv_ParseUint s
  = match s with
    | EmptyString => (0, Some ErrSyntax)
    | _ =>
        if maxUint64 <? leading_digits_value s 0 then
          (maxUint64, Some ErrRange)
        else match digits_value s 0 with
             | Some v => (v, None)
             | None => (0, Some ErrSyntax)
             end
    end.
Proof.
  destruct s as [|c s]; [done|].
  unfold strconv_ParseUint. apply ParseUint_loop_value. unfold maxUint64. lia.
Qed.

(** [ParseInt] after the sign is picked off. *)
Lemma ParseInt_body_value (neg : bool) (body : string) :
  match strconv_ParseUint body with
  | (_, Some ErrSyntax) => (0, Some ErrSyntax)
  | (un, _) =>
      if negb neg && (2 ^ 63 <=? un) then (2 ^ 63 - 1, Some ErrRange)
      else if neg && (2 ^ 63 <? un) then (- 2 ^ 63, Some ErrRange)
      else (if neg then wrap64 (- wrap64 un) else wrap64 un, None)
  end
  = match
      match body with
      | EmptyString => None
      | _ => (λ n, if neg then - n else n) <$> digits_value body 0
      end
    with
    | Some z =>
        if bool_decide (minInt64 <= z <= maxInt64) then (z, None)
        else (nearest_int64 z, Some ErrRange)
    | None =>
        if maxUint64 <? leading_digits_value body 0 then
          (if neg then minInt64 else maxInt64, Some ErrRange)
        else (0, Some ErrSyntax)
    end.
Proof.
  rewrite strconv_ParseUint_value.
  destruct body as [|c body]; [done|].
  pose proof (leading_digits_value_ge (String c body) 0 ltac:(lia)) as Hge.
  pose proof (digits_value_leading (String c body) 0) as Hlead.
  generalize dependent (leading_digits_value (String c body) 0).
  generalize (digits_value (String c body) 0).
  intros [v|] L Hge Hlead; [specialize (Hlead v eq_refl); subst L|];
    unfold nearest_int64, minInt64, maxInt64, maxUint64; cbn [fmap option_fmap option_map].
  - destruct (Z.ltb_spec (2 ^ 64 - 1) v) as [Ho|Ho].
    + rewrite bool_decide_false by (destruct neg; cbv beta iota; lia).
      destruct (Z.leb_spec (2 ^ 63) (2 ^ 64 - 1)); [|lia].
      destruct (Z.ltb_spec (2 ^ 63) (2 ^ 64 - 1)); [|lia].
      destruct neg; cbn [negb andb]; f_equal; lia.
    + destruct neg; cbn [negb andb].
      * destruct (Z.ltb_spec (2 ^ 63) v).
        -- rewrite bool_decide_false by lia. f_equal. lia.
        -- rewrite bool_decide_true by lia. f_equal.
           destruct (decide (v = 2 ^ 63)) as [->|]; [reflexivity|].
           rewrite (wrap64_small v) by (unfold minInt64, maxInt64; lia).
           apply wrap64_small. unfold minInt64, maxInt64. lia.
      * destruct (Z.leb_spec (2 ^ 63) v).
        -- rewrite bool_decide_false by lia. f_equal. lia.
        -- rewrite bool_decide_true by lia. f_equal.
           apply wrap64_small. unfold minInt64, maxInt64. lia.
  - destruct (Z.ltb_spec (2 ^ 64 - 1) L); [|done].
    destruct (Z.leb_spec (2 ^ 63) (2 ^ 64 - 1)); [|lia].
    destruct (Z.ltb_spec (2 ^ 63) (2 ^ 64 - 1)); [|lia].
    by destruct neg.
Qed.

Lemma strconv_ParseInt_value (s : string) :
  strconv_ParseInt s = Atoi_reading s.
Proof.
  destruct s as [|c s]; [reflexivity|].
  unfold strconv_ParseInt, Atoi_reading, numeral, leading_digits_overflow.
  rewrite sign_of_eqb.
  destruct (Ascii.eqb c "+"); [apply (ParseInt_body_value false)|].
  destruct (Ascii.eqb c "-"); [apply (ParseInt_body_value true)|].
  apply (ParseInt_body_value false).
Qed.

(** The loop of the fast path reads digits as the numeral does. *)
Lemma Atoi_loop_digits (s : string) (n : Z) :
  Atoi_loop s n = digits_value s n.
Proof.
  revert n. induction s as [|c s IH]; intros n; [done|].
  cbn [Atoi_loop digits_value].
  pose proof (byte_bounds c) as Hc.
  destruct (digit_of c) as [d|] eqn:Hd.
  - apply digit_of_bounds in Hd as [Hd ->].
    rewrite Z.mod_small by lia.
    destruct (Z.ltb_spec 9 (Z.of_N (N_of_ascii c) - 48)); [lia|apply IH].
  - apply digit_of_None in Hd as [Hd|Hd].
    + replace ((Z.of_N (N_of_ascii c) - 48) mod 256)
        with (Z.of_N (N_of_ascii c) - 48 + 256)
        by (apply Z.mod_unique with (-1); lia).
      destruct (Z.ltb_spec 9 (Z.of_N (N_of_ascii c) - 48 + 256)); [done|lia].
    + rewrite Z.mod_small by lia.
      destruct (Z.ltb_spec 9 (Z.of_N (N_of_ascii c) - 48)); [done|lia].
Qed.

(** [strconv.Atoi] answers as expected of it, on either path. *)
Lemma strconv_Atoi_value (s : string) : strconv_Atoi s = Atoi_reading s.
Proof.
  unfold strconv_Atoi. case_bool_decide as Hlen; [|apply strconv_ParseInt_value].
  destruct s as [|c s]; [simpl in Hlen; lia|].
  unfold Atoi_reading, numeral, leading_digits_overflow.
  rewrite sign_of_eqb.
  assert (∀ (neg : bool) (body : string),
    (0 < String.length body < 19)%nat →
    match Atoi_loop body 0 with
    | Some n => (if neg then - n else n, None)
    | None => (0, Some ErrSyntax)
    end
    = match
        match body with
        | EmptyString => None
        | _ => (λ n, if neg then - n else n) <$> digits_value body 0
        end
      with
      | Some z =>
          if bool_decide (minInt64 <= z <= maxInt64) then (z, None)
          else (nearest_int64 z, Some ErrRange)
      | None =>
          if maxUint64 <? leading_digits_value body 0 then
            (if neg then minInt64 else maxInt64, Some ErrRange)
          else (0, Some ErrSyntax)
      end) as Hfast.
  { intros neg body Hbody. rewrite Atoi_loop_digits.
    destruct body as [|c' body]; [simpl in Hbody; lia|].
    assert (10 ^ Z.of_nat (String.length (String c' body)) <= 10 ^ 18)
      as Hpow by (apply Z.pow_le_mono_r; lia).
    pose proof (leading_digits_value_lt (String c' body) 0 ltac:(lia)) as Hlt.
    pose proof (leading_digits_value_ge (String c' body) 0 ltac:(lia)) as Hge.
    pose proof (digits_value_leading (String c' body) 0) as Hlead.
    generalize dependent (leading_digits_value (String c' body) 0).
    generalize (digits_value (String c' body) 0).
    intros [v|] L Hlt Hge Hlead;
      [specialize (Hlead v eq_refl); subst L|];
      unfold minInt64, maxInt64, maxUint64;
      cbn [fmap option_fmap option_map].
    - rewrite bool_decide_true; [done|]. destruct neg; cbv beta iota; lia.
    - destruct (Z.ltb_spec (2 ^ 64 - 1) L); [lia|done]. }
  cbn [String.length] in Hlen.
  destruct (Ascii.eqb_spec c "+") as [->|Hp].
  - simpl. destruct s as [|c' s]; [reflexivity|].
    rewrite bool_decide_false by (simpl; lia).
    apply (Hfast false). cbn [String.length] in *. lia.
  - destruct (Ascii.eqb_spec c "-") as [->|Hm].
    + simpl. destruct s as [|c' s]; [reflexivity|].
      rewrite bool_decide_false by (simpl; lia).
      apply (Hfast true). cbn [String.length] in *. lia.
    + simpl orb. cbv iota. simpl andb. cbv iota.
      apply (Hfast false). cbn [snd String.length]. lia.
Qed.

(** ** Malformed lines *)

Section Skipped.
Context `{Env}.

(** The decoder reports a malformed line with an error and no record. *)
Ltac prove_malformed :=
  unfold malformed, timestamp_of; intros [Hts Hprefix]; rewrite Hprefix;
  destruct (json_Unmarshal _) as [lineObj|e]; [|by eauto];
  destruct (time_Parse _ _) as [ts|e]; [done|by eauto].

Lemma Baseline_logLine_malformed line info :
  malformed line →
  ∃ err, Baseline.logLine line info = ([], Return (info, (None, Some err))).
Proof. unfold Baseline.logLine. prove_malformed. Qed.

Lemma Extended_logLine_malformed line info :
  malformed line →
  ∃ err, Extended.logLine line info = ([], Return (info, (None, Some err))).
Proof. unfold Extended.logLine. prove_malformed. Qed.

(** The loop counts the line and goes on to the next one. *)
Lemma Baseline_scan_malformed fileName line toks l :
  malformed line →
  Baseline.scan fileName (line :: toks) l
  = Baseline.scan fileName toks
      {| Baseline.earliest := Baseline.earliest l;
         Baseline.latest := Baseline.latest l;
         Baseline.firstTime := Baseline.firstTime l;
         Baseline.startupInfo := Baseline.startupInfo l;
         Baseline.lineCount := wrap64 (Baseline.lineCount l + 1) |}.
Proof.
  intros [err Herr]%(Baseline_logLine_malformed _ (Baseline.startupInfo l)).
  simpl. rewrite Herr. go_unfold. simpl. by destruct (Baseline.scan _ _ _).
Qed.

Lemma Extended_scan_malformed fileName line toks l :
  malformed line →
  Extended.scan fileName (line :: toks) l
  = Extended.scan fileName toks
      {| Extended.earliest := Extended.earliest l;
         Extended.latest := Extended.latest l;
         Extended.firstTime := Extended.firstTime l;
         Extended.startupInfo := Extended.startupInfo l;
         Extended.lineCount := wrap64 (Extended.lineCount l + 1) |}.
Proof.
  intros [err Herr]%(Extended_logLine_malformed _ (Extended.startupInfo l)).
  simpl. rewrite Herr. go_unfold. simpl. by destruct (Extended.scan _ _ _).
Qed.

(** The only errors [List] returns are those of opening and of reading the
    file. *)
Lemma Baseline_List_errors fileName out e :
  Baseline.List fileName = (out, Return (Some e)) →
  (∃ err, os_Open fileName = Err err
          ∧ e = "error opening log file '" +:+ fileName +:+ "': " +:+ err)
  ∨ (∃ perLine err, os_Open fileName = Ok perLine
          ∧ scan_err perLine = Some err
          ∧ e = "error reading log file '" +:+ fileName +:+ "': " +:+ err).
Proof.
  unfold Baseline.List.
  destruct (os_Open fileName) as [perLine|err] eqn:Hopen.
  - go_unfold.
    destruct (Baseline.scan _ _ _) as [pre [[l r]|p]] eqn:Hscan; [|done].
    apply Baseline_scan_range in Hscan as [-> _].
    destruct (scan_err perLine) as [err|] eqn:Herr; simpl; [|done].
    intros [= _ <-]. right. eauto.
  - intros [= _ <-]. left. eauto.
Qed.

Lemma Extended_List_errors fileName out e :
  Extended.List fileName = (out, Return (Some e)) →
  (∃ err, os_Open fileName = Err err
          ∧ e = "error opening log file '" +:+ fileName +:+ "': " +:+ err)
  ∨ (∃ perLine err, os_Open fileName = Ok perLine
          ∧ scan_err perLine = Some err
          ∧ e = "error reading log file '" +:+ fileName +:+ "': " +:+ err).
Proof.
  unfold Extended.List.
  destruct (os_Open fileName) as [perLine|err] eqn:Hopen.
  - go_unfold.
    destruct (Extended.scan _ _ _) as [pre [[l r]|p]] eqn:Hscan; [|done].
    apply Extended_scan_range in Hscan as [-> _].
    destruct (scan_err perLine) as [err|] eqn:Herr; simpl; [|done].
    intros [= _ <-]. right. eauto.
  - intros [= _ <-]. left. eauto.
Qed.

End Skipped.

(** ** The written-out library functions on examples *)

Example strconv_Atoi_examples :
  strconv_Atoi "16875" = (16875, None)
  ∧ strconv_Atoi "-42" = (-42, None)
  ∧ strconv_Atoi "+7" = (7, None)
  ∧ strconv_Atoi "" = (0, Some ErrSyntax)
  ∧ strconv_Atoi "-" = (0, Some ErrSyntax)
  ∧ strconv_Atoi "12a" = (0, Some ErrSyntax)
  ∧ strconv_Atoi "9223372036854775807" = (maxInt64, None)
  ∧ strconv_Atoi "9223372036854775808" = (maxInt64, Some ErrRange)
  ∧ strconv_Atoi "-9223372036854775808" = (minInt64, None)
  ∧ strconv_Atoi "-9223372036854775809" = (minInt64, Some ErrRange)
  ∧ strconv_Atoi "0000000000000000000042" = (42, None)
  ∧ strconv_Atoi "18446744073709551615x" = (0, Some ErrSyntax)
  ∧ strconv_Atoi "18446744073709551616x" = (maxInt64, Some ErrRange)
  ∧ strconv_Atoi "99999999999999999999x" = (maxInt64, Some ErrRange)
  ∧ strconv_Atoi "-99999999999999999999x" = (minInt64, Some ErrRange)
  ∧ strconv_Atoi "1_000" = (0, Some ErrSyntax)
  ∧ strconv_Atoi "0x10" = (0, Some ErrSyntax).
Proof. split_and!; by vm_compute. Qed.

(** 27017 as [encoding/json] stores it (a 53-bit mantissa), 2.5 and -2.5. *)
Example int_of_float64_examples :
  int_of_float64 (S754_finite false 7426376411906048 (-38)) = 27017
  ∧ int_of_float64 (float64_of_Z 27017) = 27017
  ∧ int_of_float64 (S754_finite false 5 (-1)) = 2
  ∧ int_of_float64 (S754_finite true 5 (-1)) = -2
  ∧ int_of_float64 (S754_finite false 1 64) = minInt64.
Proof. split_and!; by vm_compute. Qed.

Example HasPrefix_examples :
  String.prefix skippingLines "HEADER INCLUDED, NOW SKIPPING 1200 LINES"
  = true
  ∧ String.prefix skippingLines "HEADER INCLUDED" = false
  ∧ String.prefix skippingLines "garbage line" = false.
Proof. split_and!; by vm_compute. Qed.

(** ** The sample log *)

(** The accumulator over the first five lines of the sample log. *)
Example sample_feed_Baseline :
  (Baseline_feed (H:=Sample.env) (take 5 Sample.startup_log)
     Baseline.startupInfo_zero).2
  = Return Sample.baseline_info.
Proof. by vm_compute. Qed.

Example sample_feed_Extended :
  (Extended_feed (H:=Sample.env) (take 5 Sample.startup_log)
     Extended.startupInfo_zero).2
  = Return Sample.extended_info.
Proof. by vm_compute. Qed.

(** The pass over the sample log: six lines, one report with the replica
    set, the warning for the banner, and the summary. *)
Example sample_List_Extended :
  Extended.List (H:=Sample.env) "mongod.log"
  = ([Printf_call
        "%s | host: %s | port: %d | dbPath: %s | pid: %d | when: %s UTC\n"
        [arg_string "Start up"; arg_string "h1"; arg_int 27017;
         arg_string "/data/db"; arg_int 100;
         arg_string "Wed Jul 20 19:29:51 2022"];
      Printf_call "Version: %s | Platform: %s | OS: %s | OS Version: %s\n"
        [arg_string "6.0.1"; arg_string "ubuntu2004"; arg_string "Linux";
         arg_string "5.4"];
      Printf_call "%s\n" [arg_bytes Sample.opts_yaml];
      Printf_call "Member state: %s\n" [arg_string "PRIMARY"];
      Printf_call "%s\n" [arg_bytes Sample.rs0_yaml];
      Printf_call "Warning: lines skipped in log file! %s\n"
        [arg_string "HEADER INCLUDED, NOW SKIPPING 1200 LINES"];
      Printf_call "%d lines in log file %s\n"
        [arg_int 6; arg_string "mongod.log"];
      timezone_line (-7) 0;
      range_line (H:=Sample.env) Sample.time0 Sample.time4],
     Return None).
Proof. by vm_compute. Qed.

(** * The claims *)

(** C1 (what the code does).  The decoder reports a malformed line with an
    error and no record; the loop of [List] tests the record for [nil] before
    the error, so it counts the line as skippable and goes on with the lines
    after it; and the only errors [List] returns are those of opening and of
    reading the file, never the error of a line. *)
Theorem malformed_line_is_skipped `{Env} :
  (∀ fileName line toks l,
      malformed line →
      (∃ err, Baseline.logLine line (Baseline.startupInfo l)
              = ([], Return (Baseline.startupInfo l, (None, Some err))))
      ∧ Baseline.scan fileName (line :: toks) l
        = Baseline.scan fileName toks
            {| Baseline.earliest := Baseline.earliest l;
               Baseline.latest := Baseline.latest l;
               Baseline.firstTime := Baseline.firstTime l;
               Baseline.startupInfo := Baseline.startupInfo l;
               Baseline.lineCount := wrap64 (Baseline.lineCount l + 1) |})
  ∧ (∀ fileName out e,
      Baseline.List fileName = (out, Return (Some e)) →
      (∃ err, os_Open fileName = Err err
              ∧ e = "error opening log file '" +:+ fileName +:+ "': "
                    +:+ err)
      ∨ (∃ perLine err, os_Open fileName = Ok perLine
              ∧ scan_err perLine = Some err
              ∧ e = "error reading log file '" +:+ fileName +:+ "': "
                    +:+ err))
  ∧ (∀ fileName line toks l,
      malformed line →
      (∃ err, Extended.logLine line (Extended.startupInfo l)
              = ([], Return (Extended.startupInfo l, (None, Some err))))
      ∧ Extended.scan fileName (line :: toks) l
        = Extended.scan fileName toks
            {| Extended.earliest := Extended.earliest l;
               Extended.latest := Extended.latest l;
               Extended.firstTime := Extended.firstTime l;
               Extended.startupInfo := Extended.startupInfo l;
               Extended.lineCount := wrap64 (Extended.lineCount l + 1) |})
  ∧ (∀ fileName out e,
      Extended.List fileName = (out, Return (Some e)) →
      (∃ err, os_Open fileName = Err err
              ∧ e = "error opening log file '" +:+ fileName +:+ "': "
                    +:+ err)
      ∨ (∃ perLine err, os_Open fileName = Ok perLine
              ∧ scan_err perLine = Some err
              ∧ e = "error reading log file '" +:+ fileName +:+ "': "
                    +:+ err)).
Proof.
  split_and!.
  - intros fileName line toks l Hbad. split.
    + by apply Baseline_logLine_malformed.
    + by apply Baseline_scan_malformed.
  - apply Baseline_List_errors.
  - intros fileName line toks l Hbad. split.
    + by apply Extended_logLine_malformed.
    + by apply Extended_scan_malformed.
  - apply Extended_List_errors.
Qed.

(** The sample file whose first line is not JSON: the loop goes on to the
    second line with the count at one, and the pass succeeds, counts both
    lines and takes its range from the second. *)
Lemma malformed_line_is_skipped_witness :
  malformed (H:=Sample.env) Sample.garbage
  ∧ Baseline.scan (H:=Sample.env) "garbage.log"
      [Sample.garbage; Sample.line_of Sample.starting]
      {| Baseline.earliest := Time_zero; Baseline.latest := Time_zero;
         Baseline.firstTime := true;
         Baseline.startupInfo := Baseline.startupInfo_zero;
         Baseline.lineCount := 0 |}
    = Baseline.scan (H:=Sample.env) "garbage.log"
        [Sample.line_of Sample.starting]
        {| Baseline.earliest := Time_zero; Baseline.latest := Time_zero;
           Baseline.firstTime := true;
           Baseline.startupInfo := Baseline.startupInfo_zero;
           Baseline.lineCount := 1 |}
  ∧ Baseline.List (H:=Sample.env) "garbage.log"
    = ([Printf_call "%d lines in log file %s\n"
          [arg_int 2; arg_string "garbage.log"];
        timezone_line (-7) 0;
        range_line (H:=Sample.env) Sample.time0 Sample.time0],
       Return None)
  ∧ Extended.List (H:=Sample.env) "garbage.log"
    = Baseline.List (H:=Sample.env) "garbage.log".
Proof.
  assert (malformed (H:=Sample.env) Sample.garbage) as Hbad by by vm_compute.
  split_and!; [exact Hbad| |by vm_compute..].
  exact (proj2 (proj1 (malformed_line_is_skipped (H:=Sample.env))
                  "garbage.log" Sample.garbage
                  [Sample.line_of Sample.starting]
                  {| Baseline.earliest := Time_zero;
                     Baseline.latest := Time_zero;
                     Baseline.firstTime := true;
                     Baseline.startupInfo := Baseline.startupInfo_zero;
                     Baseline.lineCount := 0 |} Hbad)).
Defined.

(** C2 (as amended).  Starting from [complete = false], [logLine] leaves
    [complete = true] exactly on a line that decodes to a record whose message
    is [Options set by command line], whose component the variant reads
    ([CONTROL]; in the extended variant also [REPL]) and whose attribute bag
    is an object holding an [options] object with a string [config]; and a
    sequence of lines fed to the accumulator, when the feed returns, leaves
    [complete = true] exactly when it holds such a line.  No other record sets
    [complete]. *)
Theorem complete_set_exactly_by_options_record `{Env} :
  (∀ line info,
      Baseline.complete info = false →
      (∃ out info' r,
          Baseline.logLine line info = (out, Return (info', r))
          ∧ Baseline.complete info' = true)
      ↔ completes Baseline_component line)
  ∧ (∀ lines info out info',
      Baseline.complete info = false →
      Baseline_feed lines info = (out, Return info') →
      Baseline.complete info' = true
      ↔ Exists (completes Baseline_component) lines)
  ∧ (∀ line info,
      Extended.complete info = false →
      (∃ out info' r,
          Extended.logLine line info = (out, Return (info', r))
          ∧ Extended.complete info' = true)
      ↔ completes Extended_component line)
  ∧ (∀ lines info out info',
      Extended.complete info = false →
      Extended_feed lines info = (out, Return info') →
      Extended.complete info' = true
      ↔ Exists (completes Extended_component) lines).
Proof.
  split_and!.
  - apply Baseline_logLine_completes.
  - apply Baseline_feed_completes.
  - apply Extended_logLine_completes.
  - apply Extended_feed_completes.
Qed.

(** The sample log, fed to the accumulator from the zero state, returns with
    [complete] set, and holds a completing line. *)
Lemma complete_set_exactly_by_options_record_witness :
  Extended.complete Extended.startupInfo_zero = false
  ∧ (∃ out info',
        Extended_feed (H:=Sample.env) Sample.startup_log
          Extended.startupInfo_zero = (out, Return info')
        ∧ Extended.complete info' = true)
  ∧ Exists (completes (H:=Sample.env) Extended_component) Sample.startup_log.
Proof.
  assert (∃ out info',
             Extended_feed (H:=Sample.env) Sample.startup_log
               Extended.startupInfo_zero = (out, Return info')
             ∧ Extended.complete info' = true) as Hrun
    by (vm_compute; eauto).
  split; [reflexivity|]. split; [exact Hrun|].
  destruct Hrun as (out & info' & Hrun & Hc).
  apply (proj2 (proj2 (proj2
           (complete_set_exactly_by_options_record (H:=Sample.env))))
           Sample.startup_log Extended.startupInfo_zero out info'
           (eq_refl false) Hrun).
  exact Hc.
Defined.

(** A server started without a configuration file logs its options without
    a [config] key.  The record has the message, an attribute bag and a
    component both variants read, and [complete] is not set: the type
    assertion on [config] panics. *)
Lemma options_record_without_config_panics :
  ∃ lineObj ts,
    decodes (H:=Sample.env) (Sample.line_of Sample.options_noconfig) lineObj ts
    ∧ logJSONT.MSG lineObj = "Options set by command line"
    ∧ not_nil (logJSONT.Attr lineObj) = true
    ∧ logJSONT.C lineObj = "CONTROL"
    ∧ Baseline.logLine (H:=Sample.env)
        (Sample.line_of Sample.options_noconfig) Baseline.startupInfo_zero
      = ([], Panic (interface_conversion any_nil "string"))
    ∧ Extended.logLine (H:=Sample.env)
        (Sample.line_of Sample.options_noconfig) Extended.startupInfo_zero
      = ([], Panic (interface_conversion any_nil "string")).
Proof.
  exists (Sample.record_of Sample.options_noconfig), Sample.time4.
  split_and!; by vm_compute.
Qed.

(** C3 (as amended).  A recognized record (a message of the variant, an
    attribute bag, a component the variant reads) whose attribute bag is not
    an object, misses a required key or holds a value of another type under
    one, makes [logLine] panic on the failed type assertion: nothing is
    printed, neither a record nor an error is returned, and the loop of [List]
    panics with it. *)
Theorem ill_shaped_record_panics `{Env} :
  (∀ fileName line toks l lineObj ts,
      decodes line lineObj ts →
      logJSONT.MSG lineObj ∈ Baseline_messages →
      not_nil (logJSONT.Attr lineObj) = true →
      Baseline_component (logJSONT.C lineObj) →
      well_shaped (logJSONT.MSG lineObj) (logJSONT.Attr lineObj) = false →
      ∃ p, Baseline.logLine line (Baseline.startupInfo l) = ([], Panic p)
           ∧ Baseline.scan fileName (line :: toks) l = ([], Panic p))
  ∧ (∀ fileName line toks l lineObj ts,
      decodes line lineObj ts →
      logJSONT.MSG lineObj ∈ Extended_messages →
      not_nil (logJSONT.Attr lineObj) = true →
      Extended_component (logJSONT.C lineObj) →
      well_shaped (logJSONT.MSG lineObj) (logJSONT.Attr lineObj) = false →
      ∃ p, Extended.logLine line (Extended.startupInfo l) = ([], Panic p)
           ∧ Extended.scan fileName (line :: toks) l = ([], Panic p)).
Proof.
  split.
  - intros fileName line toks l lineObj ts Hd Hmsg Hattr Hcomp Hshape.
    apply (Baseline_logLine_panics line lineObj ts (Baseline.startupInfo l))
      in Hshape as [p Hp]; [|done..].
    exists p. split; [done|]. by apply Baseline_scan_panics.
  - intros fileName line toks l lineObj ts Hd Hmsg Hattr Hcomp Hshape.
    apply (Extended_logLine_panics line lineObj ts (Extended.startupInfo l))
      in Hshape as [p Hp]; [|done..].
    exists p. split; [done|]. by apply Extended_scan_panics.
Qed.

(** The options record without [config], at the head of a file. *)
Lemma ill_shaped_record_panics_witness :
  ∃ p,
    Baseline.logLine (H:=Sample.env) (Sample.line_of Sample.options_noconfig)
      Baseline.startupInfo_zero = ([], Panic p)
    ∧ Baseline.scan (H:=Sample.env) "mongod.log"
        [Sample.line_of Sample.options_noconfig]
        {| Baseline.earliest := Time_zero; Baseline.latest := Time_zero;
           Baseline.firstTime := true;
           Baseline.startupInfo := Baseline.startupInfo_zero;
           Baseline.lineCount := 0 |}
      = ([], Panic p).
Proof.
  apply (proj1 (ill_shaped_record_panics (H:=Sample.env)) "mongod.log"
           (Sample.line_of Sample.options_noconfig) []
           {| Baseline.earliest := Time_zero; Baseline.latest := Time_zero;
              Baseline.firstTime := true;
              Baseline.startupInfo := Baseline.startupInfo_zero;
              Baseline.lineCount := 0 |}
           (Sample.record_of Sample.options_noconfig) Sample.time4).
  - by vm_compute.
  - apply (bool_decide_unpack _). by vm_compute.
  - by vm_compute.
  - by vm_compute.
  - by vm_compute.
Defined.

(** A [MongoDB starting] record whose [pid] is the string ["100"], not a
    number: [logLine] returns no error for the line, it panics. *)
Lemma pid_of_wrong_type_panics :
  ∃ lineObj ts,
    decodes (H:=Sample.env) (Sample.line_of Sample.starting_badpid) lineObj ts
    ∧ logJSONT.MSG lineObj = "MongoDB starting"
    ∧ logJSONT.C lineObj = "CONTROL"
    ∧ logJSONT.Attr lineObj = Sample.starting_badpid_attr
    ∧ Baseline.logLine (H:=Sample.env)
        (Sample.line_of Sample.starting_badpid) Baseline.startupInfo_zero
      = ([], Panic (interface_conversion (any_string "100") "float64"))
    ∧ Extended.logLine (H:=Sample.env)
        (Sample.line_of Sample.starting_badpid) Extended.startupInfo_zero
      = ([], Panic (interface_conversion (any_string "100") "float64"))
    ∧ ¬ ∃ out info' lg err,
          Baseline.logLine (H:=Sample.env)
            (Sample.line_of Sample.starting_badpid) Baseline.startupInfo_zero
          = (out, Return (info', (lg, Some err))).
Proof.
  exists (Sample.record_of Sample.starting_badpid), Sample.time0.
  split_and!; try by vm_compute.
  intros (out & info' & lg & err & Hrun). vm_compute in Hrun. done.
Qed.

(** C4.  [printStartup] on a state whose [complete] is true returns the state
    with [complete] and [isStartup] false and every other field as it was:
    host, port, dbPath, pid, timestamp, version, platform, options and their
    document, and in the extended variant [memberState], [replsetConfig] and
    [replsetConfigYAML]. *)
Theorem printStartup_resets_only_the_flags `{Env} :
  (∀ info,
      Baseline.complete info = true →
      ∃ out,
        Baseline.printStartup info
        = (out,
           Return
             {| Baseline.isStartup := false; Baseline.complete := false;
                Baseline.timeStamp := Baseline.timeStamp info;
                Baseline.processID := Baseline.processID info;
                Baseline.port := Baseline.port info;
                Baseline.dbPath := Baseline.dbPath info;
                Baseline.hostName := Baseline.hostName info;
                Baseline.version := Baseline.version info;
                Baseline.distro := Baseline.distro info;
                Baseline.os := Baseline.os info;
                Baseline.osVersion := Baseline.osVersion info;
                Baseline.configFile := Baseline.configFile info;
                Baseline.options := Baseline.options info;
                Baseline.configYAML := Baseline.configYAML info |}))
  ∧ (∀ info,
      Extended.complete info = true →
      ∃ out,
        Extended.printStartup info
        = (out,
           Return
             {| Extended.isStartup := false; Extended.complete := false;
                Extended.timeStamp := Extended.timeStamp info;
                Extended.processID := Extended.processID info;
                Extended.port := Extended.port info;
                Extended.dbPath := Extended.dbPath info;
                Extended.hostName := Extended.hostName info;
                Extended.version := Extended.version info;
                Extended.distro := Extended.distro info;
                Extended.os := Extended.os info;
                Extended.osVersion := Extended.osVersion info;
                Extended.configFile := Extended.configFile info;
                Extended.options := Extended.options info;
                Extended.configYAML := Extended.configYAML info;
                Extended.memberState := Extended.memberState info;
                Extended.replsetConfig := Extended.replsetConfig info;
                Extended.replsetConfigYAML :=
                  Extended.replsetConfigYAML info |})).
Proof.
  split; intros info Hc.
  - unfold Baseline.printStartup. rewrite Hc. simpl. eauto.
  - unfold Extended.printStartup. rewrite Hc. simpl.
    case_bool_decide; simpl; eauto.
Qed.

(** The accumulator after the startup sequence of the sample log: the report
    leaves the replica set fields, and all the others, in place. *)
Lemma printStartup_resets_only_the_flags_witness :
  Extended.complete Sample.extended_info = true
  ∧ ∃ out,
      Extended.printStartup (H:=Sample.env) Sample.extended_info
      = (out,
         Return
           {| Extended.isStartup := false; Extended.complete := false;
              Extended.timeStamp := Sample.time0; Extended.processID := 100;
              Extended.port := 27017; Extended.dbPath := "/data/db";
              Extended.hostName := "h1"; Extended.version := "6.0.1";
              Extended.distro := "ubuntu2004"; Extended.os := "Linux";
              Extended.osVersion := "5.4";
              Extended.configFile := "/etc/mongod.conf";
              Extended.options := Some Sample.opts;
              Extended.configYAML := Sample.opts_yaml;
              Extended.memberState := "PRIMARY";
              Extended.replsetConfig := Some Sample.rs0;
              Extended.replsetConfigYAML := Sample.rs0_yaml |}).
Proof.
  split; [reflexivity|].
  exact (proj2 (printStartup_resets_only_the_flags (H:=Sample.env))
           Sample.extended_info eq_refl).
Defined.

(** C5.  [printStartup] on a state whose [complete] is false prints nothing
    and returns the state as it was. *)
Theorem printStartup_incomplete_is_noop `{Env} :
  (∀ info,
      Baseline.complete info = false →
      Baseline.printStartup info = ([], Return info))
  ∧ (∀ info,
      Extended.complete info = false →
      Extended.printStartup info = ([], Return info)).
Proof.
  split.
  - apply Baseline_printStartup_incomplete.
  - apply Extended_printStartup_incomplete.
Qed.

(** The accumulator after [MongoDB starting] alone: nothing to report yet. *)
Lemma printStartup_incomplete_is_noop_witness :
  Extended.complete (Extended.set_isStartup true Extended.startupInfo_zero)
  = false
  ∧ Extended.printStartup (H:=Sample.env)
      (Extended.set_isStartup true Extended.startupInfo_zero)
    = ([], Return (Extended.set_isStartup true Extended.startupInfo_zero)).
Proof.
  split; [reflexivity|].
  exact (proj2 (printStartup_incomplete_is_noop (H:=Sample.env))
           (Extended.set_isStartup true Extended.startupInfo_zero) eq_refl).
Defined.

(** C6.  A pass that succeeds over a file with a decodable record ends its
    summary with the range from an earliest to a latest of the timestamps of
    the decodable records; two files whose decodable timestamps are the same
    up to order report the same range; and a file with one decodable record
    reports its timestamp as both ends, and a zero duration.  (Stated for
    [info/info.go]; [Extended_List_summary] gives the same summary for the
    extended variant.) *)
Theorem reported_range_is_earliest_to_latest `{Env} :
  (∀ fileName perLine out,
      os_Open fileName = Ok perLine →
      Baseline.List fileName = (out, Return None) →
      timestamps (tokens perLine) ≠ [] →
      ∃ e l,
        earliest_of (timestamps (tokens perLine)) e
        ∧ latest_of (timestamps (tokens perLine)) l
        ∧ last out = Some (range_line e l))
  ∧ (∀ fileName perLine out fileName' perLine' out',
      os_Open fileName = Ok perLine →
      Baseline.List fileName = (out, Return None) →
      os_Open fileName' = Ok perLine' →
      Baseline.List fileName' = (out', Return None) →
      timestamps (tokens perLine) ≡ₚ timestamps (tokens perLine') →
      last out = last out')
  ∧ (∀ fileName perLine out t,
      os_Open fileName = Ok perLine →
      Baseline.List fileName = (out, Return None) →
      timestamps (tokens perLine) = [t] →
      last out
      = Some (Printf_call "UTC time range in log file: %s -to- %s (%s)\n"
                [arg_string (Time_Format (Time_UTC t) time_ANSIC);
                 arg_string (Time_Format (Time_UTC t) time_ANSIC);
                 arg_Duration 0])).
Proof.
  split_and!.
  - intros fileName perLine out Hopen Hrun Hne.
    destruct (Baseline_List_summary _ _ _ Hopen Hrun) as (pre & n & ->).
    destruct (range_of_min_max _ Hne) as [He Hl].
    eexists _, _. split_and!; [done..|]. apply summary_last.
  - intros fileName perLine out fileName' perLine' out'
      Hopen Hrun Hopen' Hrun' Hp.
    destruct (Baseline_List_summary _ _ _ Hopen Hrun) as (pre & n & ->).
    destruct (Baseline_List_summary _ _ _ Hopen' Hrun') as (pre' & n' & ->).
    rewrite !summary_last. f_equal. by apply range_of_Permutation.
  - intros fileName perLine out t Hopen Hrun Hts.
    destruct (Baseline_List_summary _ _ _ Hopen Hrun) as (pre & n & ->).
    rewrite summary_last, Hts. unfold range_line, range_of. simpl.
    by rewrite Time_Sub_diag.
Qed.

(** Three records out of order: the range runs from the second to the
    first. *)
Lemma reported_range_is_earliest_to_latest_witness :
  timestamps (H:=Sample.env)
    (map Sample.line_of [Sample.accepted Sample.date4;
                         Sample.accepted Sample.date0;
                         Sample.accepted Sample.date1])
  = [Sample.time4; Sample.time0; Sample.time1]
  ∧ ∃ e l,
      earliest_of [Sample.time4; Sample.time0; Sample.time1] e
      ∧ latest_of [Sample.time4; Sample.time0; Sample.time1] l
      ∧ last (Baseline.List (H:=Sample.env) "shuffled.log").1
        = Some (range_line (H:=Sample.env) e l).
Proof.
  split; [by vm_compute|].
  apply (proj1 (reported_range_is_earliest_to_latest (H:=Sample.env))
           "shuffled.log"
           {| tokens := map Sample.line_of [Sample.accepted Sample.date4;
                                            Sample.accepted Sample.date0;
                                            Sample.accepted Sample.date1];
              scan_err := None |}
           (Baseline.List (H:=Sample.env) "shuffled.log").1).
  - reflexivity.
  - by vm_compute.
  - by vm_compute.
Defined.

(** C7 (what the code does).  For the sample file whose only record carries
    the offset +05:30, 19800 seconds, both variants report 5 hours and 0
    minutes: the second operand is the offset modulo 60, the seconds left
    over a whole minute, where the minutes of the offset are 30. *)
Theorem offset_minutes_print_seconds_remainder :
  Time_Zone Sample.time_india = 19800
  ∧ Baseline.List (H:=Sample.env) "india.log"
    = ([Printf_call "%d lines in log file %s\n"
          [arg_int 1; arg_string "india.log"];
        timezone_line 5 0;
        range_line (H:=Sample.env) Sample.time_india Sample.time_india],
       Return None)
  ∧ Extended.List (H:=Sample.env) "india.log"
    = Baseline.List (H:=Sample.env) "india.log"
  ∧ 19800 `quot` 3600 = 5
  ∧ 19800 `rem` 60 = 0
  ∧ (19800 `quot` 60) `rem` 60 = 30.
Proof. split_and!; by vm_compute. Qed.

(** C8 (as amended).  In the extended variant, a record with the message
    [New replica set config in use], a component the variant reads and an
    attribute bag that is an object holding an object [config] makes
    [logLine] print one notice, with the record's timestamp and the rendered
    config (an empty document when the rendering fails), and return the
    record without an error.  [complete] is left as it was, and within the
    loop of [List] the notice is all that is printed for the line: the
    Reporter is not called.  When the rendering succeeds every field of the
    accumulator is left as it was. *)
Theorem new_replica_set_config_is_a_notice `{Env}
    (line : bytes) (lineObj : logJSONT.t) (ts : Time)
    (m config : gmap string any) (info : Extended.startupInfoT) :
  decodes line lineObj ts →
  logJSONT.MSG lineObj = "New replica set config in use" →
  Extended_component (logJSONT.C lineObj) →
  logJSONT.Attr lineObj = any_map m →
  index m "config" = any_map config →
  ∃ yaml info',
    Extended.logLine line info
    = ([Printf_call "New replica set config: %s\n%s\n"
          [arg_string (Time_Format (Time_UTC ts) time_ANSIC);
           arg_bytes yaml]],
       Return (info', (Some {| logT.timeStamp := ts |}, None)))
    ∧ match getConfig config with
      | Ok rendered => yaml = rendered ∧ info' = info
      | Err _ => yaml = [] ∧ info' = Extended.set_replsetConfigYAML [] info
      end
    ∧ Extended.complete info' = Extended.complete info
    ∧ ∀ fileName l,
        Extended.startupInfo l = info →
        Extended.complete info = false →
        (Extended.scan fileName [line] l).1
        = [Printf_call "New replica set config: %s\n%s\n"
             [arg_string (Time_Format (Time_UTC ts) time_ANSIC);
              arg_bytes yaml]].
Proof.
  intros [Hj Ht] Hmsg Hcomp%component_Extended Hattr Hconfig.
  assert (∃ yaml info',
    Extended.logLine line info
    = ([Printf_call "New replica set config: %s\n%s\n"
          [arg_string (Time_Format (Time_UTC ts) time_ANSIC);
           arg_bytes yaml]],
       Return (info', (Some {| logT.timeStamp := ts |}, None)))
    ∧ match getConfig config with
      | Ok rendered => yaml = rendered ∧ info' = info
      | Err _ => yaml = [] ∧ info' = Extended.set_replsetConfigYAML [] info
      end
    ∧ Extended.complete info' = Extended.complete info)
    as (yaml & info' & Hrun & Hrender & Hc).
  { unfold Extended.logLine.
    rewrite Hj, Ht, Hmsg, Hcomp, Hattr. simpl. rewrite Hconfig.
    destruct (getConfig config) as [rendered|e] eqn:Hr;
      go_unfold; rewrite Hr; simpl; eauto 10. }
  exists yaml, info'. split_and!; [done..|].
  intros fileName l <- Hfalse. simpl. rewrite Hrun.
  rewrite Hfalse in Hc. go_unfold. simpl. rewrite Hc.
  by destruct (Extended.firstTime l).
Qed.

(** The sample's record of a new configuration [{_id: rs0}], on the zero
    state. *)
Lemma new_replica_set_config_is_a_notice_witness :
  ∃ yaml info',
    Extended.logLine (H:=Sample.env) (Sample.line_of Sample.newconfig)
      Extended.startupInfo_zero
    = ([Printf_call "New replica set config: %s\n%s\n"
          [arg_string
             (Time_Format (Env:=Sample.env) (Time_UTC Sample.time3)
                time_ANSIC);
           arg_bytes yaml]],
       Return (info', (Some {| logT.timeStamp := Sample.time3 |}, None)))
    ∧ match getConfig (H:=Sample.env) Sample.rs0 with
      | Ok rendered => yaml = rendered ∧ info' = Extended.startupInfo_zero
      | Err _ =>
          yaml = []
          ∧ info' = Extended.set_replsetConfigYAML []
                      Extended.startupInfo_zero
      end
    ∧ Extended.complete info' = Extended.complete Extended.startupInfo_zero
    ∧ ∀ fileName l,
        Extended.startupInfo l = Extended.startupInfo_zero →
        Extended.complete Extended.startupInfo_zero = false →
        (Extended.scan (H:=Sample.env) fileName
           [Sample.line_of Sample.newconfig] l).1
        = [Printf_call "New replica set config: %s\n%s\n"
             [arg_string
             (Time_Format (Env:=Sample.env) (Time_UTC Sample.time3)
                time_ANSIC);
              arg_bytes yaml]].
Proof.
  apply (new_replica_set_config_is_a_notice (H:=Sample.env)
           (Sample.line_of Sample.newconfig)
           (Sample.record_of Sample.newconfig) Sample.time3
           (list_to_map [("config", any_map Sample.rs0)]) Sample.rs0
           Extended.startupInfo_zero).
  - by vm_compute.
  - reflexivity.
  - right. reflexivity.
  - reflexivity.
  - by vm_compute.
Defined.

(** A record with the message, a component the variant reads and an
    attribute bag that holds no [config]: no notice is printed, [logLine]
    panics. *)
Lemma new_replica_set_config_without_config_panics :
  ∃ lineObj ts,
    decodes (H:=Sample.env) (Sample.line_of Sample.newconfig_bare) lineObj ts
    ∧ logJSONT.MSG lineObj = "New replica set config in use"
    ∧ not_nil (logJSONT.Attr lineObj) = true
    ∧ logJSONT.C lineObj = "REPL"
    ∧ Extended.logLine (H:=Sample.env)
        (Sample.line_of Sample.newconfig_bare) Extended.startupInfo_zero
      = ([], Panic (interface_conversion any_nil "map[string]interface {}")).
Proof.
  exists (Sample.record_of Sample.newconfig_bare), Sample.time3.
  split_and!; by vm_compute.
Qed.

(** C9.  What [logLine] prints and returns beside the accumulator (the
    record with its timestamp, the [nil] of a skipped banner, the error, or
    the panic) is the same from any two accumulator states. *)
Theorem logLine_answer_ignores_the_accumulator `{Env} :
  (∀ line s1 s2,
      answer (Baseline.logLine line s1) = answer (Baseline.logLine line s2))
  ∧ (∀ line s1 s2,
      answer (Extended.logLine line s1) = answer (Extended.logLine line s2)).
Proof.
  split.
  - apply Baseline_logLine_answer.
  - apply Extended_logLine_answer.
Qed.

(** C10 (as amended).  In the extended variant, a [Process Details] record
    of a component the variant reads, whose attribute bag is an object with a
    string [pid], a number [port] and a string [host], makes [logLine] return
    the record without an error whatever the [pid] string is.  [processID]
    becomes the value [strconv.Atoi] returns beside its dropped error: for an
    optionally signed decimal numeral its value when that fits [int64] and
    the nearest [int64] when it does not; for a string that is no such
    numeral 0, unless the digits it starts with after its sign already leave
    [uint64]: then [Atoi] reports the range before it reaches the byte that
    is no digit, and the value is the [int64] bound of the sign.
    [isStartup] becomes false, [timeStamp], [port] and [hostName] are taken
    from the record, and the other fields are left as they were. *)
Theorem process_details_drops_the_Atoi_error `{Env}
    (line : bytes) (lineObj : logJSONT.t) (ts : Time)
    (m : gmap string any) (pid host : string) (port' : float64)
    (info : Extended.startupInfoT) :
  decodes line lineObj ts →
  logJSONT.MSG lineObj = "Process Details" →
  Extended_component (logJSONT.C lineObj) →
  logJSONT.Attr lineObj = any_map m →
  index m "pid" = any_string pid →
  index m "port" = any_float64 port' →
  index m "host" = any_string host →
  Extended.logLine line info
  = ([],
     Return
       ({| Extended.isStartup := false;
           Extended.complete := Extended.complete info;
           Extended.timeStamp := ts;
           Extended.processID := (strconv_Atoi pid).1;
           Extended.port := int_of_float64 port';
           Extended.dbPath := Extended.dbPath info;
           Extended.hostName := host;
           Extended.version := Extended.version info;
           Extended.distro := Extended.distro info;
           Extended.os := Extended.os info;
           Extended.osVersion := Extended.osVersion info;
           Extended.configFile := Extended.configFile info;
           Extended.options := Extended.options info;
           Extended.configYAML := Extended.configYAML info;
           Extended.memberState := Extended.memberState info;
           Extended.replsetConfig := Extended.replsetConfig info;
           Extended.replsetConfigYAML := Extended.replsetConfigYAML info |},
        (Some {| logT.timeStamp := ts |}, None)))
  ∧ (∀ z, numeral pid = Some z →
       (strconv_Atoi pid).1 = nearest_int64 z
       ∧ (minInt64 <= z <= maxInt64 → (strconv_Atoi pid).1 = z))
  ∧ (numeral pid = None →
       (strconv_Atoi pid).1
       = if leading_digits_overflow pid then
           if (sign_of pid).1 then minInt64 else maxInt64
         else 0).
Proof.
  intros [Hj Ht] Hmsg Hcomp%component_Extended Hattr Hpid Hport Hhost.
  split_and!.
  - unfold Extended.logLine.
    rewrite Hj, Ht, Hmsg, Hcomp, Hattr. simpl.
    by rewrite Hpid, Hport, Hhost.
  - intros z Hz. rewrite strconv_Atoi_value. unfold Atoi_reading.
    rewrite Hz. unfold nearest_int64.
    case_bool_decide; simpl; (split; [lia|done]).
  - intros Hz. rewrite strconv_Atoi_value. unfold Atoi_reading.
    rewrite Hz. by destruct (leading_digits_overflow pid).
Qed.

(** The line of the comment in the source with the [pid] ["n/a"]: no error,
    and a [processID] of 0. *)
Lemma process_details_drops_the_Atoi_error_witness :
  numeral "n/a" = None
  ∧ ∃ info',
      Extended.logLine (H:=Sample.env)
        (Sample.line_of (Sample.process "n/a")) Extended.startupInfo_zero
      = ([], Return (info', (Some {| logT.timeStamp := Sample.time0 |},
                             None)))
      ∧ Extended.processID info' = 0
      ∧ Extended.port info' = 27017
      ∧ Extended.hostName info' = "pd3lon-mdb-07"
      ∧ Extended.timeStamp info' = Sample.time0
      ∧ Extended.isStartup info' = false.
Proof.
  split; [reflexivity|].
  destruct (process_details_drops_the_Atoi_error (H:=Sample.env)
              (Sample.line_of (Sample.process "n/a"))
              (Sample.record_of (Sample.process "n/a")) Sample.time0
              (list_to_map
                 [("pid", any_string "n/a"); ("port", Sample.num 27017);
                  ("architecture", any_string "64-bit");
                  ("host", any_string "pd3lon-mdb-07")])
              "n/a" "pd3lon-mdb-07" (float64_of_Z 27017)
              Extended.startupInfo_zero)
    as (Hrun & _ & Hzero).
  - by vm_compute.
  - reflexivity.
  - left. reflexivity.
  - reflexivity.
  - by vm_compute.
  - by vm_compute.
  - by vm_compute.
  - eexists. split; [exact Hrun|].
    split; [exact (Hzero eq_refl)|by vm_compute].
Defined.

(** A [pid] one past the largest [int64]: [Atoi] fails to parse it (value
    out of range), no error is returned for the line, and [processID] is the
    largest [int64], not 0.  A [pid] of twenty digits and a letter is no
    numeral at all, and [processID] is the largest [int64] again.  And a
    [pid] that is no numeral in a record without a [port]: the fields are
    not merged, [logLine] panics. *)
Lemma process_details_pid_out_of_range :
  (strconv_Atoi "9223372036854775808" = (maxInt64, Some ErrRange)
   ∧ ∃ info',
       Extended.logLine (H:=Sample.env)
         (Sample.line_of (Sample.process "9223372036854775808"))
         Extended.startupInfo_zero
       = ([], Return (info', (Some {| logT.timeStamp := Sample.time0 |},
                              None)))
       ∧ Extended.processID info' = 9223372036854775807
       ∧ Extended.processID info' ≠ 0)
  ∧ (numeral long_pid = None
     ∧ strconv_Atoi long_pid = (maxInt64, Some ErrRange)
     ∧ ∃ info',
         Extended.logLine (H:=long_pid_env)
           (Sample.line_of (Sample.process long_pid))
           Extended.startupInfo_zero
         = ([], Return (info', (Some {| logT.timeStamp := Sample.time0 |},
                                None)))
         ∧ Extended.processID info' = 9223372036854775807
         ∧ Extended.processID info' ≠ 0)
  ∧ (strconv_Atoi "n/a" = (0, Some ErrSyntax)
     ∧ Extended.logLine (H:=Sample.env)
         (Sample.line_of Sample.process_noport) Extended.startupInfo_zero
       = ([], Panic (interface_conversion any_nil "float64"))).
Proof.
  split_and!; [by vm_compute| |by vm_compute|by vm_compute| |by vm_compute..].
  - eexists. split; [by vm_compute|]. by vm_compute.
  - eexists. split; [by vm_compute|]. by vm_compute.
Qed.


(** * Further properties *)

(** ** What the pass prints *)

Section Output.
Context `{Env}.

Lemma sets_complete_Baseline (line : bytes) :
  Baseline_sets_complete line = true ↔ completes Baseline_component line.
Proof.
  unfold Baseline_sets_complete, completes, decodes, Baseline_component.
  split.
  - destruct (json_Unmarshal line) as [lineObj|]; [|done].
    destruct (time_Parse _ _) as [ts|] eqn:Ht; [|done].
    intros [[Hmsg%String.eqb_eq Hc%String.eqb_eq]%andb_true_iff Hs]
      %andb_true_iff.
    exists lineObj, ts. by rewrite Hmsg in *.
  - intros (lineObj & ts & [-> ->] & -> & -> & ->). done.
Qed.

Lemma sets_complete_Extended (line : bytes) :
  Extended_sets_complete line = true ↔ completes Extended_component line.
Proof.
  unfold Extended_sets_complete, completes, decodes. split.
  - destruct (json_Unmarshal line) as [lineObj|]; [|done].
    destruct (time_Parse _ _) as [ts|] eqn:Ht; [|done].
    intros [[Hmsg%String.eqb_eq Hc%component_Extended]%andb_true_iff Hs]
      %andb_true_iff.
    exists lineObj, ts. by rewrite Hmsg in *.
  - intros (lineObj & ts & [-> ->] & -> & Hc%component_Extended & ->).
    by rewrite Hc.
Qed.

(** What one [logLine] call prints: nothing, the warning, or the notice. *)
Ltac prove_output :=
  destruct (json_Unmarshal _) as [lineObj|e];
    [|case_match; go_unfold; intros; simplify_eq/=; eauto];
  destruct (time_Parse _ _) as [ts|e];
    [|go_unfold; intros; simplify_eq/=; eauto];
  destruct (not_nil _ && _);
    [|go_unfold; intros; simplify_eq/=; eauto];
  destruct (logJSONT.Attr lineObj);
    try (go_unfold; intros; simplify_eq/=; by eauto);
  intros; logLine_cases; eauto.

Lemma Baseline_logLine_output line info out res :
  Baseline.logLine line info = (out, res) →
  out = [] ∨ out = [warning_line line].
Proof. unfold Baseline.logLine. prove_output. Qed.

Lemma Extended_logLine_output line info out res :
  Extended.logLine line info = (out, res) →
  out = [] ∨ out = [warning_line line] ∨ ∃ ts yaml, out = [notice_line ts yaml].
Proof. unfold Extended.logLine. prove_output. Qed.

End Output.
(** ** Reports in the loop of [List] *)

Lemma reports_app (out out' : list print) :
  reports (out ++ out') = (reports out + reports out')%nat.
Proof. unfold reports. by rewrite filter_app, length_app. Qed.

Lemma member_lines_app (out out' : list print) :
  member_lines (out ++ out') = (member_lines out + member_lines out')%nat.
Proof. unfold member_lines. by rewrite filter_app, length_app. Qed.

(** Closes [Forall (λ p, format p ∉ formats) out] for an [out] that is
    written out. *)
Ltac solve_formats :=
  repeat (apply Forall_cons; split;
          [by apply (bool_decide_unpack _); vm_compute|]);
  by apply Forall_nil.

Section Reports.
Context `{Env}.

(** A report: what [printStartup] prints when [complete] is set, and the
    state it leaves. *)
Lemma Baseline_printStartup_complete (info : Baseline.startupInfoT) :
  Baseline.complete info = true →
  ∃ out info',
    Baseline.printStartup info = (out, Return info')
    ∧ Baseline.complete info' = false
    ∧ reports out = 1%nat
    ∧ Forall (λ p, format p ∉ summary_formats) out.
Proof.
  intros Hc. unfold Baseline.printStartup. rewrite Hc. go_unfold. simpl.
  eexists _, _. split_and!; [reflexivity|done|done|].
  solve_formats.
Qed.

Lemma Extended_printStartup_complete (info : Extended.startupInfoT) :
  Extended.complete info = true →
  ∃ out info',
    Extended.printStartup info = (out, Return info')
    ∧ Extended.complete info' = false
    ∧ Extended.replsetConfig info' = Extended.replsetConfig info
    ∧ reports out = 1%nat
    ∧ member_lines out
      = (if bool_decide (Extended.replsetConfig info ≠ None) then 1 else 0)%nat
    ∧ Forall (λ p, format p ∉ summary_formats) out.
Proof.
  intros Hc. unfold Extended.printStartup. rewrite Hc. go_unfold. simpl.
  case_bool_decide; simpl;
    (eexists _, _; split_and!; [reflexivity|done..|solve_formats]).
Qed.

(** The loop of [List] enters every iteration with [complete] unset, prints
    one report for every line that sets it, and none of the summary. *)
Lemma Baseline_scan_reports fileName toks l out l' r :
  Baseline.complete (Baseline.startupInfo l) = false →
  Baseline.scan fileName toks l = (out, Return (l', r)) →
  Baseline.complete (Baseline.startupInfo l') = false
  ∧ reports out
    = length (filter (λ line, Baseline_sets_complete line = true) toks)
  ∧ Forall (λ p, format p ∉ summary_formats) out.
Proof.
  revert l out. induction toks as [|line toks IH]; intros l out Hc.
  - intros [= <- <- <-]. done.
  - simpl. go_unfold.
    destruct (Baseline.logLine line (Baseline.startupInfo l))
      as [out1 [[info1 [lg err]]|p]] eqn:Hstep; [|done].
    pose proof (Baseline_logLine_completes line _ Hc) as Hiff.
    rewrite <- sets_complete_Baseline, Hstep in Hiff.
    assert (Baseline.complete info1 = Baseline_sets_complete line) as Hc1.
    { destruct (Baseline.complete info1) eqn:E.
      - symmetry. apply Hiff. eauto 10.
      - destruct (Baseline_sets_complete line); [|done].
        destruct (proj2 Hiff eq_refl) as (? & ? & ? & [= <- <- <-] & ?).
        congruence. }
    assert (reports out1 = 0%nat ∧ Forall (λ p, format p ∉ summary_formats) out1)
      as [Hr1 Hf1].
    { destruct (Baseline_logLine_output _ _ _ _ Hstep) as [->| ->];
        (split; [done|solve_formats]). }
    pose proof (Baseline_logLine_record _ _ _ _ _ _ Hstep) as [-> Herr].
    rewrite filter_cons.
    destruct (timestamp_of line) as [ts|] eqn:Hts; simpl in *.
    + rewrite Herr by eauto.
      destruct (Baseline.complete info1) eqn:Hcomplete.
      * destruct (Baseline_printStartup_complete info1 Hcomplete)
          as (out2 & info2 & -> & Hc2 & Hr2 & Hf2).
        rewrite decide_True by done. simpl.
        destruct (Baseline.firstTime l);
          (destruct (Baseline.scan _ _ _) as [out3 [[l3 r3]|p]] eqn:Hrest;
             [|done]);
          intros [= <- <- <-]; apply IH in Hrest as (? & Hr3 & Hf3);
          try done;
          (split_and!; [done| |by rewrite !Forall_app]);
          rewrite !reports_app, Hr1, Hr2, Hr3; done.
      * rewrite decide_False by congruence. simpl.
        destruct (Baseline.firstTime l);
          (destruct (Baseline.scan _ _ _) as [out3 [[l3 r3]|p]] eqn:Hrest;
             [|done]);
          intros [= <- <- <-]; apply IH in Hrest as (? & Hr3 & Hf3);
          try done;
          (split_and!; [done| |by rewrite !Forall_app]);
          rewrite !reports_app, Hr1, Hr3; done.
    + assert (Baseline_sets_complete line = false) as Hno.
      { unfold Baseline_sets_complete. unfold timestamp_of in Hts.
        destruct (json_Unmarshal line); [|done].
        by destruct (time_Parse _ _). }
      rewrite decide_False by congruence.
      destruct (Baseline.scan _ _ _) as [out3 [[l3 r3]|p]] eqn:Hrest; [|done].
      intros [= <- <- <-]. apply IH in Hrest as (? & Hr3 & Hf3).
      * split_and!; [done| |by rewrite Forall_app].
        by rewrite reports_app, Hr1, Hr3.
      * simpl. congruence.
Qed.

Lemma Extended_scan_reports fileName toks l out l' r :
  Extended.complete (Extended.startupInfo l) = false →
  Extended.scan fileName toks l = (out, Return (l', r)) →
  Extended.complete (Extended.startupInfo l') = false
  ∧ reports out
    = length (filter (λ line, Extended_sets_complete line = true) toks)
  ∧ Forall (λ p, format p ∉ summary_formats) out.
Proof.
  revert l out. induction toks as [|line toks IH]; intros l out Hc.
  - intros [= <- <- <-]. done.
  - simpl. go_unfold.
    destruct (Extended.logLine line (Extended.startupInfo l))
      as [out1 [[info1 [lg err]]|p]] eqn:Hstep; [|done].
    pose proof (Extended_logLine_completes line _ Hc) as Hiff.
    rewrite <- sets_complete_Extended, Hstep in Hiff.
    assert (Extended.complete info1 = Extended_sets_complete line) as Hc1.
    { destruct (Extended.complete info1) eqn:E.
      - symmetry. apply Hiff. eauto 10.
      - destruct (Extended_sets_complete line); [|done].
        destruct (proj2 Hiff eq_refl) as (? & ? & ? & [= <- <- <-] & ?).
        congruence. }
    assert (reports out1 = 0%nat ∧ Forall (λ p, format p ∉ summary_formats) out1)
      as [Hr1 Hf1].
    { destruct (Extended_logLine_output _ _ _ _ Hstep)
        as [->|[->|(? & ? & ->)]]; (split; [done|solve_formats]). }
    pose proof (Extended_logLine_record _ _ _ _ _ _ Hstep) as [-> Herr].
    rewrite filter_cons.
    destruct (timestamp_of line) as [ts|] eqn:Hts; simpl in *.
    + rewrite Herr by eauto.
      destruct (Extended.complete info1) eqn:Hcomplete.
      * destruct (Extended_printStartup_complete info1 Hcomplete)
          as (out2 & info2 & -> & Hc2 & _ & Hr2 & _ & Hf2).
        rewrite decide_True by done. simpl.
        destruct (Extended.firstTime l);
          (destruct (Extended.scan _ _ _) as [out3 [[l3 r3]|p]] eqn:Hrest;
             [|done]);
          intros [= <- <- <-]; apply IH in Hrest as (? & Hr3 & Hf3);
          try done;
          (split_and!; [done| |by rewrite !Forall_app]);
          rewrite !reports_app, Hr1, Hr2, Hr3; done.
      * rewrite decide_False by congruence. simpl.
        destruct (Extended.firstTime l);
          (destruct (Extended.scan _ _ _) as [out3 [[l3 r3]|p]] eqn:Hrest;
             [|done]);
          intros [= <- <- <-]; apply IH in Hrest as (? & Hr3 & Hf3);
          try done;
          (split_and!; [done| |by rewrite !Forall_app]);
          rewrite !reports_app, Hr1, Hr3; done.
    + assert (Extended_sets_complete line = false) as Hno.
      { unfold Extended_sets_complete. unfold timestamp_of in Hts.
        destruct (json_Unmarshal line); [|done].
        by destruct (time_Parse _ _). }
      rewrite decide_False by congruence.
      destruct (Extended.scan _ _ _) as [out3 [[l3 r3]|p]] eqn:Hrest; [|done].
      intros [= <- <- <-]. apply IH in Hrest as (? & Hr3 & Hf3).
      * split_and!; [done| |by rewrite Forall_app].
        by rewrite reports_app, Hr1, Hr3.
      * simpl. congruence.
Qed.


(** [logLine] never clears [replsetConfig]. *)
Lemma Extended_logLine_keeps_replsetConfig line info out info' r :
  Extended.logLine line info = (out, Return (info', r)) →
  Extended.replsetConfig info ≠ None → Extended.replsetConfig info' ≠ None.
Proof.
  unfold Extended.logLine. intros Hrun Hc.
  destruct (json_Unmarshal _) as [lineObj|err] in Hrun;
    [|case_match; go_unfold; simplify_eq/=; congruence].
  destruct (time_Parse _ _) as [ts|err] in Hrun;
    [|go_unfold; simplify_eq/=; congruence].
  destruct (not_nil _ && _) in Hrun;
    [|go_unfold; simplify_eq/=; congruence].
  destruct (logJSONT.Attr lineObj); try done;
  logLine_cases.
Qed.

(** Nor does the loop of [List], and every report it prints from then on
    shows a member state. *)
Lemma Extended_scan_keeps_replsetConfig fileName toks l out l' r :
  Extended.replsetConfig (Extended.startupInfo l) ≠ None →
  Extended.scan fileName toks l = (out, Return (l', r)) →
  Extended.replsetConfig (Extended.startupInfo l') ≠ None
  ∧ member_lines out = reports out.
Proof.
  revert l out. induction toks as [|line toks IH]; intros l out Hc.
  - intros [= <- <- <-]. done.
  - simpl. go_unfold.
    destruct (Extended.logLine line (Extended.startupInfo l))
      as [out1 [[info1 [lg err]]|p]] eqn:Hstep; [|done].
    pose proof (Extended_logLine_keeps_replsetConfig _ _ _ _ _ Hstep Hc)
      as Hc1.
    assert (member_lines out1 = 0%nat ∧ reports out1 = 0%nat) as [Hm1 Hr1].
    { by destruct (Extended_logLine_output _ _ _ _ Hstep)
        as [->|[->|(? & ? & ->)]]. }
    pose proof (Extended_logLine_record _ _ _ _ _ _ Hstep) as [-> Herr].
    destruct (timestamp_of line) as [ts|] eqn:Hts; simpl in *.
    + rewrite Herr by eauto.
      destruct (Extended.complete info1) eqn:Hcomplete.
      * destruct (Extended_printStartup_complete info1 Hcomplete)
          as (out2 & info2 & -> & _ & Hrs & Hr2 & Hm2 & _).
        rewrite bool_decide_eq_true_2 in Hm2 by done.
        destruct (Extended.firstTime l);
          (destruct (Extended.scan _ _ _) as [out3 [[l3 r3]|p]] eqn:Hrest;
             [|done]);
          intros [= <- <- <-]; apply IH in Hrest as [? Hm3];
          try (simpl; congruence);
          (split; [done|]);
          rewrite !reports_app, !member_lines_app, Hr1, Hm1, Hr2, Hm2, Hm3;
          done.
      * destruct (Extended.firstTime l);
          (destruct (Extended.scan _ _ _) as [out3 [[l3 r3]|p]] eqn:Hrest;
             [|done]);
          intros [= <- <- <-]; apply IH in Hrest as [? Hm3];
          try done;
          (split; [done|]);
          rewrite !reports_app, !member_lines_app, Hr1, Hm1, Hm3; done.
    + destruct (Extended.scan _ _ _) as [out3 [[l3 r3]|p]] eqn:Hrest; [|done].
      intros [= <- <- <-]. apply IH in Hrest as [? Hm3]; [|done].
      split; [done|].
      by rewrite !reports_app, !member_lines_app, Hr1, Hm1, Hm3.
Qed.

End Reports.
(** ** Counting lines *)

Section Counting.
Context `{Env}.

(** The loop of [List] adds one to [lineCount] for every line, whatever the
    line is. *)
Lemma Baseline_scan_lineCount fileName toks l out l' r :
  Baseline.scan fileName toks l = (out, Return (l', r)) →
  0 <= Baseline.lineCount l →
  Baseline.lineCount l + Z.of_nat (length toks) <= maxInt64 →
  Baseline.lineCount l' = Baseline.lineCount l + Z.of_nat (length toks).
Proof.
  revert l out. induction toks as [|line toks IH]; intros l out.
  - intros [= _ <- _] _ _. simpl. lia.
  - simpl length. intros Hrun H0 Hmax. simpl in Hrun. go_unfold.
    assert (wrap64 (Baseline.lineCount l + 1) = Baseline.lineCount l + 1)
      as Hw by (apply wrap64_small; unfold minInt64, maxInt64 in *; lia).
    rewrite Hw in Hrun.
    destruct (Baseline.logLine line (Baseline.startupInfo l))
      as [out1 [[info1 [lg err]]|p]] eqn:Hstep; [|done].
    apply Baseline_logLine_record in Hstep as [-> Herr].
    destruct (timestamp_of line) as [ts|]; simpl in *.
    + rewrite Herr in Hrun by eauto.
      destruct (Baseline_printStartup_returns info1) as (o & i & Hprint).
      destruct (Baseline.firstTime l);
        (destruct (Baseline.complete info1); [rewrite Hprint in Hrun|]);
        simpl in Hrun;
        (destruct (Baseline.scan _ _ _) as [out2 [[l2 r2]|p]] eqn:Hrest;
           [|done]);
        injection Hrun as _ <- <-; apply IH in Hrest; simpl in *; lia.
    + destruct (Baseline.scan _ _ _) as [out2 [[l2 r2]|p]] eqn:Hrest; [|done].
      injection Hrun as _ <- <-. apply IH in Hrest; simpl in *; lia.
Qed.

Lemma Extended_scan_lineCount fileName toks l out l' r :
  Extended.scan fileName toks l = (out, Return (l', r)) →
  0 <= Extended.lineCount l →
  Extended.lineCount l + Z.of_nat (length toks) <= maxInt64 →
  Extended.lineCount l' = Extended.lineCount l + Z.of_nat (length toks).
Proof.
  revert l out. induction toks as [|line toks IH]; intros l out.
  - intros [= _ <- _] _ _. simpl. lia.
  - simpl length. intros Hrun H0 Hmax. simpl in Hrun. go_unfold.
    assert (wrap64 (Extended.lineCount l + 1) = Extended.lineCount l + 1)
      as Hw by (apply wrap64_small; unfold minInt64, maxInt64 in *; lia).
    rewrite Hw in Hrun.
    destruct (Extended.logLine line (Extended.startupInfo l))
      as [out1 [[info1 [lg err]]|p]] eqn:Hstep; [|done].
    apply Extended_logLine_record in Hstep as [-> Herr].
    destruct (timestamp_of line) as [ts|]; simpl in *.
    + rewrite Herr in Hrun by eauto.
      destruct (Extended_printStartup_returns info1) as (o & i & Hprint).
      destruct (Extended.firstTime l);
        (destruct (Extended.complete info1); [rewrite Hprint in Hrun|]);
        simpl in Hrun;
        (destruct (Extended.scan _ _ _) as [out2 [[l2 r2]|p]] eqn:Hrest;
           [|done]);
        injection Hrun as _ <- <-; apply IH in Hrest; simpl in *; lia.
    + destruct (Extended.scan _ _ _) as [out2 [[l2 r2]|p]] eqn:Hrest; [|done].
      injection Hrun as _ <- <-. apply IH in Hrest; simpl in *; lia.
Qed.

End Counting.
(** ** The startup and rotation sequences *)

Lemma Permutation_3 {A} (a b c : A) (perm : list A) :
  perm ≡ₚ [a; b; c] →
  perm ∈ [[a; b; c]; [a; c; b]; [b; a; c]; [b; c; a]; [c; a; b]; [c; b; a]].
Proof.
  intros Hp.
  destruct perm as [|x perm]; [by apply Permutation_nil_cons in Hp|].
  assert (x ∈ [a; b; c]) as Hx by (rewrite <- Hp; by repeat constructor).
  assert (∀ y z, perm ≡ₚ [y; z] → perm = [y; z] ∨ perm = [z; y]) as H2.
  { intros y z Hyz. symmetry in Hyz.
    apply Permutation_length_2_inv in Hyz as [->| ->]; auto. }
  apply elem_of_cons in Hx as [->|Hx];
    [|apply elem_of_cons in Hx as [->|Hx];
       [|apply list_elem_of_singleton in Hx as ->]].
  - apply Permutation_cons_inv in Hp. destruct (H2 _ _ Hp) as [->| ->];
      by repeat constructor.
  - assert ([a; b; c] ≡ₚ b :: [a; c]) as Hb by apply perm_swap.
    rewrite Hb in Hp.
    apply Permutation_cons_inv in Hp. destruct (H2 _ _ Hp) as [->| ->];
      by repeat constructor.
  - assert ([a; b; c] ≡ₚ c :: [a; b]) as Hc
      by (by rewrite (Permutation_app_comm [c] [a; b])).
    rewrite Hc in Hp.
    apply Permutation_cons_inv in Hp. destruct (H2 _ _ Hp) as [->| ->];
      by repeat constructor.
Qed.

Section Sequences.
Context `{Env}.

Lemma Baseline_logLine_starting line ts pid port' host dbPath' info :
  starting_record Baseline_component line ts pid port' host dbPath' →
  Baseline.logLine line info
  = ([], Return
           (Baseline.set_dbPath dbPath'
              (Baseline.set_hostName host
                 (Baseline.set_port (int_of_float64 port')
                    (Baseline.set_processID (int_of_float64 pid)
                       (Baseline.set_timeStamp ts
                          (Baseline.set_isStartup true info))))),
            (Some {| logT.timeStamp := ts |}, None))).
Proof.
  intros (lineObj & m & [Hj Ht] & Hmsg & Hc%component_Baseline & Ha
          & Hpid & Hport & Hhost & Hdb).
  unfold Baseline.logLine. rewrite Hj, Ht, Hmsg, Hc, Ha. simpl.
  by rewrite Hpid, Hport, Hhost, Hdb.
Qed.

Lemma Baseline_logLine_build line ts version' distmod info :
  build_record Baseline_component line ts version' distmod →
  Baseline.logLine line info
  = ([], Return
           (Baseline.set_distro distmod (Baseline.set_version version' info),
            (Some {| logT.timeStamp := ts |}, None))).
Proof.
  intros (lineObj & m & b & e & [Hj Ht] & Hmsg & Hc%component_Baseline & Ha
          & Hb & Hv & He & Hd).
  unfold Baseline.logLine. rewrite Hj, Ht, Hmsg, Hc, Ha. simpl.
  rewrite Hb. simpl. rewrite Hv, He. simpl. by rewrite Hd.
Qed.

Lemma Baseline_logLine_os line ts name osversion info :
  os_record Baseline_component line ts name osversion →
  Baseline.logLine line info
  = ([], Return
           (Baseline.set_osVersion osversion (Baseline.set_os name info),
            (Some {| logT.timeStamp := ts |}, None))).
Proof.
  intros (lineObj & m & o & [Hj Ht] & Hmsg & Hc%component_Baseline & Ha
          & Ho & Hn & Hv).
  unfold Baseline.logLine. rewrite Hj, Ht, Hmsg, Hc, Ha. simpl.
  rewrite Ho. simpl. by rewrite Hn, Hv.
Qed.

Lemma Baseline_logLine_options line ts config opts info :
  options_record Baseline_component line ts config opts →
  Baseline.logLine line info
  = ([], Return
           (Baseline.set_complete true
              (Baseline.set_configYAML (rendered opts)
                 (Baseline.set_options (Some opts)
                    (Baseline.set_configFile config info))),
            (Some {| logT.timeStamp := ts |}, None))).
Proof.
  intros (lineObj & m & [Hj Ht] & Hmsg & Hc%component_Baseline & Ha
          & Ho & Hcfg).
  unfold Baseline.logLine, rendered. rewrite Hj, Ht, Hmsg, Hc, Ha. simpl.
  rewrite Ho. simpl. rewrite Hcfg. simpl.
  by destruct (getConfig opts).
Qed.

Lemma Extended_logLine_process line ts pid port' host info :
  process_record Extended_component line ts pid port' host →
  Extended.logLine line info
  = ([], Return
           (Extended.set_hostName host
              (Extended.set_port (int_of_float64 port')
                 (Extended.set_processID (strconv_Atoi pid).1
                    (Extended.set_timeStamp ts
                       (Extended.set_isStartup false info)))),
            (Some {| logT.timeStamp := ts |}, None))).
Proof.
  intros (lineObj & m & [Hj Ht] & Hmsg & Hc%component_Extended & Ha
          & Hpid & Hport & Hhost).
  unfold Extended.logLine. rewrite Hj, Ht, Hmsg, Hc, Ha. simpl.
  by rewrite Hpid, Hport, Hhost.
Qed.

Lemma Extended_logLine_options line ts config opts info :
  options_record Extended_component line ts config opts →
  Extended.logLine line info
  = ([], Return
           (Extended.set_complete true
              (Extended.set_configYAML (rendered opts)
                 (Extended.set_options (Some opts)
                    (Extended.set_configFile config info))),
            (Some {| logT.timeStamp := ts |}, None))).
Proof.
  intros (lineObj & m & [Hj Ht] & Hmsg & Hc%component_Extended & Ha
          & Ho & Hcfg).
  unfold Extended.logLine, rendered. rewrite Hj, Ht, Hmsg, Hc, Ha. simpl.
  rewrite Ho. simpl. rewrite Hcfg. simpl.
  by destruct (getConfig opts).
Qed.

Lemma Extended_logLine_starting line ts pid port' host dbPath' info :
  starting_record Extended_component line ts pid port' host dbPath' →
  Extended.logLine line info
  = ([], Return
           (Extended.set_dbPath dbPath'
              (Extended.set_hostName host
                 (Extended.set_port (int_of_float64 port')
                    (Extended.set_processID (int_of_float64 pid)
                       (Extended.set_timeStamp ts
                          (Extended.set_isStartup true info))))),
            (Some {| logT.timeStamp := ts |}, None))).
Proof.
  intros (lineObj & m & [Hj Ht] & Hmsg & Hc%component_Extended & Ha
          & Hpid & Hport & Hhost & Hdb).
  unfold Extended.logLine. rewrite Hj, Ht, Hmsg, Hc, Ha. simpl.
  by rewrite Hpid, Hport, Hhost, Hdb.
Qed.

Lemma Extended_logLine_build line ts version' distmod info :
  build_record Extended_component line ts version' distmod →
  Extended.logLine line info
  = ([], Return
           (Extended.set_distro distmod (Extended.set_version version' info),
            (Some {| logT.timeStamp := ts |}, None))).
Proof.
  intros (lineObj & m & b & e & [Hj Ht] & Hmsg & Hc%component_Extended & Ha
          & Hb & Hv & He & Hd).
  unfold Extended.logLine. rewrite Hj, Ht, Hmsg, Hc, Ha. simpl.
  rewrite Hb. simpl. rewrite Hv, He. simpl. by rewrite Hd.
Qed.

Lemma Extended_logLine_os line ts name osversion info :
  os_record Extended_component line ts name osversion →
  Extended.logLine line info
  = ([], Return
           (Extended.set_osVersion osversion (Extended.set_os name info),
            (Some {| logT.timeStamp := ts |}, None))).
Proof.
  intros (lineObj & m & o & [Hj Ht] & Hmsg & Hc%component_Extended & Ha
          & Ho & Hn & Hv).
  unfold Extended.logLine. rewrite Hj, Ht, Hmsg, Hc, Ha. simpl.
  rewrite Ho. simpl. by rewrite Hn, Hv.
Qed.

Lemma Extended_logLine_member line ts memberState' config info :
  member_record Extended_component line ts memberState' config →
  Extended.logLine line info
  = ([], Return
           (Extended.set_replsetConfigYAML (rendered config)
              (Extended.set_replsetConfig (Some config)
                 (Extended.set_memberState memberState' info)),
            (Some {| logT.timeStamp := ts |}, None))).
Proof.
  intros (lineObj & m & [Hj Ht] & Hmsg & Hc%component_Extended & Ha
          & Hs & Hcfg).
  unfold Extended.logLine, rendered. rewrite Hj, Ht, Hmsg, Hc, Ha. simpl.
  rewrite Hs, Hcfg. simpl.
  by destruct (getConfig config).
Qed.

End Sequences.

(** One turn of the loop of [List] on a record that prints nothing and
    leaves the set incomplete. *)
Lemma Extended_scan_quiet `{Env} fileName line toks l info' ts :
  Extended.logLine line (Extended.startupInfo l)
  = ([], Return (info', (Some {| logT.timeStamp := ts |}, None))) →
  Extended.complete info' = false →
  Extended.scan fileName (line :: toks) l
  = Extended.scan fileName toks
      {| Extended.earliest := (range_step (Extended.firstTime l,
                                 Extended.earliest l, Extended.latest l)
                                 ts).1.2;
         Extended.latest := (range_step (Extended.firstTime l,
                               Extended.earliest l, Extended.latest l) ts).2;
         Extended.firstTime := false;
         Extended.startupInfo := info';
         Extended.lineCount := wrap64 (Extended.lineCount l + 1) |}.
Proof.
  intros Hline Hc. simpl. go_unfold. rewrite Hline. simpl. rewrite Hc.
  destruct (Extended.firstTime l); simpl;
    by destruct (Extended.scan _ _ _) as [? []].
Qed.

(** The last turn, on a record that prints nothing itself. *)
Lemma Extended_scan_last `{Env} fileName line l info' ts :
  Extended.logLine line (Extended.startupInfo l)
  = ([], Return (info', (Some {| logT.timeStamp := ts |}, None))) →
  Extended.complete info' = true →
  ∀ out info'',
    Extended.printStartup info' = (out, Return info'') →
    Extended.scan fileName [line] l
    = (out,
       Return
         ({| Extended.earliest := (range_step (Extended.firstTime l,
                                     Extended.earliest l, Extended.latest l)
                                     ts).1.2;
             Extended.latest := (range_step (Extended.firstTime l,
                                   Extended.earliest l, Extended.latest l)
                                   ts).2;
             Extended.firstTime := false;
             Extended.startupInfo := info'';
             Extended.lineCount := wrap64 (Extended.lineCount l + 1) |},
          None)).
Proof.
  intros Hline Hc out info'' Hprint. simpl. go_unfold. rewrite Hline. simpl.
  rewrite Hc. fold (Extended.printStartup info'). rewrite Hprint.
  destruct (Extended.firstTime l); simpl; by rewrite ?app_nil_r.
Qed.

(** ** The command line *)

Section Commands.
Context `{CommandLine}.

Lemma Files_files_blocks (args : list string) :
  Forall (λ logFile, ∃ err, (info_List logFile).2 = Return err) args →
  Files.files args = (flat_map file_block args, Return ()).
Proof.
  induction 1 as [|logFile args [err Herr] _ IH]; [done|].
  simpl. unfold file_block at 1. rewrite IH.
  destruct (info_List logFile) as [out o]. simpl in *. subst o.
  go_unfold. simpl. destruct err; simpl; by rewrite <- ?app_assoc.
Qed.

(** The loop stops in the first file whose pass panics, after the start
    marker and what the pass printed. *)
Lemma Files_files_panics (pre post : list string) (logFile : string)
    (out : list print) (p : panic_value) :
  Forall (λ logFile, ∃ err, (info_List logFile).2 = Return err) pre →
  info_List logFile = (out, Panic p) →
  Files.files (pre ++ logFile :: post)
  = (flat_map file_block pre
     ++ Printf_call "\n--------START LOG FILE: %s-----------\n"
          [arg_string logFile] :: out,
     Panic p).
Proof.
  intros Hpre Hpanic.
  induction Hpre as [|logFile' pre [err Herr] _ IH].
  - simpl. go_unfold. by rewrite Hpanic.
  - simpl. unfold file_block at 1. rewrite IH.
    destruct (info_List logFile') as [out' o]. simpl in *. subst o.
    go_unfold. simpl. destruct err; simpl; by rewrite <- ?app_assoc.
Qed.

End Commands.

(** ** Properties of the records, the loop and the commands *)

(** X1.  A line that is not JSON and starts with the banner prefix: [logLine]
    prints the warning with the line's text and returns neither a record nor
    an error, and the loop of [List] counts the line and goes on with the
    accumulator and the timestamp range as they were. *)
Theorem banner_line_is_warned_and_counted `{Env} :
  (∀ fileName line toks l err,
      json_Unmarshal line = Err err →
      String.prefix skippingLines (string_of_bytes line) = true →
      Baseline.logLine line (Baseline.startupInfo l)
      = ([warning_line line], Return (Baseline.startupInfo l, (None, None)))
      ∧ Baseline.scan fileName (line :: toks) l
        = (Printf "Warning: lines skipped in log file! %s\n"
             [arg_string (string_of_bytes line)];;
           Baseline.scan fileName toks
             {| Baseline.earliest := Baseline.earliest l;
                Baseline.latest := Baseline.latest l;
                Baseline.firstTime := Baseline.firstTime l;
                Baseline.startupInfo := Baseline.startupInfo l;
                Baseline.lineCount := wrap64 (Baseline.lineCount l + 1) |}))
  ∧ (∀ fileName line toks l err,
      json_Unmarshal line = Err err →
      String.prefix skippingLines (string_of_bytes line) = true →
      Extended.logLine line (Extended.startupInfo l)
      = ([warning_line line], Return (Extended.startupInfo l, (None, None)))
      ∧ Extended.scan fileName (line :: toks) l
        = (Printf "Warning: lines skipped in log file! %s\n"
             [arg_string (string_of_bytes line)];;
           Extended.scan fileName toks
             {| Extended.earliest := Extended.earliest l;
                Extended.latest := Extended.latest l;
                Extended.firstTime := Extended.firstTime l;
                Extended.startupInfo := Extended.startupInfo l;
                Extended.lineCount := wrap64 (Extended.lineCount l + 1) |})).
Proof.
  split; intros fileName line toks l err Hj Hp.
  - assert (Baseline.logLine line (Baseline.startupInfo l)
            = ([warning_line line],
               Return (Baseline.startupInfo l, (None, None)))) as Hrun
      by (unfold Baseline.logLine; by rewrite Hj, Hp).
    split; [done|]. simpl. rewrite Hrun. go_unfold. simpl.
    by destruct (Baseline.scan _ _ _) as [? []].
  - assert (Extended.logLine line (Extended.startupInfo l)
            = ([warning_line line],
               Return (Extended.startupInfo l, (None, None)))) as Hrun
      by (unfold Extended.logLine; by rewrite Hj, Hp).
    split; [done|]. simpl. rewrite Hrun. go_unfold. simpl.
    by destruct (Extended.scan _ _ _) as [? []].
Qed.

(** The banner of the sample log, as the last line of a file. *)
Lemma banner_line_is_warned_and_counted_witness :
  Extended.logLine (H:=Sample.env) Sample.banner Sample.extended_info
  = ([warning_line Sample.banner],
     Return (Sample.extended_info, (None, None))).
Proof.
  exact (proj1 (proj2 (banner_line_is_warned_and_counted (H:=Sample.env))
                  "mongod.log" Sample.banner []
                  {| Extended.earliest := Sample.time0;
                     Extended.latest := Sample.time4;
                     Extended.firstTime := false;
                     Extended.startupInfo := Sample.extended_info;
                     Extended.lineCount := 5 |}
                  "invalid character 'H' looking for beginning of value"
                  eq_refl eq_refl)).
Defined.

(** X2.  A pass that succeeds reports the number of lines of the file: every
    line the Scanner delivers is counted, decodable or not (for a file of at
    most 2^63 - 1 lines, where the counter does not wrap). *)
Theorem every_line_is_counted `{Env} :
  (∀ fileName perLine out,
      os_Open fileName = Ok perLine →
      Baseline.List fileName = (out, Return None) →
      Z.of_nat (length (tokens perLine)) <= maxInt64 →
      ∃ pre tz rg,
        out = pre ++ [Printf_call "%d lines in log file %s\n"
                        [arg_int (Z.of_nat (length (tokens perLine)));
                         arg_string fileName]; tz; rg])
  ∧ (∀ fileName perLine out,
      os_Open fileName = Ok perLine →
      Extended.List fileName = (out, Return None) →
      Z.of_nat (length (tokens perLine)) <= maxInt64 →
      ∃ pre tz rg,
        out = pre ++ [Printf_call "%d lines in log file %s\n"
                        [arg_int (Z.of_nat (length (tokens perLine)));
                         arg_string fileName]; tz; rg]).
Proof.
  split; intros fileName perLine out Hopen Hrun Hlen.
  - unfold Baseline.List in Hrun. rewrite Hopen in Hrun. go_unfold.
    destruct (Baseline.scan _ _ _) as [pre [[l r]|p]] eqn:Hscan; [|done].
    pose proof (Baseline_scan_range _ _ _ _ _ _ Hscan) as [-> _].
    apply Baseline_scan_lineCount in Hscan; [|done..].
    destruct (scan_err perLine); simpl in *; [done|].
    injection Hrun as <-. rewrite Hscan. eauto.
  - unfold Extended.List in Hrun. rewrite Hopen in Hrun. go_unfold.
    destruct (Extended.scan _ _ _) as [pre [[l r]|p]] eqn:Hscan; [|done].
    pose proof (Extended_scan_range _ _ _ _ _ _ Hscan) as [-> _].
    apply Extended_scan_lineCount in Hscan; [|done..].
    destruct (scan_err perLine); simpl in *; [done|].
    injection Hrun as <-. rewrite Hscan. eauto.
Qed.

(** The sample log: five records and the banner make six lines. *)
Lemma every_line_is_counted_witness :
  ∃ pre tz rg,
    (Extended.List (H:=Sample.env) "mongod.log").1
    = pre ++ [Printf_call "%d lines in log file %s\n"
                [arg_int 6; arg_string "mongod.log"]; tz; rg].
Proof.
  apply (proj2 (every_line_is_counted (H:=Sample.env)) "mongod.log"
           {| tokens := Sample.startup_log; scan_err := None |}
           (Extended.List (H:=Sample.env) "mongod.log").1).
  - reflexivity.
  - by vm_compute.
  - by vm_compute.
Defined.

(** X3.  The summary is printed only by a pass that succeeds, and then once,
    as its last three lines.  When the file cannot be opened [List] prints
    nothing and returns the opening error; when the Scanner stops with an
    error [List] returns the reading error after the loop, and what the loop
    printed holds no line of the summary. *)
Theorem summary_only_on_success `{Env} :
  (∀ fileName err,
      os_Open fileName = Err err →
      Baseline.List fileName
      = ([], Return (Some ("error opening log file '" +:+ fileName +:+ "': "
                           +:+ err))))
  ∧ (∀ fileName perLine err out r,
      os_Open fileName = Ok perLine →
      scan_err perLine = Some err →
      Baseline.List fileName = (out, Return r) →
      r = Some ("error reading log file '" +:+ fileName +:+ "': " +:+ err)
      ∧ Forall (λ p, format p ∉ summary_formats) out)
  ∧ (∀ fileName out,
      Baseline.List fileName = (out, Return None) →
      ∃ pre a b c,
        out = pre ++ [a; b; c]
        ∧ format <$> [a; b; c] = summary_formats
        ∧ Forall (λ p, format p ∉ summary_formats) pre)
  ∧ (∀ fileName err,
      os_Open fileName = Err err →
      Extended.List fileName
      = ([], Return (Some ("error opening log file '" +:+ fileName +:+ "': "
                           +:+ err))))
  ∧ (∀ fileName perLine err out r,
      os_Open fileName = Ok perLine →
      scan_err perLine = Some err →
      Extended.List fileName = (out, Return r) →
      r = Some ("error reading log file '" +:+ fileName +:+ "': " +:+ err)
      ∧ Forall (λ p, format p ∉ summary_formats) out)
  ∧ (∀ fileName out,
      Extended.List fileName = (out, Return None) →
      ∃ pre a b c,
        out = pre ++ [a; b; c]
        ∧ format <$> [a; b; c] = summary_formats
        ∧ Forall (λ p, format p ∉ summary_formats) pre).
Proof.
  split_and!.
  - intros fileName err Hopen. unfold Baseline.List. by rewrite Hopen.
  - intros fileName perLine err out r Hopen Herr.
    unfold Baseline.List. rewrite Hopen, Herr. go_unfold.
    destruct (Baseline.scan _ _ _) as [pre [[l r']|p]] eqn:Hscan; [|done].
    pose proof (Baseline_scan_range _ _ _ _ _ _ Hscan) as [-> _].
    apply Baseline_scan_reports in Hscan as (_ & _ & Hf); [|done].
    simpl. intros [= <- <-]. by rewrite app_nil_r.
  - intros fileName out. unfold Baseline.List.
    destruct (os_Open fileName) as [perLine|err]; [|done]. go_unfold.
    destruct (Baseline.scan _ _ _) as [pre [[l r']|p]] eqn:Hscan; [|done].
    pose proof (Baseline_scan_range _ _ _ _ _ _ Hscan) as [-> _].
    apply Baseline_scan_reports in Hscan as (_ & _ & Hf); [|done].
    destruct (scan_err perLine); simpl; [done|].
    intros [= <-]. eauto 10.
  - intros fileName err Hopen. unfold Extended.List. by rewrite Hopen.
  - intros fileName perLine err out r Hopen Herr.
    unfold Extended.List. rewrite Hopen, Herr. go_unfold.
    destruct (Extended.scan _ _ _) as [pre [[l r']|p]] eqn:Hscan; [|done].
    pose proof (Extended_scan_range _ _ _ _ _ _ Hscan) as [-> _].
    apply Extended_scan_reports in Hscan as (_ & _ & Hf); [|done].
    simpl. intros [= <- <-]. by rewrite app_nil_r.
  - intros fileName out. unfold Extended.List.
    destruct (os_Open fileName) as [perLine|err]; [|done]. go_unfold.
    destruct (Extended.scan _ _ _) as [pre [[l r']|p]] eqn:Hscan; [|done].
    pose proof (Extended_scan_range _ _ _ _ _ _ Hscan) as [-> _].
    apply Extended_scan_reports in Hscan as (_ & _ & Hf); [|done].
    destruct (scan_err perLine); simpl; [done|].
    intros [= <-]. eauto 10.
Qed.

(** The sample log torn after its startup sequence: the report is printed,
    the reading error is returned, and there is no summary. *)
Lemma summary_only_on_success_witness :
  (Extended.List (H:=torn_env) "mongod.log").2
  = Return (Some ("error reading log file 'mongod.log': "
                  +:+ "bufio.Scanner: token too long"))
  ∧ Forall (λ p, format p ∉ summary_formats)
      (Extended.List (H:=torn_env) "mongod.log").1
  ∧ reports (Extended.List (H:=torn_env) "mongod.log").1 = 1%nat.
Proof.
  destruct (proj1 (proj2 (proj2 (proj2 (proj2
              (summary_only_on_success (H:=torn_env))))))
              "mongod.log"
              {| tokens := take 5 Sample.startup_log;
                 scan_err := Some "bufio.Scanner: token too long" |}
              "bufio.Scanner: token too long"
              (Extended.List (H:=torn_env) "mongod.log").1
              (Some ("error reading log file 'mongod.log': "
                     +:+ "bufio.Scanner: token too long"))
              eq_refl eq_refl) as [_ Hf].
  - by vm_compute.
  - split_and!; [by vm_compute|exact Hf|by vm_compute].
Defined.

(** X4.  A pass prints exactly one report for every line that sets
    [complete] (an [Options set by command line] record of a component the
    variant reads, with an [options] object holding a string [config]),
    whether the pass ends in success or in a reading error. *)
Theorem one_report_per_options_record `{Env} :
  (∀ fileName perLine out r,
      os_Open fileName = Ok perLine →
      Baseline.List fileName = (out, Return r) →
      reports out
      = length (filter (λ line, Baseline_sets_complete line = true)
                  (tokens perLine)))
  ∧ (∀ fileName perLine out r,
      os_Open fileName = Ok perLine →
      Extended.List fileName = (out, Return r) →
      reports out
      = length (filter (λ line, Extended_sets_complete line = true)
                  (tokens perLine))).
Proof.
  split; intros fileName perLine out r Hopen.
  - unfold Baseline.List. rewrite Hopen. go_unfold.
    destruct (Baseline.scan _ _ _) as [pre [[l r']|p]] eqn:Hscan; [|done].
    pose proof (Baseline_scan_range _ _ _ _ _ _ Hscan) as [-> _].
    apply Baseline_scan_reports in Hscan as (_ & <- & _); [|done].
    destruct (scan_err perLine); simpl; intros [= <- _];
      by rewrite reports_app, Nat.add_0_r.
  - unfold Extended.List. rewrite Hopen. go_unfold.
    destruct (Extended.scan _ _ _) as [pre [[l r']|p]] eqn:Hscan; [|done].
    pose proof (Extended_scan_range _ _ _ _ _ _ Hscan) as [-> _].
    apply Extended_scan_reports in Hscan as (_ & <- & _); [|done].
    destruct (scan_err perLine); simpl; intros [= <- _];
      by rewrite reports_app, Nat.add_0_r.
Qed.

(** The sample log holds one such line, and the pass prints one report. *)
Lemma one_report_per_options_record_witness :
  reports (Extended.List (H:=Sample.env) "mongod.log").1 = 1%nat
  ∧ filter (λ line, Extended_sets_complete (H:=Sample.env) line = true)
      Sample.startup_log
    = [Sample.line_of Sample.options].
Proof.
  split; [|by vm_compute].
  rewrite (proj2 (one_report_per_options_record (H:=Sample.env))
             "mongod.log" {| tokens := Sample.startup_log; scan_err := None |}
             (Extended.List (H:=Sample.env) "mongod.log").1 None eq_refl).
  - by vm_compute.
  - by vm_compute.
Defined.

(** X5.  In the extended variant, from any point of the loop of [List] at
    which [replsetConfig] is set, no later line and no report clears it, and
    every report printed from then on shows a member state: a report of a
    later start or log rotation carries the replica set data recorded
    before. *)
Theorem replica_set_data_is_never_cleared `{Env}
    (fileName : string) (toks : list bytes) (l l' : Extended.locals)
    (out : list print) (r : option error) :
  Extended.replsetConfig (Extended.startupInfo l) ≠ None →
  Extended.scan fileName toks l = (out, Return (l', r)) →
  Extended.replsetConfig (Extended.startupInfo l') ≠ None
  ∧ member_lines out = reports out.
Proof. apply Extended_scan_keeps_replsetConfig. Qed.

(** A log rotation after the startup of the sample log: its report shows the
    member state recorded at the startup. *)
Lemma replica_set_data_is_never_cleared_witness :
  member_lines
    (Extended.scan (H:=Sample.env) "mongod.log" rotation_lines
       rotation_start).1
  = reports
      (Extended.scan (H:=Sample.env) "mongod.log" rotation_lines
         rotation_start).1
  ∧ reports
      (Extended.scan (H:=Sample.env) "mongod.log" rotation_lines
         rotation_start).1 = 1%nat.
Proof.
  assert (∃ l',
    Extended.scan (H:=Sample.env) "mongod.log" rotation_lines rotation_start
    = ((Extended.scan (H:=Sample.env) "mongod.log" rotation_lines
          rotation_start).1, Return (l', None))) as [l' Hrun]
    by (vm_compute; eauto).
  split; [|by vm_compute].
  apply (replica_set_data_is_never_cleared (H:=Sample.env) "mongod.log"
           rotation_lines rotation_start l' _ None); [by vm_compute|].
  exact Hrun.
Defined.

(** X6.  Each message writes its own fields of the accumulator and no
    other: [dbPath] is written by [MongoDB starting] alone; [isStartup],
    [timeStamp], [processID], [port] and [hostName] by [MongoDB starting]
    and [Process Details]; [version] and [distro] by [Build Info]; [os] and
    [osVersion] by [Operating System]; [memberState] and [replsetConfig] by
    [Node is a member of a replica set]; [replsetConfigYAML] by that message
    and [New replica set config in use]; [configFile], [options],
    [configYAML] and [complete] by [Options set by command line].  A line
    that does not unmarshal leaves the accumulator as it was. *)
Theorem each_message_writes_its_own_fields `{Env} :
  (∀ line info out info' r,
      Baseline.logLine line info = (out, Return (info', r)) →
      match json_Unmarshal line with
      | Err _ => info' = info
      | Ok lineObj =>
          (logJSONT.MSG lineObj ≠ "MongoDB starting" →
           Baseline.isStartup info' = Baseline.isStartup info
           ∧ Baseline.timeStamp info' = Baseline.timeStamp info
           ∧ Baseline.processID info' = Baseline.processID info
           ∧ Baseline.port info' = Baseline.port info
           ∧ Baseline.hostName info' = Baseline.hostName info
           ∧ Baseline.dbPath info' = Baseline.dbPath info)
          ∧ (logJSONT.MSG lineObj ≠ "Build Info" →
             Baseline.version info' = Baseline.version info
             ∧ Baseline.distro info' = Baseline.distro info)
          ∧ (logJSONT.MSG lineObj ≠ "Operating System" →
             Baseline.os info' = Baseline.os info
             ∧ Baseline.osVersion info' = Baseline.osVersion info)
          ∧ (logJSONT.MSG lineObj ≠ "Options set by command line" →
             Baseline.configFile info' = Baseline.configFile info
             ∧ Baseline.options info' = Baseline.options info
             ∧ Baseline.configYAML info' = Baseline.configYAML info
             ∧ Baseline.complete info' = Baseline.complete info)
      end)
  ∧ (∀ line info out info' r,
      Extended.logLine line info = (out, Return (info', r)) →
      match json_Unmarshal line with
      | Err _ => info' = info
      | Ok lineObj =>
          (logJSONT.MSG lineObj ≠ "MongoDB starting" →
           Extended.dbPath info' = Extended.dbPath info)
          ∧ (logJSONT.MSG lineObj ≠ "MongoDB starting" →
             logJSONT.MSG lineObj ≠ "Process Details" →
             Extended.isStartup info' = Extended.isStartup info
             ∧ Extended.timeStamp info' = Extended.timeStamp info
             ∧ Extended.processID info' = Extended.processID info
             ∧ Extended.port info' = Extended.port info
             ∧ Extended.hostName info' = Extended.hostName info)
          ∧ (logJSONT.MSG lineObj ≠ "Build Info" →
             Extended.version info' = Extended.version info
             ∧ Extended.distro info' = Extended.distro info)
          ∧ (logJSONT.MSG lineObj ≠ "Operating System" →
             Extended.os info' = Extended.os info
             ∧ Extended.osVersion info' = Extended.osVersion info)
          ∧ (logJSONT.MSG lineObj ≠ "Node is a member of a replica set" →
             Extended.memberState info' = Extended.memberState info
             ∧ Extended.replsetConfig info' = Extended.replsetConfig info)
          ∧ (logJSONT.MSG lineObj ≠ "Node is a member of a replica set" →
             logJSONT.MSG lineObj ≠ "New replica set config in use" →
             Extended.replsetConfigYAML info'
             = Extended.replsetConfigYAML info)
          ∧ (logJSONT.MSG lineObj ≠ "Options set by command line" →
             Extended.configFile info' = Extended.configFile info
             ∧ Extended.options info' = Extended.options info
             ∧ Extended.configYAML info' = Extended.configYAML info
             ∧ Extended.complete info' = Extended.complete info)
      end).
Proof.
  split; intros line info out info' r.
  - unfold Baseline.logLine.
    destruct (json_Unmarshal line) as [lineObj|e];
      [|case_match; go_unfold; intros; by simplify_eq/=].
    destruct (time_Parse _ _) as [ts|e];
      [|go_unfold; intros; by simplify_eq/=].
    destruct (not_nil _ && _); [|go_unfold; intros; by simplify_eq/=].
    destruct (logJSONT.Attr lineObj); try done.
    intros; logLine_cases;
      repeat match goal with
             | Heq : String.eqb _ _ = true |- _ => apply String.eqb_eq in Heq
             end;
      split_and!; intros; done.
  - unfold Extended.logLine.
    destruct (json_Unmarshal line) as [lineObj|e];
      [|case_match; go_unfold; intros; by simplify_eq/=].
    destruct (time_Parse _ _) as [ts|e];
      [|go_unfold; intros; by simplify_eq/=].
    destruct (not_nil _ && _); [|go_unfold; intros; by simplify_eq/=].
    destruct (logJSONT.Attr lineObj); try done.
    intros; logLine_cases;
      repeat match goal with
             | Heq : String.eqb _ _ = true |- _ => apply String.eqb_eq in Heq
             end;
      split_and!; intros; done.
Qed.

(** The sample's [Build Info] line on the accumulator the startup left: the
    fields of the other messages stay. *)
Lemma each_message_writes_its_own_fields_witness :
  ∃ info',
    Extended.logLine (H:=Sample.env) (Sample.line_of Sample.build)
      Sample.extended_info
    = ([], Return (info', (Some {| logT.timeStamp := Sample.time1 |}, None)))
    ∧ Extended.dbPath info' = "/data/db"
    ∧ Extended.hostName info' = "h1"
    ∧ Extended.os info' = "Linux"
    ∧ Extended.replsetConfig info' = Some Sample.rs0
    ∧ Extended.complete info' = true.
Proof.
  assert (∃ info',
    Extended.logLine (H:=Sample.env) (Sample.line_of Sample.build)
      Sample.extended_info
    = ([], Return (info', (Some {| logT.timeStamp := Sample.time1 |}, None))))
    as [info' Hrun] by (vm_compute; eauto).
  exists info'. split; [exact Hrun|].
  pose proof (proj2 (each_message_writes_its_own_fields (H:=Sample.env))
                _ _ _ _ _ Hrun) as Hframe.
  change (json_Unmarshal (Sample.line_of Sample.build))
    with (Sample.Unmarshal (Sample.line_of Sample.build)) in Hframe.
  replace (Sample.Unmarshal (Sample.line_of Sample.build))
    with (Ok (Sample.record_of Sample.build)) in Hframe by by vm_compute.
  destruct Hframe as (Hdb & Hstart & _ & Hos & Hrs & _ & Hopt).
  rewrite (Hdb ltac:(done)).
  destruct (Hstart ltac:(done) ltac:(done)) as (_ & _ & _ & _ & ->).
  destruct (Hos ltac:(done)) as [-> _].
  destruct (Hrs ltac:(done)) as [_ ->].
  destruct (Hopt ltac:(done)) as (_ & _ & _ & ->).
  done.
Defined.

(** X7.  A record the variant has nothing to read from (no attribute bag,
    a component the variant does not read, or an attribute bag that is an
    object under a message the variant does not recognize) is returned with
    its timestamp and without an error, prints nothing and leaves the
    accumulator as it was. *)
Theorem uninteresting_record_is_returned_untouched `{Env} :
  (∀ line lineObj ts info,
      decodes line lineObj ts →
      logJSONT.Attr lineObj = any_nil
      ∨ ¬ Baseline_component (logJSONT.C lineObj)
      ∨ (∃ m, logJSONT.Attr lineObj = any_map m)
        ∧ logJSONT.MSG lineObj ∉ Baseline_messages →
      Baseline.logLine line info
      = ([], Return (info, (Some {| logT.timeStamp := ts |}, None))))
  ∧ (∀ line lineObj ts info,
      decodes line lineObj ts →
      logJSONT.Attr lineObj = any_nil
      ∨ ¬ Extended_component (logJSONT.C lineObj)
      ∨ (∃ m, logJSONT.Attr lineObj = any_map m)
        ∧ logJSONT.MSG lineObj ∉ Extended_messages →
      Extended.logLine line info
      = ([], Return (info, (Some {| logT.timeStamp := ts |}, None)))).
Proof.
  split; intros line lineObj ts info [Hj Ht] Hcase.
  - unfold Baseline.logLine. rewrite Hj, Ht.
    destruct Hcase as [->|[Hc|[[m ->] Hmsg]]]; [done| |].
    + destruct (String.eqb _ _) eqn:E;
        [by apply component_Baseline in E|]. by rewrite andb_false_r.
    + destruct (_ && _); [|done]. simpl. go_unfold.
      assert (∀ s, s ∈ Baseline_messages →
                   String.eqb (logJSONT.MSG lineObj) s = false) as Hne
        by (intros s Hs; apply String.eqb_neq; intros Heq; apply Hmsg;
            by rewrite Heq).
      unfold Baseline_messages in Hne.
      by rewrite !Hne by set_solver.
  - unfold Extended.logLine. rewrite Hj, Ht.
    destruct Hcase as [->|[Hc|[[m ->] Hmsg]]]; [done| |].
    + destruct (_ || _) eqn:E;
        [by apply component_Extended in E|]. by rewrite andb_false_r.
    + destruct (_ && _); [|done]. simpl. go_unfold.
      assert (∀ s, s ∈ Extended_messages →
                   String.eqb (logJSONT.MSG lineObj) s = false) as Hne
        by (intros s Hs; apply String.eqb_neq; intros Heq; apply Hmsg;
            by rewrite Heq).
      unfold Extended_messages in Hne.
      by rewrite !Hne by set_solver.
Qed.

(** The sample's [Connection accepted] record, of the component [NETWORK]. *)
Lemma uninteresting_record_is_returned_untouched_witness :
  Extended.logLine (H:=Sample.env)
    (Sample.line_of (Sample.accepted Sample.date1)) Sample.extended_info
  = ([], Return (Sample.extended_info,
                 (Some {| logT.timeStamp := Sample.time1 |}, None))).
Proof.
  apply (proj2 (uninteresting_record_is_returned_untouched (H:=Sample.env))
           (Sample.line_of (Sample.accepted Sample.date1))
           (Sample.record_of (Sample.accepted Sample.date1))).
  - by vm_compute.
  - right. left. intros [Hc|Hc]; by vm_compute in Hc.
Defined.

(** X8.  A record of a component the variant reads whose attribute bag is
    present and is not a JSON object (a string, a number, a list) makes
    [logLine] panic whatever its message is, recognized or not: the type
    assertion on the attribute bag comes before the switch on the message. *)
Theorem attribute_bag_that_is_no_object_panics `{Env} :
  (∀ line lineObj ts info,
      decodes line lineObj ts →
      Baseline_component (logJSONT.C lineObj) →
      logJSONT.Attr lineObj ≠ any_nil →
      (∀ m, logJSONT.Attr lineObj ≠ any_map m) →
      Baseline.logLine line info
      = ([], Panic (interface_conversion (logJSONT.Attr lineObj)
                      "map[string]interface {}")))
  ∧ (∀ line lineObj ts info,
      decodes line lineObj ts →
      Extended_component (logJSONT.C lineObj) →
      logJSONT.Attr lineObj ≠ any_nil →
      (∀ m, logJSONT.Attr lineObj ≠ any_map m) →
      Extended.logLine line info
      = ([], Panic (interface_conversion (logJSONT.Attr lineObj)
                      "map[string]interface {}"))).
Proof.
  split; intros line lineObj ts info [Hj Ht] Hc Hnil Hmap.
  - unfold Baseline.logLine. apply component_Baseline in Hc.
    rewrite Hj, Ht, Hc.
    destruct (logJSONT.Attr lineObj) as [| | | | |m]; try done.
    by destruct (Hmap m).
  - unfold Extended.logLine. apply component_Extended in Hc.
    rewrite Hj, Ht, Hc.
    destruct (logJSONT.Attr lineObj) as [| | | | |m]; try done.
    by destruct (Hmap m).
Qed.

(** A [CONTROL] record with the attribute bag ["text"], under a message no
    variant recognizes. *)
Lemma attribute_bag_that_is_no_object_panics_witness :
  Baseline.logLine (H:=text_attr_env) text_attr_line Baseline.startupInfo_zero
  = ([], Panic (interface_conversion (any_string "text")
                  "map[string]interface {}")).
Proof.
  apply (proj1 (attribute_bag_that_is_no_object_panics (H:=text_attr_env))
           text_attr_line
           (Sample.record Sample.date0 "CONTROL" 20698
              "***** SERVER RESTARTED *****" (any_string "text"))
           Sample.time0).
  - by vm_compute.
  - reflexivity.
  - done.
  - done.
Defined.

(** X10.  Whether [logLine] returns a record, an error or panics, and
    whether it sets [complete], does not depend on [yaml.Marshal]: between
    two environments that unmarshal and parse alike, the returned pair, the
    panic and the flag are the same, so a document that cannot be rendered
    never fails a line and never holds back a report. *)
Theorem rendering_never_decides_the_outcome (E1 E2 : Env) :
  (∀ data, json_Unmarshal (Env:=E1) data = json_Unmarshal (Env:=E2) data) →
  (∀ layout value,
      time_Parse (Env:=E1) layout value = time_Parse (Env:=E2) layout value) →
  (∀ line info,
      outcome_map (λ x, (Baseline.complete x.1, x.2))
        (Baseline.logLine (H:=E1) line info).2
      = outcome_map (λ x, (Baseline.complete x.1, x.2))
          (Baseline.logLine (H:=E2) line info).2)
  ∧ (∀ line info,
      outcome_map (λ x, (Extended.complete x.1, x.2))
        (Extended.logLine (H:=E1) line info).2
      = outcome_map (λ x, (Extended.complete x.1, x.2))
          (Extended.logLine (H:=E2) line info).2).
Proof.
  intros Hj Ht. split; intros line info.
  - unfold Baseline.logLine. rewrite Hj.
    destruct (json_Unmarshal line) as [lineObj|e]; [|by case_match].
    rewrite Ht. destruct (time_Parse _ _) as [ts|e]; [|done].
    destruct (_ && _); [|done].
    destruct (logJSONT.Attr lineObj); try done.
    logLine_cases.
  - unfold Extended.logLine. rewrite Hj.
    destruct (json_Unmarshal line) as [lineObj|e]; [|by case_match].
    rewrite Ht. destruct (time_Parse _ _) as [ts|e]; [|done].
    destruct (_ && _); [|done].
    destruct (logJSONT.Attr lineObj); try done.
    logLine_cases.
Qed.

(** The sample's options record, rendered and not: [complete] is set and the
    record returned either way. *)
Lemma rendering_never_decides_the_outcome_witness :
  outcome_map (λ x, (Extended.complete x.1, x.2))
    (Extended.logLine (H:=unrendered_env) (Sample.line_of Sample.options)
       Extended.startupInfo_zero).2
  = Return (true, (Some {| logT.timeStamp := Sample.time4 |}, None)).
Proof.
  rewrite <- (proj2 (rendering_never_decides_the_outcome Sample.env
                       unrendered_env (λ _, eq_refl) (λ _ _, eq_refl))).
  by vm_compute.
Defined.

(** X9.  The startup sequence of the baseline variant: [MongoDB starting],
    [Build Info] and [Operating System] records in any order, then an
    [Options set by command line] record, all well shaped, make the loop of
    [List] print exactly one report, after the last of them, that shows the
    host, port, dbPath, pid and timestamp of the first record, the version
    and platform, the system and its version, and the rendered options; the
    accumulator keeps all of them, with [complete] and [isStartup] reset. *)
Theorem startup_sequence_is_reported_once `{Env}
    (fileName : string) (l1 l2 l3 l4 : bytes) (perm : list bytes)
    (ts1 ts2 ts3 ts4 : Time) (pid port' : float64)
    (host dbPath' version' distmod name osversion config : string)
    (opts : gmap string any) (l : Baseline.locals) :
  starting_record Baseline_component l1 ts1 pid port' host dbPath' →
  build_record Baseline_component l2 ts2 version' distmod →
  os_record Baseline_component l3 ts3 name osversion →
  options_record Baseline_component l4 ts4 config opts →
  perm ≡ₚ [l1; l2; l3] →
  Baseline.complete (Baseline.startupInfo l) = false →
  ∃ l',
    Baseline.scan fileName (perm ++ [l4]) l
    = ([Printf_call
          "Startup | host: %s | port: %d | dbPath: %s | pid: %d | when: %s UTC\n"
          [arg_string host; arg_int (int_of_float64 port');
           arg_string dbPath'; arg_int (int_of_float64 pid);
           arg_string (Time_Format (Time_UTC ts1) time_ANSIC)];
        Printf_call "Version: %s | Platform: %s | OS: %s | OS Version: %s\n"
          [arg_string version'; arg_string distmod; arg_string name;
           arg_string osversion];
        Printf_call "%s\n" [arg_bytes (rendered opts)]],
       Return (l', None))
    ∧ Baseline.startupInfo l'
      = {| Baseline.isStartup := false; Baseline.complete := false;
           Baseline.timeStamp := ts1;
           Baseline.processID := int_of_float64 pid;
           Baseline.port := int_of_float64 port';
           Baseline.dbPath := dbPath'; Baseline.hostName := host;
           Baseline.version := version'; Baseline.distro := distmod;
           Baseline.os := name; Baseline.osVersion := osversion;
           Baseline.configFile := config; Baseline.options := Some opts;
           Baseline.configYAML := rendered opts |}.
Proof.
  intros H1 H2 H3 H4 Hperm%Permutation_3 Hc.
  repeat (apply elem_of_cons in Hperm as [->|Hperm]);
    [..|by apply elem_of_nil in Hperm];
    destruct (Baseline.firstTime l) eqn:Hfirst;
    simpl; go_unfold;
    repeat (first
      [ rewrite (Baseline_logLine_starting _ _ _ _ _ _ _ H1)
      | rewrite (Baseline_logLine_build _ _ _ _ _ H2)
      | rewrite (Baseline_logLine_os _ _ _ _ _ H3)
      | rewrite (Baseline_logLine_options _ _ _ _ _ H4)
      | rewrite Hc | rewrite Hfirst ]; simpl);
    eexists; (split; [reflexivity|reflexivity]).
Qed.

(** The startup sequence of the sample log with the operating system
    first. *)
Lemma startup_sequence_is_reported_once_witness :
  ∃ l',
    Baseline.scan (H:=Sample.env) "mongod.log"
      (map Sample.line_of
         [Sample.opsys; Sample.starting; Sample.build; Sample.options])
      {| Baseline.earliest := Time_zero; Baseline.latest := Time_zero;
         Baseline.firstTime := true;
         Baseline.startupInfo := Baseline.startupInfo_zero;
         Baseline.lineCount := 0 |}
    = ([Printf_call
          "Startup | host: %s | port: %d | dbPath: %s | pid: %d | when: %s UTC\n"
          [arg_string "h1"; arg_int 27017; arg_string "/data/db";
           arg_int 100; arg_string "Wed Jul 20 19:29:51 2022"];
        Printf_call "Version: %s | Platform: %s | OS: %s | OS Version: %s\n"
          [arg_string "6.0.1"; arg_string "ubuntu2004"; arg_string "Linux";
           arg_string "5.4"];
        Printf_call "%s\n" [arg_bytes Sample.opts_yaml]],
       Return (l', None))
    ∧ Baseline.startupInfo l'
      = Baseline.set_isStartup false
          (Baseline.set_complete false Sample.baseline_info).
Proof.
  apply (startup_sequence_is_reported_once (H:=Sample.env) "mongod.log"
           (Sample.line_of Sample.starting) (Sample.line_of Sample.build)
           (Sample.line_of Sample.opsys) (Sample.line_of Sample.options)
           (map Sample.line_of [Sample.opsys; Sample.starting; Sample.build])
           Sample.time0 Sample.time1 Sample.time2 Sample.time4
           (float64_of_Z 100) (float64_of_Z 27017) "h1" "/data/db"
           "6.0.1" "ubuntu2004" "Linux" "5.4" "/etc/mongod.conf"
           Sample.opts).
  - exists (Sample.record_of Sample.starting),
      (list_to_map
         [("pid", Sample.num 100); ("port", Sample.num 27017);
          ("dbPath", any_string "/data/db");
          ("architecture", any_string "64-bit"); ("host", any_string "h1")]).
    split_and!; by vm_compute.
  - exists (Sample.record_of Sample.build),
      (list_to_map
         [("buildInfo",
           Sample.obj
             [("version", any_string "6.0.1");
              ("environment",
               Sample.obj [("distmod", any_string "ubuntu2004");
                           ("distarch", any_string "x86_64")])])]),
      (list_to_map
         [("version", any_string "6.0.1");
          ("environment",
           Sample.obj [("distmod", any_string "ubuntu2004");
                       ("distarch", any_string "x86_64")])]),
      (list_to_map [("distmod", any_string "ubuntu2004");
                    ("distarch", any_string "x86_64")]).
    split_and!; by vm_compute.
  - exists (Sample.record_of Sample.opsys),
      (list_to_map
         [("os", Sample.obj [("name", any_string "Linux");
                             ("version", any_string "5.4")])]),
      (list_to_map [("name", any_string "Linux");
                    ("version", any_string "5.4")]).
    split_and!; by vm_compute.
  - exists (Sample.record_of Sample.options),
      (list_to_map [("options", any_map Sample.opts)]).
    split_and!; by vm_compute.
  - apply (Permutation_app_comm [_] [_; _]).
  - reflexivity.
Defined.

(** X11.  A log rotation in the extended variant: a [Process Details]
    record and then an [Options set by command line] record, both well
    shaped, make the loop of [List] print one report headed [Log rotation]
    with the host, port and pid of the rotation record.  The pid printed is
    what [strconv.Atoi] makes of the [pid] string: the value of a numeral
    that fits [int64]; the nearest [int64] for a numeral that does not, and
    for a string whose leading digits leave [uint64]; 0 for any other
    string.  [Process Details] carries no dbPath, version or system: the
    report shows those the accumulator held before, and the member state and
    replica set configuration when one was recorded. *)
Theorem rotation_is_reported_with_what_was_held `{Env}
    (fileName : string) (l1 l2 : bytes) (ts1 ts2 : Time)
    (pid host config : string) (port' : float64) (opts : gmap string any)
    (l : Extended.locals) :
  process_record Extended_component l1 ts1 pid port' host →
  options_record Extended_component l2 ts2 config opts →
  Extended.complete (Extended.startupInfo l) = false →
  ∃ l',
    Extended.scan fileName [l1; l2] l
    = ([Printf_call
          "%s | host: %s | port: %d | dbPath: %s | pid: %d | when: %s UTC\n"
          [arg_string "Log rotation"; arg_string host;
           arg_int (int_of_float64 port');
           arg_string (Extended.dbPath (Extended.startupInfo l));
           arg_int (Atoi_reading pid).1;
           arg_string (Time_Format (Time_UTC ts1) time_ANSIC)];
        Printf_call "Version: %s | Platform: %s | OS: %s | OS Version: %s\n"
          [arg_string (Extended.version (Extended.startupInfo l));
           arg_string (Extended.distro (Extended.startupInfo l));
           arg_string (Extended.os (Extended.startupInfo l));
           arg_string (Extended.osVersion (Extended.startupInfo l))];
        Printf_call "%s\n" [arg_bytes (rendered opts)]]
       ++ (if bool_decide
                (Extended.replsetConfig (Extended.startupInfo l) ≠ None)
           then
             [Printf_call "Member state: %s\n"
                [arg_string (Extended.memberState (Extended.startupInfo l))];
              Printf_call "%s\n"
                [arg_bytes
                   (Extended.replsetConfigYAML (Extended.startupInfo l))]]
           else []),
       Return (l', None)).
Proof.
  intros H1 H2 Hc. rewrite <- strconv_Atoi_value.
  destruct (Extended.firstTime l) eqn:Hfirst;
    simpl; go_unfold;
    repeat (first
      [ rewrite (Extended_logLine_process _ _ _ _ _ _ H1)
      | rewrite (Extended_logLine_options _ _ _ _ _ H2)
      | rewrite Hc | rewrite Hfirst ]; simpl);
    unfold Extended.printStartup; simpl; go_unfold;
    case_bool_decide; simpl; eexists; reflexivity.
Qed.

(** The rotation after the startup of the sample log: the report shows the
    dbPath, version and member state of the startup. *)
Lemma rotation_is_reported_with_what_was_held_witness :
  ∃ l',
    Extended.scan (H:=Sample.env) "mongod.log" rotation_lines rotation_start
    = ([Printf_call
          "%s | host: %s | port: %d | dbPath: %s | pid: %d | when: %s UTC\n"
          [arg_string "Log rotation"; arg_string "pd3lon-mdb-07";
           arg_int 27017; arg_string "/data/db"; arg_int 16875;
           arg_string "Wed Jul 20 19:29:51 2022"];
        Printf_call "Version: %s | Platform: %s | OS: %s | OS Version: %s\n"
          [arg_string "6.0.1"; arg_string "ubuntu2004"; arg_string "Linux";
           arg_string "5.4"];
        Printf_call "%s\n" [arg_bytes Sample.opts_yaml];
        Printf_call "Member state: %s\n" [arg_string "PRIMARY"];
        Printf_call "%s\n" [arg_bytes Sample.rs0_yaml]],
       Return (l', None)).
Proof.
  apply (rotation_is_reported_with_what_was_held (H:=Sample.env)
           "mongod.log" (Sample.line_of (Sample.process "16875"))
           (Sample.line_of Sample.options) Sample.time0 Sample.time4
           "16875" "pd3lon-mdb-07" "/etc/mongod.conf" (float64_of_Z 27017)
           Sample.opts rotation_start).
  - exists (Sample.record_of (Sample.process "16875")),
      (list_to_map
         [("pid", any_string "16875"); ("port", Sample.num 27017);
          ("architecture", any_string "64-bit");
          ("host", any_string "pd3lon-mdb-07")]).
    split_and!; first [by vm_compute | by left].
  - exists (Sample.record_of Sample.options),
      (list_to_map [("options", any_map Sample.opts)]).
    split_and!; first [by vm_compute | by left].
  - reflexivity.
Defined.

(** X15.  The startup sequence of the extended variant: [MongoDB starting],
    [Build Info] and [Operating System] records in any order, then a [Node is
    a member of a replica set] record and an [Options set by command line]
    record, all well shaped, make the loop of [List] print exactly one
    report, headed [Start up], with the fields of the five records: after
    the options it shows the member state and the rendered replica set
    configuration. *)
Theorem startup_with_replica_set_is_reported_once `{Env}
    (fileName : string) (l1 l2 l3 l4 l5 : bytes) (perm : list bytes)
    (ts1 ts2 ts3 ts4 ts5 : Time) (pid port' : float64)
    (host dbPath' version' distmod name osversion memberState' config
       : string)
    (rsconfig opts : gmap string any) (l : Extended.locals) :
  starting_record Extended_component l1 ts1 pid port' host dbPath' →
  build_record Extended_component l2 ts2 version' distmod →
  os_record Extended_component l3 ts3 name osversion →
  member_record Extended_component l4 ts4 memberState' rsconfig →
  options_record Extended_component l5 ts5 config opts →
  perm ≡ₚ [l1; l2; l3] →
  Extended.complete (Extended.startupInfo l) = false →
  ∃ l',
    Extended.scan fileName (perm ++ [l4; l5]) l
    = ([Printf_call
          "%s | host: %s | port: %d | dbPath: %s | pid: %d | when: %s UTC\n"
          [arg_string "Start up"; arg_string host;
           arg_int (int_of_float64 port'); arg_string dbPath';
           arg_int (int_of_float64 pid);
           arg_string (Time_Format (Time_UTC ts1) time_ANSIC)];
        Printf_call "Version: %s | Platform: %s | OS: %s | OS Version: %s\n"
          [arg_string version'; arg_string distmod; arg_string name;
           arg_string osversion];
        Printf_call "%s\n" [arg_bytes (rendered opts)];
        Printf_call "Member state: %s\n" [arg_string memberState'];
        Printf_call "%s\n" [arg_bytes (rendered rsconfig)]],
       Return (l', None))
    ∧ Extended.startupInfo l'
      = {| Extended.isStartup := false; Extended.complete := false;
           Extended.timeStamp := ts1;
           Extended.processID := int_of_float64 pid;
           Extended.port := int_of_float64 port';
           Extended.dbPath := dbPath'; Extended.hostName := host;
           Extended.version := version'; Extended.distro := distmod;
           Extended.os := name; Extended.osVersion := osversion;
           Extended.configFile := config; Extended.options := Some opts;
           Extended.configYAML := rendered opts;
           Extended.memberState := memberState';
           Extended.replsetConfig := Some rsconfig;
           Extended.replsetConfigYAML := rendered rsconfig |}.
Proof.
  intros H1 H2 H3 H4 H5 Hperm%Permutation_3 Hc.
  repeat (apply elem_of_cons in Hperm as [->|Hperm]);
    [..|by apply elem_of_nil in Hperm];
    simpl app;
    repeat (erewrite Extended_scan_quiet;
            [|first [ by apply Extended_logLine_starting
                    | by apply Extended_logLine_build
                    | by apply Extended_logLine_os
                    | by apply Extended_logLine_member ]
             |exact Hc]);
    (erewrite Extended_scan_last;
     [|by apply Extended_logLine_options|reflexivity
      |unfold Extended.printStartup; simpl; go_unfold;
       first [reflexivity|case_bool_decide; [reflexivity|done]]]);
    eexists; (split; [reflexivity|reflexivity]).
Qed.

(** The five records of the sample log, as the file has them. *)
Lemma startup_with_replica_set_is_reported_once_witness :
  ∃ l',
    Extended.scan (H:=Sample.env) "mongod.log" (take 5 Sample.startup_log)
      {| Extended.earliest := Time_zero; Extended.latest := Time_zero;
         Extended.firstTime := true;
         Extended.startupInfo := Extended.startupInfo_zero;
         Extended.lineCount := 0 |}
    = ([Printf_call
          "%s | host: %s | port: %d | dbPath: %s | pid: %d | when: %s UTC\n"
          [arg_string "Start up"; arg_string "h1"; arg_int 27017;
           arg_string "/data/db"; arg_int 100;
           arg_string "Wed Jul 20 19:29:51 2022"];
        Printf_call "Version: %s | Platform: %s | OS: %s | OS Version: %s\n"
          [arg_string "6.0.1"; arg_string "ubuntu2004"; arg_string "Linux";
           arg_string "5.4"];
        Printf_call "%s\n" [arg_bytes Sample.opts_yaml];
        Printf_call "Member state: %s\n" [arg_string "PRIMARY"];
        Printf_call "%s\n" [arg_bytes Sample.rs0_yaml]],
       Return (l', None))
    ∧ Extended.startupInfo l'
      = Extended.set_isStartup false
          (Extended.set_complete false Sample.extended_info).
Proof.
  apply (startup_with_replica_set_is_reported_once (H:=Sample.env)
           "mongod.log"
           (Sample.line_of Sample.starting) (Sample.line_of Sample.build)
           (Sample.line_of Sample.opsys) (Sample.line_of Sample.member)
           (Sample.line_of Sample.options)
           (map Sample.line_of [Sample.starting; Sample.build; Sample.opsys])
           Sample.time0 Sample.time1 Sample.time2 Sample.time3 Sample.time4
           (float64_of_Z 100) (float64_of_Z 27017) "h1" "/data/db"
           "6.0.1" "ubuntu2004" "Linux" "5.4" "PRIMARY" "/etc/mongod.conf"
           Sample.rs0 Sample.opts).
  - exists (Sample.record_of Sample.starting),
      (list_to_map
         [("pid", Sample.num 100); ("port", Sample.num 27017);
          ("dbPath", any_string "/data/db");
          ("architecture", any_string "64-bit"); ("host", any_string "h1")]).
    split_and!; first [by vm_compute | by left].
  - exists (Sample.record_of Sample.build),
      (list_to_map
         [("buildInfo",
           Sample.obj
             [("version", any_string "6.0.1");
              ("environment",
               Sample.obj [("distmod", any_string "ubuntu2004");
                           ("distarch", any_string "x86_64")])])]),
      (list_to_map
         [("version", any_string "6.0.1");
          ("environment",
           Sample.obj [("distmod", any_string "ubuntu2004");
                       ("distarch", any_string "x86_64")])]),
      (list_to_map [("distmod", any_string "ubuntu2004");
                    ("distarch", any_string "x86_64")]).
    split_and!; first [by vm_compute | by left].
  - exists (Sample.record_of Sample.opsys),
      (list_to_map
         [("os", Sample.obj [("name", any_string "Linux");
                             ("version", any_string "5.4")])]),
      (list_to_map [("name", any_string "Linux");
                    ("version", any_string "5.4")]).
    split_and!; first [by vm_compute | by left].
  - exists (Sample.record_of Sample.member),
      (list_to_map [("config", any_map Sample.rs0);
                    ("memberState", any_string "PRIMARY")]).
    split_and!; first [by vm_compute | by right].
  - exists (Sample.record_of Sample.options),
      (list_to_map [("options", any_map Sample.opts)]).
    split_and!; first [by vm_compute | by left].
  - reflexivity.
  - reflexivity.
Defined.

(** X12.  The copy of [main] that takes several files, called with the
    subcommand [info] and at least one file.  When every pass returns,
    [main] prints for every file, in the order given, the start marker, what
    [info.List] prints, the error if [info.List] returns one, and the end
    marker, and then returns: an error returned for one file neither stops
    the files after it nor changes the way [main] ends.  When a pass
    panics, [main] panics with it after the blocks of the files before, the
    start marker of that file and what the pass printed: no end marker is
    printed and the files after it are not listed. *)
Theorem every_file_is_listed `{CommandLine}
    (subflags args : list string) :
  genericVersion = false →
  flag_Args = "info" :: subflags →
  infoCmd_Parse subflags = inr args →
  args ≠ [] →
  (Forall (λ logFile, ∃ err, (info_List logFile).2 = Return err) args →
   Files.main
   = (flat_map file_block args,
      Return {| usage := false; ended := returns |}))
  ∧ (∀ pre logFile post out p,
       args = pre ++ logFile :: post →
       Forall (λ logFile, ∃ err, (info_List logFile).2 = Return err) pre →
       info_List logFile = (out, Panic p) →
       Files.main
       = (flat_map file_block pre
          ++ Printf_call "\n--------START LOG FILE: %s-----------\n"
               [arg_string logFile] :: out,
          Panic p)).
Proof.
  intros Hv Ha Hp Hne. split.
  - intros Hret. unfold Files.main. rewrite Hv, Ha, Hp. simpl.
    rewrite bool_decide_eq_false_2 by (destruct args; simpl; [done|lia]).
    rewrite (Files_files_blocks _ Hret). go_unfold. simpl.
    by rewrite app_nil_r.
  - intros pre logFile post out p -> Hpre Hpanic.
    unfold Files.main. rewrite Hv, Ha, Hp. simpl.
    rewrite bool_decide_eq_false_2 by (rewrite length_app; simpl; lia).
    rewrite (Files_files_panics _ _ _ _ _ Hpre Hpanic). by go_unfold.
Qed.

(** A file that does not exist and then the sample log: the error of the
    first is printed between its markers, and the second is listed.  And a
    file that does not exist, a file whose options record has no [config],
    and the sample log: the second pass panics and the third file is not
    reached. *)
Lemma every_file_is_listed_witness :
  Files.main (H:=sample_command ["nofile.log"; "mongod.log"])
  = ([Printf_call "\n--------START LOG FILE: %s-----------\n"
        [arg_string "nofile.log"];
      Printf_call "mlog info error: %v\n"
        [arg_string ("error opening log file 'nofile.log': "
                     +:+ "open nofile.log: no such file or directory")];
      Printf_call "\n--------END LOG FILE: %s-----------\n"
        [arg_string "nofile.log"];
      Printf_call "\n--------START LOG FILE: %s-----------\n"
        [arg_string "mongod.log"]]
     ++ (Extended.List (H:=Sample.env) "mongod.log").1
     ++ [Printf_call "\n--------END LOG FILE: %s-----------\n"
           [arg_string "mongod.log"]],
     Return {| usage := false; ended := returns |})
  ∧ Files.main
      (H:=noconfig_command ["nofile.log"; "noconfig.log"; "mongod.log"])
    = ([Printf_call "\n--------START LOG FILE: %s-----------\n"
          [arg_string "nofile.log"];
        Printf_call "mlog info error: %v\n"
          [arg_string ("error opening log file 'nofile.log': "
                       +:+ "open nofile.log: no such file or directory")];
        Printf_call "\n--------END LOG FILE: %s-----------\n"
          [arg_string "nofile.log"];
        Printf_call "\n--------START LOG FILE: %s-----------\n"
          [arg_string "noconfig.log"]],
       Panic (interface_conversion any_nil "string")).
Proof.
  split.
  - rewrite (proj1 (every_file_is_listed
                      (H:=sample_command ["nofile.log"; "mongod.log"])
                      ["nofile.log"; "mongod.log"]
                      ["nofile.log"; "mongod.log"]
                      eq_refl eq_refl eq_refl ltac:(done))).
    + by vm_compute.
    + repeat (apply Forall_cons; split; [eexists; by vm_compute|]).
      by apply Forall_nil.
  - rewrite (proj2 (every_file_is_listed
                      (H:=noconfig_command
                            ["nofile.log"; "noconfig.log"; "mongod.log"])
                      ["nofile.log"; "noconfig.log"; "mongod.log"]
                      ["nofile.log"; "noconfig.log"; "mongod.log"]
                      eq_refl eq_refl eq_refl ltac:(done))
               ["nofile.log"] "noconfig.log" ["mongod.log"] []
               (interface_conversion any_nil "string") eq_refl).
    + by vm_compute.
    + repeat (apply Forall_cons; split; [eexists; by vm_compute|]).
      by apply Forall_nil.
    + by vm_compute.
Defined.

(** X13.  The copy of [main] that takes one file, called with the subcommand
    [info]: it lists the first file named and no other, without markers;
    when [info.List] returns an error it prints the error and ends in
    [os.Exit(2)], otherwise it returns.  When the first name is the empty
    string it asks for a file name and ends in [os.Exit(3)], whatever names
    follow. *)
Theorem only_the_first_file_is_listed `{CommandLine}
    (subflags rest : list string) (logFile : string) :
  genericVersion = false →
  flag_Args = "info" :: subflags →
  infoCmd_Parse subflags = inr (logFile :: rest) →
  OneFile.main
  = if String.eqb logFile "" then
      ([Printf_call "Log file name required: 'mlog info <filename>'\n" []],
       Return {| usage := false; ended := os_Exit 3 |})
    else
      match info_List logFile with
      | (out, Return None) =>
          (out, Return {| usage := false; ended := returns |})
      | (out, Return (Some err)) =>
          (out ++ [Printf_call "mlog info error: %v\n" [arg_string err]],
           Return {| usage := false; ended := os_Exit 2 |})
      | (out, Panic p) => (out, Panic p)
      end.
Proof.
  intros Hv Ha Hp. unfold OneFile.main. rewrite Hv, Ha, Hp. simpl.
  destruct (String.eqb logFile ""); [done|].
  destruct (info_List logFile) as [out [[err|]|p]]; go_unfold; simpl; [done| |done].
  by rewrite app_nil_r.
Qed.

(** A file that does not exist and then the sample log: the error of the
    first, [os.Exit(2)], and nothing of the second. *)
Lemma only_the_first_file_is_listed_witness :
  OneFile.main (H:=sample_command ["nofile.log"; "mongod.log"])
  = ([Printf_call "mlog info error: %v\n"
        [arg_string ("error opening log file 'nofile.log': "
                     +:+ "open nofile.log: no such file or directory")]],
     Return {| usage := false; ended := os_Exit 2 |}).
Proof.
  rewrite (only_the_first_file_is_listed
             (H:=sample_command ["nofile.log"; "mongod.log"])
             ["nofile.log"; "mongod.log"] ["mongod.log"] "nofile.log"
             eq_refl eq_refl eq_refl).
  by vm_compute.
Defined.

(** X14.  Both copies of [main], called with a subcommand other than
    [info]: nothing is printed, [info.List] is not called, and [main]
    returns as after a success; the [switch] has no default case. *)
Theorem unknown_subcommand_is_accepted `{CommandLine}
    (subcommand : string) (subflags : list string) :
  genericVersion = false →
  flag_Args = subcommand :: subflags →
  subcommand ≠ "info" →
  Files.main = ([], Return {| usage := false; ended := returns |})
  ∧ OneFile.main = ([], Return {| usage := false; ended := returns |}).
Proof.
  intros Hv Ha Hs%String.eqb_neq.
  unfold Files.main, OneFile.main. by rewrite Hv, Ha, Hs.
Qed.

(** [mlog list mongod.log]. *)
Lemma unknown_subcommand_is_accepted_witness :
  Files.main
    (H:={| version := "mlog 0.1"; genericVersion := false;
           flag_Args := ["list"; "mongod.log"]; infoCmd_Parse := inr;
           info_List := Extended.List (H:=Sample.env) |})
  = ([], Return {| usage := false; ended := returns |}).
Proof.
  apply (unknown_subcommand_is_accepted
           (H:={| version := "mlog 0.1"; genericVersion := false;
                  flag_Args := ["list"; "mongod.log"]; infoCmd_Parse := inr;
                  info_List := Extended.List (H:=Sample.env) |})
           "list" ["mongod.log"] eq_refl eq_refl).
  done.
Defined.
